(** * muse-eval: the Replicate image-edit job client

    A shallow embedding of the polling client of [muse_edit_image_tool.py]
    (the Open WebUI tool, version 0.3.0), together with the sibling loops of
    [muse_test_harness.py] and [quick_test.py] and the places where the
    earlier tool [replicate_qwen_image_edit.py] differs, and the properties
    of the asynchronous job protocol that the specification states about
    them.

    Conventions of the embedding:
    - JSON values and Python dictionaries are the inductive type [pyval];
      a dictionary is an association list in insertion order, since the
      order of the image slots of a request matters;
    - a Python [str] is a [string]; each character is read as one code
      point, so that characters above 127 are the non-ASCII ones;
    - [bytes] are lists of integers in [0, 255];
    - the clock of the polling loop is modelled twice: [Tools] adds the
      durations as exact rationals ([Q]), and [Timed] runs the same loop on
      a [clock], an interface to the arithmetic the loop uses, whose
      instance [binary64_clock] is the arithmetic of Python's [float];
      [Tools] is [Timed] on the exact clock, and what depends on the
      values of the clock is stated on [Timed], for every clock;
    - code that can raise returns a sum [exn + A]; the network is an
      oracle (a record of replies), and every call made on it is written
      to a log, so that the number of creation calls and polls of a run
      can be counted. *)

From Stdlib Require Import ZArith QArith Qround List String Ascii Bool Lia Lqa.
From Stdlib Require Import DecimalString.
From Stdlib Require Import Floats.
Import ListNotations.
Local Open Scope string_scope.
Local Open Scope list_scope.
Local Open Scope Z_scope.
#[local] Set Warnings "-register-all".

(** ** Python values *)

Inductive pyval : Type :=
| PNone
| PBool (b : bool)
| PInt (z : Z)
| PStr (s : string)
| PList (l : list pyval)
| PDict (d : list (string * pyval)).

Definition dict := list (string * pyval).

(** Raised exceptions, as far as the handlers of the code tell them apart:
    [aiohttp.ClientError] (in the synchronous scripts, the exception of
    [requests]) has a handler of its own in the tool, everything else is
    caught by [except Exception] (or by a bare [except]). *)
Inductive exn : Type :=
| ClientError
| OtherError (name : string).

Definition exc (A : Type) : Type := (exn + A)%type.

Definition ret {A} (a : A) : exc A := inr a.
Definition raise {A} (e : exn) : exc A := inl e.
Definition bind {A B} (m : exc A) (k : A -> exc B) : exc B :=
  match m with
  | inl e => inl e
  | inr a => k a
  end.

Notation "'do' x <- m ; k" := (bind m (fun x => k))
  (at level 10, x name, m at level 100, k at level 200).

Module Py.

Fixpoint lookup (d : dict) (k : string) : option pyval :=
  match d with
  | [] => None
  | (k', v) :: rest => if String.eqb k' k then Some v else lookup rest k
  end.

(** [d.get(k)] *)
Definition get (d : dict) (k : string) : pyval :=
  match lookup d k with
  | Some v => v
  | None => PNone
  end.

(** [d.get(k, default)] *)
Definition get_default (d : dict) (k : string) (default : pyval) : pyval :=
  match lookup d k with
  | Some v => v
  | None => default
  end.

(** [d[k] = v]: an existing key keeps its place, a new one goes last. *)
Fixpoint set (d : dict) (k : string) (v : pyval) : dict :=
  match d with
  | [] => [(k, v)]
  | (k', v') :: rest =>
      if String.eqb k' k then (k', v) :: rest else (k', v') :: set rest k v
  end.

(** Truth value of an object in a condition. *)
Definition truthy (v : pyval) : bool :=
  match v with
  | PNone => false
  | PBool b => b
  | PInt z => negb (z =? 0)
  | PStr s => negb (String.eqb s EmptyString)
  | PList l => match l with [] => false | _ => true end
  | PDict d => match d with [] => false | _ => true end
  end.

(** [v == "literal"] *)
Definition eq_str (v : pyval) (s : string) : bool :=
  match v with
  | PStr s' => String.eqb s' s
  | _ => false
  end.

(** [s.startswith(p)] *)
Definition startswith (s p : string) : bool := String.prefix p s.

(** [s[:n]] *)
Definition take (n : nat) (s : string) : string := substring 0 n s.

(** [s.split(",", 1)[1] if "," in s else s] is [after_comma s] when it is
    [Some], and [s] itself otherwise. *)
Fixpoint after_comma (s : string) : option string :=
  match s with
  | EmptyString => None
  | String c rest =>
      if Ascii.eqb c ","%char then Some rest else after_comma rest
  end.

(** [int(q)]: truncation towards zero. *)
Definition int (q : Q) : Z :=
  if Qle_bool 0 q then Qfloor q else Qceiling q.

End Py.

(** ** [base64.b64decode] on a [str]

    The standard library first encodes the string as ASCII (raising
    [ValueError] on any other character) and then runs
    [binascii.a2b_base64] in its lenient mode: characters outside the
    alphabet are skipped, a complete pad sequence ends the input, and data
    left in an incomplete quad is an error. *)
Module Base64.

Definition code (c : ascii) : Z := Z.of_N (N_of_ascii c).

Fixpoint codes (s : string) : list Z :=
  match s with
  | EmptyString => []
  | String c rest => code c :: codes rest
  end.

(** [table_a2b_base64]: 255 marks a character outside the alphabet. *)
Definition table_a2b (c : Z) : Z :=
  if (65 <=? c) && (c <=? 90) then c - 65
  else if (97 <=? c) && (c <=? 122) then c - 97 + 26
  else if (48 <=? c) && (c <=? 57) then c - 48 + 52
  else if c =? 43 then 62
  else if c =? 47 then 63
  else 255.

Definition BASE64_PAD : Z := 61.

Definition u8 (z : Z) : Z := Z.land z 255.

(** The decoding loop.  [inl bin] is the jump to [done] on a complete pad
    sequence; [inr (quad_pos, bin)] is the normal end of the input. *)
Fixpoint a2b_loop (data : list Z) (quad_pos leftchar pads : Z)
    (bin : list Z) : list Z + Z * list Z :=
  match data with
  | [] => inr (quad_pos, bin)
  | this_ch :: rest =>
      if this_ch =? BASE64_PAD then
        if quad_pos >=? 2 then
          if quad_pos + (pads + 1) >=? 4 then inl bin
          else a2b_loop rest quad_pos leftchar (pads + 1) bin
        else a2b_loop rest quad_pos leftchar pads bin
      else
        let v := table_a2b this_ch in
        if v >=? 64 then a2b_loop rest quad_pos leftchar pads bin
        else if quad_pos =? 0 then
          a2b_loop rest 1 v 0 bin
        else if quad_pos =? 1 then
          a2b_loop rest 2 (Z.land v 15) 0
            (bin ++ [u8 (Z.lor (Z.shiftl leftchar 2) (Z.shiftr v 4))])
        else if quad_pos =? 2 then
          a2b_loop rest 3 (Z.land v 3) 0
            (bin ++ [u8 (Z.lor (Z.shiftl leftchar 4) (Z.shiftr v 2))])
        else
          a2b_loop rest 0 0 0
            (bin ++ [u8 (Z.lor (Z.shiftl leftchar 6) v)])
  end.

Definition a2b_base64 (data : list Z) : exc (list Z) :=
  match a2b_loop data 0 0 0 [] with
  | inl bin => ret bin
  | inr (quad_pos, bin) =>
      if quad_pos =? 0 then ret bin else raise (OtherError "binascii.Error")
  end.

Definition b64decode (s : string) : exc (list Z) :=
  let data := codes s in
  if forallb (fun c => c <=? 127) data then a2b_base64 data
  else raise (OtherError "ValueError").

End Base64.

(** ** [bytes] helpers *)

Fixpoint bytes_startswith (h p : list Z) : bool :=
  match p, h with
  | [], _ => true
  | _ :: _, [] => false
  | x :: p', y :: h' => (x =? y) && bytes_startswith h' p'
  end.

(** [p in h] on bytes: [p] occurs as a contiguous slice of [h]. *)
Fixpoint bytes_contains (h p : list Z) : bool :=
  bytes_startswith h p ||
  match h with
  | [] => false
  | _ :: h' => bytes_contains h' p
  end.

Definition PNG_MAGIC : list Z := [137; 80; 78; 71].   (* b'\x89PNG' *)
Definition JPEG_MAGIC : list Z := [255; 216; 255].    (* b'\xff\xd8\xff' *)
Definition GIF_MAGIC : list Z := [71; 73; 70].        (* b'GIF' *)
Definition RIFF_MAGIC : list Z := [82; 73; 70; 70].   (* b'RIFF' *)
Definition WEBP_MAGIC : list Z := [87; 69; 66; 80].   (* b'WEBP' *)

(** ** [detect_image_mime] *)

(** The body of the [try] block: [Some mime] is a [return] inside it,
    [None] is falling out of the [if] chain. *)
Definition detect_image_mime_try (base64_data : string)
    : exc (option string) :=
  do header <- Base64.b64decode (Py.take 32 base64_data);
  if bytes_startswith header PNG_MAGIC then ret (Some "image/png")
  else if bytes_startswith header JPEG_MAGIC then ret (Some "image/jpeg")
  else if bytes_startswith header GIF_MAGIC then ret (Some "image/gif")
  else if bytes_startswith header RIFF_MAGIC && bytes_contains header WEBP_MAGIC
  then ret (Some "image/webp")
  else ret None.

(** The bare [except: pass] swallows every exception of the block; both
    that path and the fall-through reach the final [return "image/png"]. *)
Definition detect_image_mime (base64_data : string) : string :=
  match detect_image_mime_try base64_data with
  | inr (Some mime) => mime
  | inr None => "image/png"
  | inl _ => "image/png"
  end.

(** ** [extract_images_from_messages] *)

Definition is_user (message : dict) : bool :=
  Py.eq_str (Py.get message "role") "user".

(** The first user message met when walking the transcript backwards. *)
Definition last_user_message (messages : list dict) : option dict :=
  find is_user (rev messages).

(** What one content item contributes: the base64 part of a data URI, an
    http URL as it is, or nothing. *)
Definition item_image (item : pyval) : option string :=
  match item with
  | PDict d =>
      if Py.eq_str (Py.get d "type") "image_url" then
        let image_url_obj := Py.get_default d "image_url" (PDict []) in
        let url :=
          match image_url_obj with
          | PDict o => Py.get o "url"
          | _ => PNone
          end in
        match url with
        | PStr u =>
            if Py.truthy url then
              if Py.startswith u "data:image" then
                match Py.after_comma u with
                | Some base64_data => Some base64_data
                | None => Some u
                end
              else if Py.startswith u "http" then Some u
              else None
            else None
        | _ => None
        end
      else None
  | _ => None
  end.

(** [isinstance(item, dict) and item.get("type") == "image_url"], the
    condition of line 50. *)
Definition is_image_url_item (item : pyval) : bool :=
  match item with
  | PDict d => Py.eq_str (Py.get d "type") "image_url"
  | _ => false
  end.

(** The [for item in content] loop with its [break].  The test of the
    limit (line 66) is inside the branch of line 50: it is made after an
    item of type [image_url], whether or not the item gave an image, and
    not after any other item. *)
Fixpoint collect_images (content : list pyval) (base64_images : list string)
    (max_images : Z) : list string :=
  match content with
  | [] => base64_images
  | item :: rest =>
      if is_image_url_item item then
        let base64_images' :=
          match item_image item with
          | Some img => base64_images ++ [img]
          | None => base64_images
          end in
        if Z.of_nat (List.length base64_images') >=? max_images
        then base64_images'
        else collect_images rest base64_images' max_images
      else collect_images rest base64_images max_images
  end.

Definition extract_images_from_messages (messages : list dict)
    (max_images : Z) : list string :=
  match last_user_message messages with
  | None => []
  | Some m =>
      if negb (Py.truthy (PDict m)) then []
      else
        match Py.get m "content" with
        | PList content => collect_images content [] max_images
        | _ => []
        end
  end.

(** ** The network and the host, as seen by one call *)

(** The answer to one HTTP call: either the call raises
    [aiohttp.ClientError] (respectively a [requests] exception), or it
    yields a response with a status code, a text body and, when the body
    parses, the decoded JSON. *)
Inductive http_reply : Type :=
| NetworkFailure
| Reply (status_code : Z) (text : string) (json : option pyval).

Record World : Type := {
  (** the reply to the creation call *)
  create_reply : http_reply;
  (** the reply to the k-th status check of the run, counted from 0 *)
  poll_reply : nat -> http_reply;
  (** the Open WebUI copy of the result: the id of the stored file when the
      host is available, a request and a user are given, and the download
      and the upload of the image all succeed; [None] in every other case *)
  save_to_webui : pyval -> option string
}.

(** The status-check address: the value found under [urls.get] of the
    creation response, or else the formatted string
    [f"https://api.replicate.com/v1/predictions/{prediction_id}"]. *)
Inductive locator : Type :=
| UrlsGet (v : pyval)
| PredictionUrl (prediction_id : pyval).

Definition PREDICTIONS_PREFIX : string :=
  "https://api.replicate.com/v1/predictions/".

(** The text of a locator, for any rendering [str] of a value inside an
    f-string (the identity on strings). *)
Definition locator_text (str : pyval -> string) (l : locator) : option string :=
  match l with
  | UrlsGet (PStr s) => Some s
  | UrlsGet _ => None
  | PredictionUrl prediction_id =>
      Some (PREDICTIONS_PREFIX ++ str prediction_id)%string
  end.

(** What is sent to the event emitter; [done] is [False] for the first
    two and [True] for the others. *)
Inductive status_event : Type :=
| Generating (img_count : nat) (mode : string)
| Processing (seconds : Z)
| Complete
| NetworkErrorStatus
| ErrorStatus.

(** The calls a run makes on the outside, in order. *)
Inductive effect : Type :=
| Emit (e : status_event)
| HttpPost (url : string) (input : dict)
| Sleep (seconds : Q)
| HttpGet (url : locator).

Definition is_post (e : effect) : bool :=
  match e with HttpPost _ _ => true | _ => false end.
Definition is_get (e : effect) : bool :=
  match e with HttpGet _ => true | _ => false end.
Definition is_progress (e : effect) : bool :=
  match e with Emit (Processing _) => true | _ => false end.

Definition count (f : effect -> bool) (log : list effect) : nat :=
  List.length (filter f log).

(** [status not in ("succeeded", "failed", "canceled")] is
    [negb (is_terminal status)]. *)
Definition is_terminal (status : pyval) : bool :=
  Py.eq_str status "succeeded" || Py.eq_str status "failed"
  || Py.eq_str status "canceled".

(** [output[0] if isinstance(output, list) else output] *)
Definition first_output (output : pyval) : exc pyval :=
  match output with
  | PList (x :: _) => ret x
  | PList [] => raise (OtherError "IndexError")
  | _ => ret output
  end.

(** ** [muse_edit_image_tool.Tools] *)
Module Tools.

Record Valves : Type := {
  replicate_api_token : string;
  model_version : string;
  go_fast : bool;
  default_aspect_ratio : string;
  output_format : string;
  output_quality : Z;
  disable_safety_checker : bool;
  max_wait_time : Z;
  polling_interval : Q;
  return_html_embed : bool;
  show_prompt_in_result : bool
}.

(** The values [edit_image] returns, one constructor per [return]:
    - [NoToken], [NoMessages], [NoImages]: the three validation messages;
    - [ApiError status text]: [f"API error ({resp.status}): {error_text[:200]}"];
    - [Timeout max_wait_time prediction_id]:
      [f"Timeout after {max_wait_time}s. ID: {prediction_id}"];
    - [GenerationFailed error]: [f"Generation failed: {error}"];
    - [GenerationCanceled]: the fixed text [Generation canceled.];
    - [NoOutput result]: [f"No output. Response: {json.dumps(result)[:500]}"];
    - [HtmlImage final_url prompt_section]: the HTML page around
      [final_url], with the escaped prompt when it is shown;
    - [MarkdownImage final_url]: the markdown image link to [final_url];
    - [NetworkError], [UnexpectedError e]: the two [except] handlers. *)
Inductive edit_result : Type :=
| NoToken
| NoMessages
| NoImages
| ApiError (status_code : Z) (error_text : string)
| Timeout (max_wait_time : Z) (prediction_id : pyval)
| GenerationFailed (error : pyval)
| GenerationCanceled
| NoOutput (result : dict)
| HtmlImage (final_url : pyval) (prompt_section : option string)
| MarkdownImage (final_url : pyval)
| NetworkError
| UnexpectedError (e : exn).

Definition image_keys : list string := ["image"; "image_2"; "image_3"].

(** What goes into the slot of one image: a URL as it is, base64 data
    wrapped in a data URI with the detected media type. *)
Definition slot_value (img : string) : string :=
  if Py.startswith img "http" then img
  else
    let mime := detect_image_mime img in
    ("data:" ++ mime ++ ";base64," ++ img)%string.

(** The slot loop: [for i, img in enumerate(images)]. *)
Fixpoint map_images (i : nat) (images : list string) (replicate_input : dict)
    : exc dict :=
  match images with
  | [] => ret replicate_input
  | img :: rest =>
      match nth_error image_keys i with
      | None => raise (OtherError "IndexError")
      | Some key =>
          map_images (S i) rest
            (Py.set replicate_input key (PStr (slot_value img)))
      end
  end.

Definition build_input (valves : Valves) (prompt : string)
    (aspect_ratio : option string) (use_fast : bool) (images : list string)
    : exc dict :=
  let ratio :=
    match aspect_ratio with
    | Some r => if Py.truthy (PStr r) then r else default_aspect_ratio valves
    | None => default_aspect_ratio valves
    end in
  map_images 0 images
    [ ("prompt", PStr prompt);
      ("go_fast", PBool use_fast);
      ("aspect_ratio", PStr ratio);
      ("output_format", PStr (output_format valves));
      ("output_quality", PInt (output_quality valves));
      ("disable_safety_checker", PBool (disable_safety_checker valves)) ].

Definition create_url (valves : Valves) : string :=
  ("https://api.replicate.com/v1/models/" ++ model_version valves
     ++ "/predictions")%string.

(** The handle of a created prediction, with the first status. *)
Record handle : Type := {
  prediction_id : pyval;
  prediction_url : locator;
  initial_status : pyval;
  initial_result : dict
}.

(** Lines 242-247: reading the creation response. *)
Definition read_handle (json : option pyval) : exc handle :=
  match json with
  | None => raise (OtherError "JSONDecodeError")
  | Some (PDict result) =>
      let prediction_id := Py.get result "id" in
      match Py.get_default result "urls" (PDict []) with
      | PDict urls =>
          let get := Py.get urls "get" in
          ret {| prediction_id := prediction_id;
                 prediction_url :=
                   if Py.truthy get then UrlsGet get
                   else PredictionUrl prediction_id;
                 initial_status := Py.get result "status";
                 initial_result := result |}
      | _ => raise (OtherError "AttributeError")
      end
  | Some _ => raise (OtherError "AttributeError")
  end.

(** The creation call, lines 231-247: one POST, then either the early
    [return] of the API error or the handle. *)
Definition submit_prediction (valves : Valves) (w : World)
    (replicate_input : dict) : list effect * exc (edit_result + handle) :=
  ( [HttpPost (create_url valves) replicate_input],
    match create_reply w with
    | NetworkFailure => raise ClientError
    | Reply status_code error_text json =>
        if negb ((status_code =? 200) || (status_code =? 201)) then
          ret (inl (ApiError status_code (Py.take 200 error_text)))
        else
          do h <- read_handle json; ret (inr h)
    end ).

(** The variables of the polling loop, the number of status checks made
    so far, and the calls made so far (latest last). *)
Record poll_state : Type := {
  status : pyval;
  result : dict;
  elapsed : Q;
  last_status_update : Q;
  polls : nat;
  log : list effect
}.

Inductive loop_exit : Type :=
| Finished                (* the [while] condition is false *)
| TimedOut                (* the [return] on the deadline *)
| Raised (e : exn).       (* an exception leaves the loop *)

Inductive step : Type :=
| Next (s : poll_state)
| Exit (x : loop_exit) (s : poll_state).

(** One evaluation of the [while] condition and, when it holds, one pass
    through the body (lines 252-273). *)
Definition poll_step (valves : Valves) (emitter : bool) (w : World)
    (url : locator) (s : poll_state) : step :=
  if is_terminal (status s) then Exit Finished s
  else if Qle_bool (inject_Z (max_wait_time valves)) (elapsed s) then
    Exit TimedOut s
  else
    let elapsed' := (elapsed s + polling_interval valves)%Q in
    let log' := log s ++ [Sleep (polling_interval valves); HttpGet url] in
    let unchanged :=
      {| status := status s; result := result s; elapsed := elapsed';
         last_status_update := last_status_update s;
         polls := S (polls s); log := log' |} in
    match poll_reply w (polls s) with
    | NetworkFailure => Exit (Raised ClientError) unchanged
    | Reply status_code _ json =>
        if status_code =? 200 then
          match json with
          | None => Exit (Raised (OtherError "JSONDecodeError")) unchanged
          | Some (PDict result') =>
              let status' := Py.get result' "status" in
              if emitter
                 && Qle_bool 5 (elapsed' - last_status_update s)%Q then
                Next {| status := status'; result := result';
                        elapsed := elapsed';
                        last_status_update := elapsed';
                        polls := S (polls s);
                        log := log' ++ [Emit (Processing (Py.int elapsed'))] |}
              else
                Next {| status := status'; result := result';
                        elapsed := elapsed';
                        last_status_update := last_status_update s;
                        polls := S (polls s); log := log' |}
          | Some _ => Exit (Raised (OtherError "AttributeError")) unchanged
          end
        else Next unchanged
    end.

(** The [while] loop.  [None]: the loop is still running when the fuel is
    spent. *)
Fixpoint poll_loop (fuel : nat) (valves : Valves) (emitter : bool)
    (w : World) (url : locator) (s : poll_state)
    : option (loop_exit * poll_state) :=
  match fuel with
  | O => None
  | S fuel' =>
      match poll_step valves emitter w url s with
      | Exit x s' => Some (x, s')
      | Next s' => poll_loop fuel' valves emitter w url s'
      end
  end.

(** [n] passes of the loop, as long as it goes on. *)
Fixpoint poll_steps (n : nat) (valves : Valves) (emitter : bool)
    (w : World) (url : locator) (s : poll_state) : step :=
  match n with
  | O => Next s
  | S n' =>
      match poll_step valves emitter w url s with
      | Exit x s' => Exit x s'
      | Next s' => poll_steps n' valves emitter w url s'
      end
  end.

Definition start (h : handle) (log0 : list effect) : poll_state :=
  {| status := initial_status h; result := initial_result h;
     elapsed := 0; last_status_update := 0; polls := 0; log := log0 |}.

Definition escape_char (c : ascii) : string :=
  if Ascii.eqb c (ascii_of_nat 34) then "&quot;"
  else if Ascii.eqb c "<"%char then "&lt;"
  else if Ascii.eqb c ">"%char then "&gt;"
  else String c EmptyString.

Fixpoint escape (prompt : string) : string :=
  match prompt with
  | EmptyString => EmptyString
  | String c rest => (escape_char c ++ escape rest)%string
  end.

(** Lines 290-314: the address shown for the image, the copy stored in
    Open WebUI when there is one and the provider's address otherwise. *)
Definition final_url (w : World) (image_url : pyval) : pyval :=
  match save_to_webui w image_url with
  | Some file_id => PStr ("/api/v1/files/" ++ file_id ++ "/content")%string
  | None => image_url
  end.

(** Lines 275-353: what is returned once the loop has finished. *)
Definition handle_result (valves : Valves) (emitter : bool) (w : World)
    (prompt : string) (s : poll_state) : list effect * exc edit_result :=
  if Py.eq_str (status s) "failed" then
    (log s, ret (GenerationFailed
                   (Py.get_default (result s) "error" (PStr "Unknown error"))))
  else if Py.eq_str (status s) "canceled" then
    (log s, ret GenerationCanceled)
  else
    let output := Py.get (result s) "output" in
    if negb (Py.truthy output) then (log s, ret (NoOutput (result s)))
    else
      match first_output output with
      | inl e => (log s, raise e)
      | inr image_url =>
          let log' := if emitter then log s ++ [Emit Complete] else log s in
          if return_html_embed valves then
            (log', ret (HtmlImage (final_url w image_url)
                          (if show_prompt_in_result valves
                           then Some (escape prompt) else None)))
          else (log', ret (MarkdownImage (final_url w image_url)))
      end.

(** Lines 244-353: from the handle to the returned value. *)
Definition poll_for_completion (fuel : nat) (valves : Valves)
    (emitter : bool) (w : World) (prompt : string) (h : handle)
    (log0 : list effect) : option (list effect * exc edit_result) :=
  match poll_loop fuel valves emitter w (prediction_url h) (start h log0) with
  | None => None
  | Some (Raised e, s) => Some (log s, raise e)
  | Some (TimedOut, s) =>
      Some (log s, ret (Timeout (max_wait_time valves) (prediction_id h)))
  | Some (Finished, s) => Some (handle_result valves emitter w prompt s)
  end.

(** The body of the outer [try]. *)
Definition edit_image_try (fuel : nat) (valves : Valves) (prompt : string)
    (aspect_ratio : option string) (high_fidelity : option bool)
    (emitter : bool) (messages : option (list dict)) (w : World)
    : option (list effect * exc edit_result) :=
  if negb (Py.truthy (PStr (replicate_api_token valves))) then
    Some ([], ret NoToken)
  else
    match messages with
    | None => Some ([], ret NoMessages)
    | Some [] => Some ([], ret NoMessages)
    | Some msgs =>
        let images := extract_images_from_messages msgs 3 in
        match images with
        | [] => Some ([], ret NoImages)
        | _ =>
            let use_fast :=
              match high_fidelity with
              | None => go_fast valves
              | Some hf => negb hf
              end in
            match build_input valves prompt aspect_ratio use_fast images with
            | inl e => Some ([], raise e)
            | inr replicate_input =>
                let mode :=
                  if use_fast then "Lightning" else "High-fidelity" in
                let log0 :=
                  if emitter
                  then [Emit (Generating (List.length images) mode)]
                  else [] in
                let (posted, created) :=
                  submit_prediction valves w replicate_input in
                let log1 := log0 ++ posted in
                match created with
                | inl e => Some (log1, raise e)
                | inr (inl early) => Some (log1, ret early)
                | inr (inr h) =>
                    poll_for_completion fuel valves emitter w prompt h log1
                end
            end
        end
    end.

(** [edit_image], with its two handlers.  [None]: not returned within
    the fuel. *)
Definition edit_image (fuel : nat) (valves : Valves) (prompt : string)
    (aspect_ratio : option string) (high_fidelity : option bool)
    (emitter : bool) (messages : option (list dict)) (w : World)
    : option (edit_result * list effect) :=
  match edit_image_try fuel valves prompt aspect_ratio high_fidelity
          emitter messages w with
  | None => None
  | Some (l, inr r) => Some (r, l)
  | Some (l, inl ClientError) =>
      Some (NetworkError,
            if emitter then l ++ [Emit NetworkErrorStatus] else l)
  | Some (l, inl e) =>
      Some (UnexpectedError e, if emitter then l ++ [Emit ErrorStatus] else l)
  end.

(** The image locations a returned value carries. *)
Definition artifacts (r : edit_result) : list pyval :=
  match r with
  | HtmlImage final_url _ => [final_url]
  | MarkdownImage final_url => [final_url]
  | _ => []
  end.


End Tools.

(** ** Replies of the status check, by what the loops make of them *)

(** A 200 reply with a JSON object whose status is not terminal. *)
Definition reply_running (r : http_reply) : bool :=
  match r with
  | Reply status_code _ (Some (PDict d)) =>
      (status_code =? 200) && negb (is_terminal (Py.get d "status"))
  | _ => false
  end.

(** A reply with a status code other than 200. *)
Definition reply_not_ok (r : http_reply) : bool :=
  match r with
  | Reply status_code _ _ => negb (status_code =? 200)
  | NetworkFailure => false
  end.

(** A reply after which the loop of the tool goes on: the service answers,
    and does not report a terminal state. *)
Definition reply_pending (r : http_reply) : bool :=
  reply_running r || reply_not_ok r.

(** With an interval of 1, the state after [n] status checks of a run that
    began with [c0] progress reports in its log: the clock shows [n], and
    [c] reports were made, the last one at [5 * c], which is the last
    multiple of 5 up to [n]. *)
Definition cadence (c0 : nat) (n c : Z) (s : Tools.poll_state) : Prop :=
  is_terminal (Tools.status s) = false
  /\ (Tools.elapsed s == inject_Z n)%Q
  /\ (Tools.last_status_update s == inject_Z (5 * c))%Q
  /\ 5 * c <= n < 5 * c + 5
  /\ Z.of_nat (count is_progress (Tools.log s)) = Z.of_nat c0 + c
  /\ Z.of_nat (Tools.polls s) = n.

(** The images of one content item, and of one message in the order of
    its content items. *)
Definition item_images (item : pyval) : list string :=
  match item_image item with
  | Some img => [img]
  | None => []
  end.

Definition message_images (m : dict) : list string :=
  match Py.get m "content" with
  | PList content => flat_map item_images content
  | _ => []
  end.

(** ** [muse_test_harness]: [call_replicate] and the use [run_test] makes
    of its result.  The request body is built from image files; it is
    taken here as given. *)
Module Harness.

Definition MODEL : string := "qwen/qwen-image-edit-plus".
Definition max_wait : Z := 300.

Definition str_int (z : Z) : string := NilZero.string_of_int (Z.to_int z).

(** The [while elapsed < max_wait] loop, lines 433-455. *)
Fixpoint call_replicate_poll (fuel : nat) (w : World) (prediction_id : pyval)
    (elapsed : Z) (polls : nat) (log : list effect)
    : option (list effect * exc dict) :=
  match fuel with
  | O => None
  | S fuel' =>
      if elapsed <? max_wait then
        let log' := log ++ [HttpGet (PredictionUrl prediction_id)] in
        match poll_reply w polls with
        | NetworkFailure => Some (log', raise ClientError)
        | Reply _ _ None => Some (log', raise (OtherError "JSONDecodeError"))
        | Reply _ _ (Some (PDict poll_data)) =>
            let status := Py.get poll_data "status" in
            if Py.eq_str status "succeeded" then
              Some (log',
                    ret [ ("success", PBool true);
                          ("output", Py.get poll_data "output");
                          ("metrics",
                           Py.get_default poll_data "metrics" (PDict []));
                          ("prediction_id", prediction_id) ])
            else if Py.eq_str status "failed" || Py.eq_str status "canceled"
            then
              Some (log',
                    ret [ ("success", PBool false);
                          ("error",
                           Py.get_default poll_data "error"
                             (PStr "Unknown error"));
                          ("prediction_id", prediction_id) ])
            else
              call_replicate_poll fuel' w prediction_id (elapsed + 2) (S polls)
                (log' ++ [Sleep 2])
        | Reply _ _ (Some _) =>
            Some (log', raise (OtherError "AttributeError"))
        end
      else
        Some (log,
              ret [ ("success", PBool false);
                    ("error", PStr "Timeout");
                    ("prediction_id", prediction_id) ])
  end.

Definition call_replicate (fuel : nat) (input_data : dict) (w : World)
    : option (list effect * exc dict) :=
  let posted :=
    [HttpPost ("https://api.replicate.com/v1/models/" ++ MODEL
                 ++ "/predictions")%string input_data] in
  match create_reply w with
  | NetworkFailure => Some (posted, raise ClientError)
  | Reply status_code text json =>
      if negb ((status_code =? 200) || (status_code =? 201)) then
        Some (posted,
              ret [ ("error",
                     PStr ("API error: " ++ str_int status_code)%string);
                    ("detail", PStr text) ])
      else
        match json with
        | None => Some (posted, raise (OtherError "JSONDecodeError"))
        | Some (PDict result) =>
            call_replicate_poll fuel w (Py.get result "id") 0 0 posted
        | Some _ => Some (posted, raise (OtherError "AttributeError"))
        end
  end.

(** [run_test], lines 547-552: the URL taken from a result. *)
Definition run_test_output_url (result : dict) : exc pyval :=
  if Py.truthy (Py.get result "success") then
    first_output (Py.get result "output")
  else ret PNone.

End Harness.

(** ** [quick_test.run_edit]: the [while True] loop, lines 80-94.  The
    [duration] of a success is read from the system clock and is left
    out. *)
Module QuickTest.

Inductive run_result : Type :=
| Success (url : pyval)
| Error (error : pyval).

Fixpoint run_edit_poll (fuel : nat) (w : World) (polls : nat)
    : option (exc run_result) :=
  match fuel with
  | O => None
  | S fuel' =>
      match poll_reply w polls with
      | NetworkFailure => Some (raise ClientError)
      | Reply _ _ None => Some (raise (OtherError "JSONDecodeError"))
      | Reply _ _ (Some (PDict poll)) =>
          let status := Py.get poll "status" in
          if Py.eq_str status "succeeded" then
            Some (do url <- first_output (Py.get poll "output");
                  ret (Success url))
          else if Py.eq_str status "failed" || Py.eq_str status "canceled"
          then Some (ret (Error (Py.get_default poll "error" (PStr "Failed"))))
          else run_edit_poll fuel' w (S polls)
      | Reply _ _ (Some _) => Some (raise (OtherError "AttributeError"))
      end
  end.

End QuickTest.

(** ** [replicate_qwen_image_edit]: the earlier version of the tool, where
    it differs from [muse_edit_image_tool] *)
Module Qwen.

(** Only data URIs count as images, and there is no limit. *)
Definition item_image (item : pyval) : option string :=
  match item with
  | PDict d =>
      if Py.eq_str (Py.get d "type") "image_url" then
        let image_url_obj := Py.get_default d "image_url" (PDict []) in
        let url :=
          match image_url_obj with
          | PDict o => Py.get o "url"
          | _ => PNone
          end in
        match url with
        | PStr u =>
            if Py.truthy url && Py.startswith u "data:image" then
              match Py.after_comma u with
              | Some base64_data => Some base64_data
              | None => Some u
              end
            else None
        | _ => None
        end
      else None
  | _ => None
  end.

Fixpoint collect_images (content : list pyval) (base64_images : list string)
    : list string :=
  match content with
  | [] => base64_images
  | item :: rest =>
      collect_images rest
        match item_image item with
        | Some img => base64_images ++ [img]
        | None => base64_images
        end
  end.

Definition extract_images_from_messages (messages : list dict) : list string :=
  match last_user_message messages with
  | None => []
  | Some m =>
      if negb (Py.truthy (PDict m)) then []
      else
        match Py.get m "content" with
        | PList content => collect_images content []
        | _ => []
        end
  end.

(** [edit_image], lines 147-159: the caller keeps the first three. *)
Definition limit_images (base64_images : list string) : list string :=
  if (3 <? List.length base64_images)%nat then firstn 3 base64_images
  else base64_images.

(** Lines 172-175: the key and the data URI of the i-th image. *)
Definition slot_key (i : nat) : string :=
  match i with
  | O => "image"
  | _ => ("image_" ++ Harness.str_int (Z.of_nat i + 1))%string
  end.

Definition slot_value (img_b64 : string) : string :=
  ("data:image/png;base64," ++ img_b64)%string.

(** Lines 219-240: the loop of this version has no [last_status_update];
    it reports on every status check that says [processing]. *)
Definition poll_step (valves : Tools.Valves) (emitter : bool) (w : World)
    (url : locator) (s : Tools.poll_state) : Tools.step :=
  if is_terminal (Tools.status s) then Tools.Exit Tools.Finished s
  else if Qle_bool (inject_Z (Tools.max_wait_time valves)) (Tools.elapsed s)
  then Tools.Exit Tools.TimedOut s
  else
    let elapsed' := (Tools.elapsed s + Tools.polling_interval valves)%Q in
    let log' :=
      Tools.log s ++ [Sleep (Tools.polling_interval valves); HttpGet url] in
    let unchanged :=
      {| Tools.status := Tools.status s; Tools.result := Tools.result s;
         Tools.elapsed := elapsed';
         Tools.last_status_update := Tools.last_status_update s;
         Tools.polls := S (Tools.polls s); Tools.log := log' |} in
    match poll_reply w (Tools.polls s) with
    | NetworkFailure => Tools.Exit (Tools.Raised ClientError) unchanged
    | Reply status_code _ json =>
        if status_code =? 200 then
          match json with
          | None =>
              Tools.Exit (Tools.Raised (OtherError "JSONDecodeError")) unchanged
          | Some (PDict result') =>
              let status' := Py.get result' "status" in
              Tools.Next
                {| Tools.status := status'; Tools.result := result';
                   Tools.elapsed := elapsed';
                   Tools.last_status_update := Tools.last_status_update s;
                   Tools.polls := S (Tools.polls s);
                   Tools.log :=
                     if emitter && Py.eq_str status' "processing"
                     then log' ++ [Emit (Processing (Py.int elapsed'))]
                     else log' |}
          | Some _ =>
              Tools.Exit (Tools.Raised (OtherError "AttributeError")) unchanged
          end
        else Tools.Next unchanged
    end.

Fixpoint poll_steps (n : nat) (valves : Tools.Valves) (emitter : bool)
    (w : World) (url : locator) (s : Tools.poll_state) : Tools.step :=
  match n with
  | O => Tools.Next s
  | S n' =>
      match poll_step valves emitter w url s with
      | Tools.Exit x s' => Tools.Exit x s'
      | Tools.Next s' => poll_steps n' valves emitter w url s'
      end
  end.

End Qwen.

(** ** Sample configurations, transcripts and services *)
Module Sample.

Definition valves (max_wait : Z) (interval : Q) : Tools.Valves :=
  {| Tools.replicate_api_token := "r8_token";
     Tools.model_version := "qwen/qwen-image-edit-plus";
     Tools.go_fast := true;
     Tools.default_aspect_ratio := "match_input_image";
     Tools.output_format := "png";
     Tools.output_quality := 95;
     Tools.disable_safety_checker := false;
     Tools.max_wait_time := max_wait;
     Tools.polling_interval := interval;
     Tools.return_html_embed := true;
     Tools.show_prompt_in_result := false |}.

(** The valves of the tool as installed, with a token: 300 seconds, a
    status check every 1.5. *)
Definition default_valves : Tools.Valves := valves 300 (3 # 2).

Definition png_data : string :=
  "iVBORw0KGgoAAAANSUhEUgAAAAEAAAABCAYAAAAfFcSJAAAADUlEQVR42mNk".
Definition jpeg_data : string := "/9j/4AAQSkZJRgABAQEASABIAAD/2wBDAAEBAQEBAQEB".
Definition gif_data : string :=
  "R0lGODlhAQABAIAAAAAAAP///yH5BAEAAAAALAAAAAABAAEAAAIBRAA7".
Definition webp_data : string :=
  "UklGRhoAAABXRUJQVlA4TA0AAAAvAAAAEAcQERGIiP4HAA==".
Definition text_data : string := "aGVsbG8gd29ybGQ=".

Definition image_item (url : string) : pyval :=
  PDict [("type", PStr "image_url"); ("image_url", PDict [("url", PStr url)])].

Definition text_item (text : string) : pyval :=
  PDict [("type", PStr "text"); ("text", PStr text)].

Definition message (role : string) (content : list pyval) : dict :=
  [("role", PStr role); ("content", PList content)].

Definition png_uri : string := ("data:image/png;base64," ++ png_data)%string.

Definition transcript : list dict :=
  [ message "user" [text_item "first try"; image_item "https://x/old.png"];
    message "assistant" [text_item "done"];
    message "user" [text_item "make the sofa blue"; image_item png_uri;
                    image_item "https://x/ref.jpg"];
    message "assistant" [text_item "working on it"] ].

Definition created (id : string) : http_reply :=
  Reply 201 EmptyString
    (Some (PDict [("id", PStr id); ("status", PStr "starting")])).

Definition poll_json (fields : dict) : http_reply :=
  Reply 200 EmptyString (Some (PDict fields)).

Definition processing : http_reply := poll_json [("status", PStr "processing")].

Definition world (create : http_reply) (polls : nat -> http_reply) : World :=
  {| create_reply := create; poll_reply := polls;
     save_to_webui := fun _ => None |}.

(** A service that accepts the job and never finishes it. *)
Definition never_done : World := world (created "p1") (fun _ => processing).

(** A service that accepts the job and whose first status check cannot
    be reached. *)
Definition unreachable : World :=
  world (created "p1") (fun _ => NetworkFailure).

(** A service that answers every status check with 503. *)
Definition overloaded : World :=
  world (created "p1") (fun _ => Reply 503 "busy" None).

(** A service whose first status check reports the given final fields. *)
Definition done_at_once (fields : dict) : World :=
  world (created "p1") (fun _ => poll_json fields).

Definition handle_p1 : Tools.handle :=
  {| Tools.prediction_id := PStr "p1";
     Tools.prediction_url := PredictionUrl (PStr "p1");
     Tools.initial_status := PStr "starting";
     Tools.initial_result := [("id", PStr "p1"); ("status", PStr "starting")] |}.

Definition run (valves : Tools.Valves) (w : World)
    : option (Tools.edit_result * list effect) :=
  Tools.edit_image 1000 valves "make the sofa blue" None None true
    (Some transcript) w.

(** A request body as the harness builds it. *)
Definition input_data : dict :=
  [ ("prompt", PStr "make the sofa blue"); ("go_fast", PBool true);
    ("aspect_ratio", PStr "match_input_image"); ("output_format", PStr "png");
    ("output_quality", PInt 95); ("image", PList [PStr png_uri]) ].

(** A user message with four inline images. *)
Definition four_images : list dict :=
  [ message "user"
      [ image_item png_uri;
        image_item ("data:image/jpeg;base64," ++ jpeg_data)%string;
        image_item ("data:image/gif;base64," ++ gif_data)%string;
        image_item ("data:image/webp;base64," ++ webp_data)%string ] ].

(** A creation response with an empty identifier. *)
Definition created_without_id : http_reply := created EmptyString.

End Sample.

(** ** Further code of the scripts *)

(** More ways to sort the calls of a log: any report to the emitter, a
    report with [done: True], a pause. *)
Definition is_emit (e : effect) : bool :=
  match e with Emit _ => true | _ => false end.
Definition is_done (e : effect) : bool :=
  match e with
  | Emit Complete | Emit NetworkErrorStatus | Emit ErrorStatus => true
  | _ => false
  end.
Definition is_sleep (e : effect) : bool :=
  match e with Sleep _ => true | _ => false end.

(** The returned values of [edit_image] that come with a final report to
    the emitter: the image (line 317) and the two handlers (lines 357,
    362). *)
Definition reports_done (r : Tools.edit_result) : bool :=
  match r with
  | Tools.HtmlImage _ _ | Tools.MarkdownImage _
  | Tools.NetworkError | Tools.UnexpectedError _ => true
  | _ => false
  end.

(** [s.replace(c, by)] for a pattern of one character. *)
Fixpoint replace_char (c : ascii) (by_ : string) (s : string) : string :=
  match s with
  | EmptyString => EmptyString
  | String c' rest =>
      if Ascii.eqb c' c then (by_ ++ replace_char c by_ rest)%string
      else String c' (replace_char c by_ rest)
  end.

(** Line 327 as it is written: three replacements, one after the other. *)
Definition escaped_prompt (prompt : string) : string :=
  replace_char ">"%char "&gt;"
    (replace_char "<"%char "&lt;"
       (replace_char (ascii_of_nat 34) "&quot;" prompt)).

(** [c in s] for a character. *)
Fixpoint has_char (c : ascii) (s : string) : bool :=
  match s with
  | EmptyString => false
  | String c' rest => Ascii.eqb c' c || has_char c rest
  end.

(** The six parameters every request of the tool starts with. *)
Definition base_keys : list string :=
  [ "prompt"; "go_fast"; "aspect_ratio"; "output_format"; "output_quality";
    "disable_safety_checker" ].

(** One pause and one status check per pass: the clock is the number of
    status checks times the interval. *)
Definition accounted (valves : Tools.Valves) (log0 : list effect)
    (s : Tools.poll_state) : Prop :=
  (Tools.elapsed s
   == inject_Z (Z.of_nat (Tools.polls s)) * Tools.polling_interval valves)%Q
  /\ count is_get (Tools.log s) = (count is_get log0 + Tools.polls s)%nat
  /\ count is_sleep (Tools.log s) = (count is_sleep log0 + Tools.polls s)%nat.

(** A service that holds the creation call until the job has ended, as the
    [Prefer: wait] header asks: the creation response carries the output. *)
Definition finished_at_creation : World :=
  Sample.world
    (Reply 201 EmptyString
       (Some (PDict [("id", PStr "p1"); ("status", PStr "succeeded");
                     ("output", PStr "https://x/a.png")])))
    (fun _ => Sample.processing).

(** ** [muse_test_harness]: the test cases and the identifiers of their
    results *)
Module TestCases.

(** A test case, with the fields the runner reads; its name, difficulty,
    prompt and criteria are texts that are passed on as they are. *)
Record test_case : Type := {
  id : string;
  category : string;
  images_needed : list string;
  special_instructions : option string
}.

Definition TEST_CASES : list test_case :=
  [ {| id := "scale_001"; category := "Precise Scale";
       images_needed := ["living_room.jpg"];
       special_instructions := None |};
    {| id := "scale_002"; category := "Precise Scale";
       images_needed := ["dining_room.jpg"];
       special_instructions := None |};
    {| id := "product_001"; category := "Product Replication";
       images_needed := ["living_room.jpg"; "chair_reference.jpg"];
       special_instructions := None |};
    {| id := "product_002"; category := "Product Replication";
       images_needed := ["dining_room.jpg"; "chair_reference.jpg"];
       special_instructions := None |};
    {| id := "complex_001"; category := "Multi-Element";
       images_needed := ["living_room.jpg"];
       special_instructions := None |};
    {| id := "complex_002"; category := "Multi-Element";
       images_needed := ["kitchen.jpg"];
       special_instructions := None |};
    {| id := "realism_001"; category := "Photorealistic Integration";
       images_needed := ["living_room.jpg"];
       special_instructions := None |};
    {| id := "realism_002"; category := "Photorealistic Integration";
       images_needed := ["living_room.jpg"];
       special_instructions := None |};
    {| id := "consistency_001"; category := "Consistency";
       images_needed := ["living_room.jpg"];
       special_instructions :=
         Some "RUN THIS 3 TIMES with same prompt, compare results" |};
    {| id := "material_001"; category := "Material Transfer";
       images_needed := ["kitchen.jpg"; "marble_sample.jpg"];
       special_instructions := None |};
    {| id := "material_002"; category := "Material Transfer";
       images_needed := ["living_room.jpg"; "fabric_sample.jpg"];
       special_instructions := None |};
    {| id := "style_001"; category := "Style Transfer";
       images_needed := ["living_room.jpg"; "japandi_reference.png"];
       special_instructions := None |};
    {| id := "edge_001"; category := "Edge Cases";
       images_needed := ["living_room.jpg"];
       special_instructions := None |};
    {| id := "edge_002"; category := "Edge Cases";
       images_needed := ["living_room.jpg"];
       special_instructions := None |} ].

(** [sub in s] *)
Fixpoint contains (sub s : string) : bool :=
  String.prefix sub s
  || match s with
     | EmptyString => false
     | String _ rest => contains sub rest
     end.

(** [s.split(sep)[0]] for a separator that is not empty: the text before
    the first occurrence of [sep], the whole of [s] when there is none. *)
Fixpoint split_first (sep s : string) : string :=
  if String.prefix sep s then EmptyString
  else
    match s with
    | EmptyString => EmptyString
    | String c rest => String c (split_first sep rest)
    end.

(** [run_test], lines 499-501: the identifier of a result. *)
Definition run_test_id (tc : test_case) (run_number : Z) : string :=
  if run_number >? 1
  then (id tc ++ "_run" ++ Harness.str_int run_number)%string
  else id tc.

(** [run_all_tests], lines 588-600: the test cases that are run, and the
    run numbers of each. *)
Definition selected (categories : option (list string)) (tc : test_case)
    : bool :=
  match categories with
  | Some (c :: cs) => existsb (String.eqb (category tc)) (c :: cs)
  | _ => true
  end.

Definition run_numbers (tc : test_case) : list Z :=
  if contains "RUN THIS 3 TIMES"
       match special_instructions tc with
       | Some text => text
       | None => EmptyString
       end
  then [1; 2; 3]
  else [1].

Definition run_all_tests_ids (categories : option (list string))
    : list string :=
  flat_map (fun tc => map (run_test_id tc) (run_numbers tc))
    (filter (selected categories) TEST_CASES).

(** [generate_evaluation_sheet], line 702: the test case a result is shown
    with. *)
Definition original (test_id : string) : option test_case :=
  find (fun t => String.eqb (id t) (split_first "_run" test_id)) TEST_CASES.

End TestCases.

(** ** [muse_test_harness]: the results and their summary *)
Module Results.

(** [TestResult], with the fields the summaries read. *)
Record TestResult : Type := {
  test_id : string;
  category : string;
  duration_seconds : Q;
  success : bool
}.

(** [sum(1 for r in results if r.success)] and its opposite. *)
Definition successful (results : list TestResult) : nat :=
  List.length (filter success results).
Definition failed (results : list TestResult) : nat :=
  List.length (filter (fun r => negb (success r)) results).

(** [save_results], lines 612-619: the three counts of the saved file. *)
Record saved : Type := {
  total_tests : nat;
  saved_successful : nat;
  saved_failed : nat
}.

Definition save_results (results : list TestResult) : saved :=
  {| total_tests := List.length results;
     saved_successful := successful results;
     saved_failed := failed results |}.

(** [print_summary], lines 636-642: the dictionary of the categories, in
    the order in which they are first met, each with its two counters. *)
Fixpoint tally_one (cat : string) (ok : bool)
    (categories : list (string * (nat * nat))) : list (string * (nat * nat)) :=
  match categories with
  | [] => [(cat, if ok then (1, 0) else (0, 1))%nat]
  | (c, (s, f)) :: rest =>
      if String.eqb c cat
      then (c, if ok then (S s, f) else (s, S f)) :: rest
      else (c, (s, f)) :: tally_one cat ok rest
  end.

Definition tally (results : list TestResult) : list (string * (nat * nat)) :=
  fold_left (fun categories r => tally_one (category r) (success r) categories)
    results [].

(** [a / b * 100]; the division raises on a zero divisor. *)
Definition rate (a b : nat) : exc Q :=
  if (b =? 0)%nat then raise (OtherError "ZeroDivisionError")
  else ret (inject_Z (Z.of_nat a) / inject_Z (Z.of_nat b) * 100)%Q.

(** A printed line of the table: category, passes, failures, rate (shown
    rounded to a whole number, which is left out here). *)
Definition row : Type := (string * nat * nat * Q)%type.

(** Lines 647-650: the lines of the categories. *)
Fixpoint category_rows (categories : list (string * (nat * nat)))
    : exc (list row) :=
  match categories with
  | [] => ret []
  | (cat, (s, f)) :: rest =>
      let total := (s + f)%nat in
      do r <- (if (0 <? total)%nat then rate s total else ret 0%Q);
      do rows <- category_rows rest;
      ret ((cat, s, f, r) :: rows)
  end.

(** Lines 653-656: the line of the totals. *)
Definition total_row (results : list TestResult) : exc row :=
  let total_success := successful results in
  let total := List.length results in
  do r <- rate total_success total;
  ret ("TOTAL", total_success, (total - total_success)%nat, r).

(** [print_summary]: the lines of the categories, then the line of the
    totals.  The average time, printed last, is left out. *)
Definition print_summary (results : list TestResult) : exc (list row * row) :=
  do rows <- category_rows (tally results);
  do total <- total_row results;
  ret (rows, total).

(** The passes and the failures of one category among the results. *)
Definition passes_in (cat : string) (results : list TestResult) : nat :=
  List.length
    (filter (fun r => String.eqb (category r) cat && success r) results).
Definition failures_in (cat : string) (results : list TestResult) : nat :=
  List.length
    (filter (fun r => String.eqb (category r) cat && negb (success r)) results).

(** The columns of a line. *)
Definition row_category (x : row) : string := fst (fst (fst x)).
Definition row_passes (x : row) : nat := snd (fst (fst x)).
Definition row_failures (x : row) : nat := snd (fst x).

End Results.

(** Three results in two categories. *)
Definition sample_results : list Results.TestResult :=
  [ {| Results.test_id := "scale_001"; Results.category := "Precise Scale";
       Results.duration_seconds := 12; Results.success := true |};
    {| Results.test_id := "edge_001"; Results.category := "Edge Cases";
       Results.duration_seconds := 0; Results.success := false |};
    {| Results.test_id := "scale_002"; Results.category := "Precise Scale";
       Results.duration_seconds := 9; Results.success := true |} ].



(** ** [encode_image] of the scripts: [base64.b64encode] *)
Module Encode.

(** [table_b2a_base64]: the character code of a six-bit value. *)
Definition table_b2a (v : Z) : Z :=
  if v <? 26 then v + 65
  else if v <? 52 then v - 26 + 97
  else if v <? 62 then v - 52 + 48
  else if v =? 62 then 43
  else 47.

(** [binascii.b2a_base64(bin, newline=False)]: three bytes give four
    characters, and the last one or two bytes are padded. *)
Fixpoint b2a_base64 (bin : list Z) : list Z :=
  match bin with
  | [] => []
  | [a] =>
      [ table_b2a (Z.shiftr a 2);
        table_b2a (Z.shiftl (Z.land a 3) 4);
        Base64.BASE64_PAD; Base64.BASE64_PAD ]
  | [a; b] =>
      [ table_b2a (Z.shiftr a 2);
        table_b2a (Z.lor (Z.shiftl (Z.land a 3) 4) (Z.shiftr b 4));
        table_b2a (Z.shiftl (Z.land b 15) 2);
        Base64.BASE64_PAD ]
  | a :: b :: c :: rest =>
      table_b2a (Z.shiftr a 2)
      :: table_b2a (Z.lor (Z.shiftl (Z.land a 3) 4) (Z.shiftr b 4))
      :: table_b2a (Z.lor (Z.shiftl (Z.land b 15) 2) (Z.shiftr c 6))
      :: table_b2a (Z.land c 63)
      :: b2a_base64 rest
  end.

(** [bytes.decode()] of ASCII bytes. *)
Fixpoint chars (data : list Z) : string :=
  match data with
  | [] => EmptyString
  | c :: rest => String (ascii_of_N (Z.to_N c)) (chars rest)
  end.

(** [encode_image], on the content of the file:
    [base64.b64encode(f.read()).decode("utf-8")]. *)
Definition encode_image (content : list Z) : string :=
  chars (b2a_base64 content).

(** A byte. *)
Definition is_byte (b : Z) : bool := (0 <=? b) && (b <? 256).

(** The values from 0 up to [n], excluded. *)
Definition below (n : nat) : list Z := map Z.of_nat (seq 0 n).

End Encode.

(** The [if] chain of [detect_image_mime], lines 76-86, on a header that
    has been decoded. *)
Definition header_mime (header : list Z) : string :=
  if bytes_startswith header PNG_MAGIC then "image/png"
  else if bytes_startswith header JPEG_MAGIC then "image/jpeg"
  else if bytes_startswith header GIF_MAGIC then "image/gif"
  else if bytes_startswith header RIFF_MAGIC && bytes_contains header WEBP_MAGIC
  then "image/webp"
  else "image/png".

(** ** [muse_test_harness]: the request of [call_replicate], lines
    390-411.  An image is given by the name of its file (the last
    component of its path) and the content of the file. *)
Module HarnessInput.

(** The text from the last dot on, when there is a dot. *)
Fixpoint last_dot (s : string) : option string :=
  match s with
  | EmptyString => None
  | String c rest =>
      match last_dot rest with
      | Some t => Some t
      | None => if Ascii.eqb c "."%char then Some (String c rest) else None
      end
  end.

(** [PurePath.suffix] on the name: with [i = name.rfind('.')], the text
    [name[i:]] when [0 < i < len(name) - 1], and the empty text
    otherwise.  (From Python 3.14 on a name that ends in a dot has that
    dot as its suffix; no entry of the tables below is a single dot.) *)
Definition suffix (name : string) : string :=
  match name with
  | EmptyString => EmptyString
  | String _ rest =>
      match last_dot rest with
      | Some t => if (1 <? String.length t)%nat then t else EmptyString
      | None => EmptyString
      end
  end.

(** [str.lower] on the letters of ASCII. *)
Definition lower_char (c : ascii) : ascii :=
  let n := nat_of_ascii c in
  if ((65 <=? n) && (n <=? 90))%nat then ascii_of_nat (n + 32) else c.

Fixpoint lower (s : string) : string :=
  match s with
  | EmptyString => EmptyString
  | String c rest => String (lower_char c) (lower rest)
  end.

(** The table of a script, with its default. *)
Definition mime_of_ext (ext default : string) : string :=
  if String.eqb ext ".jpg" then "image/jpeg"
  else if String.eqb ext ".jpeg" then "image/jpeg"
  else if String.eqb ext ".png" then "image/png"
  else if String.eqb ext ".webp" then "image/webp"
  else default.

(** [get_mime_type], lines 371-379. *)
Definition get_mime_type (name : string) : string :=
  mime_of_ext (lower (suffix name)) "image/png".


Definition data_uri (image : string * list Z) : string :=
  ("data:" ++ get_mime_type (fst image) ++ ";base64,"
   ++ Encode.encode_image (snd image))%string.

(** [for i, img_path in enumerate(images[:3])] *)
Fixpoint add_images (i : nat) (images : list (string * list Z))
    (input_data : dict) : exc dict :=
  match images with
  | [] => ret input_data
  | image :: rest =>
      match nth_error Tools.image_keys i with
      | None => raise (OtherError "IndexError")
      | Some key =>
          add_images (S i) rest
            (Py.set input_data key (PList [PStr (data_uri image)]))
      end
  end.

Definition build_input (prompt : string) (images : list (string * list Z))
    (go_fast : bool) (seed : option Z) : exc dict :=
  let input_data :=
    [ ("prompt", PStr prompt); ("go_fast", PBool go_fast);
      ("aspect_ratio", PStr "match_input_image");
      ("output_format", PStr "png"); ("output_quality", PInt 95) ] in
  let input_data :=
    match seed with
    | Some n => Py.set input_data "seed" (PInt n)
    | None => input_data
    end in
  add_images 0 (firstn 3 images) input_data.

End HarnessInput.

(** A reply after which the loop of the quick test goes on: a JSON object
    whose status is not terminal, whatever the status code. *)
Definition reply_unfinished (r : http_reply) : bool :=
  match r with
  | Reply _ _ (Some (PDict d)) => negb (is_terminal (Py.get d "status"))
  | _ => false
  end.

(** Where the status and the result of the loop come from: the creation
    response, or an earlier status check that was answered with 200 and a
    JSON object. *)
Definition sourced (w : World) (h : Tools.handle) (s : Tools.poll_state)
    : Prop :=
  Tools.status s = Py.get (Tools.result s) "status"
  /\ (Tools.result s = Tools.initial_result h
      \/ exists k text,
           (k < Tools.polls s)%nat
           /\ poll_reply w k = Reply 200 text (Some (PDict (Tools.result s)))).

(** ** The clock of the polling loop

    The loop of the tool keeps its time in [elapsed]: it starts as the
    integer 0, and [polling_interval], a [float], is added to it after
    every pause, in the floating-point arithmetic of the machine.  The
    arithmetic the loop uses is gathered in a [clock] over the type
    [time] of its values, so that the loop can be run with the numbers of
    the machine as well as with exact ones:
    - [zero]: the first value of [elapsed] and of [last_status_update];
    - [tick]: [elapsed += self.valves.polling_interval];
    - [pause]: the argument of [asyncio.sleep], as a number of seconds;
    - [reached]: [elapsed >= self.valves.max_wait_time];
    - [due]: [elapsed - last_status_update >= 5];
    - [seconds]: [int(elapsed)], which raises for a value that is not
      finite. *)
Record clock (time : Type) : Type := {
  zero : time;
  tick : time -> time;
  pause : Q;
  reached : Z -> time -> bool;
  due : time -> time -> bool;
  seconds : time -> exc Z
}.

Arguments zero {time}.
Arguments tick {time}.
Arguments pause {time}.
Arguments reached {time}.
Arguments due {time}.
Arguments seconds {time}.

(** The clock of exact arithmetic, which [Tools] above runs on. *)
Definition exact_clock (interval : Q) : clock Q :=
  {| zero := 0%Q;
     tick := fun elapsed => (elapsed + interval)%Q;
     pause := interval;
     reached := fun max_wait_time elapsed =>
                  Qle_bool (inject_Z max_wait_time) elapsed;
     due := fun elapsed last_status_update =>
              Qle_bool 5 (elapsed - last_status_update)%Q;
     seconds := fun elapsed => ret (Py.int elapsed) |}.

(** The number a finite [float] stands for. *)
Definition float_value (f : float) : Q :=
  match Prim2SF f with
  | S754_finite sign m e =>
      ((if sign then -1 else 1) * inject_Z (Zpos m) * Qpower 2 e)%Q
  | _ => 0%Q
  end.

(** The clock of the machine: binary64 numbers, as Python's [float].
    Adding and subtracting round to the nearest number; the comparison
    with the integer [max_wait_time] is exact, as Python's is; [int]
    raises [OverflowError] on an infinity and [ValueError] on a NaN.  The
    interval is a finite number. *)
Definition binary64_clock (interval : float) : clock float :=
  {| zero := 0%float;
     tick := fun elapsed => PrimFloat.add elapsed interval;
     pause := float_value interval;
     reached := fun max_wait_time elapsed =>
                  match Prim2SF elapsed with
                  | S754_infinity sign => negb sign
                  | S754_nan => false
                  | _ => Qle_bool (inject_Z max_wait_time) (float_value elapsed)
                  end;
     due := fun elapsed last_status_update =>
              PrimFloat.leb 5%float
                (PrimFloat.sub elapsed last_status_update);
     seconds := fun elapsed =>
                  match Prim2SF elapsed with
                  | S754_infinity _ => raise (OtherError "OverflowError")
                  | S754_nan => raise (OtherError "ValueError")
                  | _ => ret (Py.int (float_value elapsed))
                  end |}.

(** The clock after [n] pauses. *)
Fixpoint clock_after {time : Type} (C : clock time) (n : nat) : time :=
  match n with
  | O => zero C
  | S n' => tick C (clock_after C n')
  end.

(** ** [Tools.edit_image] on a clock: the loop of lines 249-273 and the
    function around it, with the arithmetic of the clock in place of the
    exact one.  The field [polling_interval] of the valves is not read:
    the interval is the one of the clock. *)
Module Timed.

Section OnClock.

Variable time : Type.
Variable C : clock time.

Record poll_state : Type := {
  status : pyval;
  result : dict;
  elapsed : time;
  last_status_update : time;
  polls : nat;
  log : list effect
}.

Inductive step : Type :=
| Next (s : poll_state)
| Exit (x : Tools.loop_exit) (s : poll_state).

(** One pass of the [while] loop. *)
Definition poll_step (valves : Tools.Valves) (emitter : bool) (w : World)
    (url : locator) (s : poll_state) : step :=
  if is_terminal (status s) then Exit Tools.Finished s
  else if reached C (Tools.max_wait_time valves) (elapsed s) then
    Exit Tools.TimedOut s
  else
    let elapsed' := tick C (elapsed s) in
    let log' := log s ++ [Sleep (pause C); HttpGet url] in
    let unchanged :=
      {| status := status s; result := result s; elapsed := elapsed';
         last_status_update := last_status_update s;
         polls := S (polls s); log := log' |} in
    match poll_reply w (polls s) with
    | NetworkFailure => Exit (Tools.Raised ClientError) unchanged
    | Reply status_code _ json =>
        if status_code =? 200 then
          match json with
          | None =>
              Exit (Tools.Raised (OtherError "JSONDecodeError")) unchanged
          | Some (PDict result') =>
              let status' := Py.get result' "status" in
              if emitter && due C elapsed' (last_status_update s) then
                match seconds C elapsed' with
                | inl e =>
                    Exit (Tools.Raised e)
                      {| status := status'; result := result';
                         elapsed := elapsed';
                         last_status_update := last_status_update s;
                         polls := S (polls s); log := log' |}
                | inr shown =>
                    Next {| status := status'; result := result';
                            elapsed := elapsed';
                            last_status_update := elapsed';
                            polls := S (polls s);
                            log := log' ++ [Emit (Processing shown)] |}
                end
              else
                Next {| status := status'; result := result';
                        elapsed := elapsed';
                        last_status_update := last_status_update s;
                        polls := S (polls s); log := log' |}
          | Some _ =>
              Exit (Tools.Raised (OtherError "AttributeError")) unchanged
          end
        else Next unchanged
    end.

(** The [while] loop.  [None]: the loop is still running when the fuel is
    spent. *)
Fixpoint poll_loop (fuel : nat) (valves : Tools.Valves) (emitter : bool)
    (w : World) (url : locator) (s : poll_state)
    : option (Tools.loop_exit * poll_state) :=
  match fuel with
  | O => None
  | S fuel' =>
      match poll_step valves emitter w url s with
      | Exit x s' => Some (x, s')
      | Next s' => poll_loop fuel' valves emitter w url s'
      end
  end.

(** [n] passes of the loop, as long as it goes on. *)
Fixpoint poll_steps (n : nat) (valves : Tools.Valves) (emitter : bool)
    (w : World) (url : locator) (s : poll_state) : step :=
  match n with
  | O => Next s
  | S n' =>
      match poll_step valves emitter w url s with
      | Exit x s' => Exit x s'
      | Next s' => poll_steps n' valves emitter w url s'
      end
  end.

Definition start (h : Tools.handle) (log0 : list effect) : poll_state :=
  {| status := Tools.initial_status h; result := Tools.initial_result h;
     elapsed := zero C; last_status_update := zero C; polls := 0;
     log := log0 |}.

(** What the code after the loop reads of the state: the status, the
    result and the calls made, and not the clock. *)
Definition finished (s : poll_state) : Tools.poll_state :=
  {| Tools.status := status s; Tools.result := result s;
     Tools.elapsed := 0; Tools.last_status_update := 0;
     Tools.polls := polls s; Tools.log := log s |}.

(** Lines 244-353: from the handle to the returned value. *)
Definition poll_for_completion (fuel : nat) (valves : Tools.Valves)
    (emitter : bool) (w : World) (prompt : string) (h : Tools.handle)
    (log0 : list effect) : option (list effect * exc Tools.edit_result) :=
  match poll_loop fuel valves emitter w (Tools.prediction_url h)
          (start h log0) with
  | None => None
  | Some (Tools.Raised e, s) => Some (log s, raise e)
  | Some (Tools.TimedOut, s) =>
      Some (log s,
            ret (Tools.Timeout (Tools.max_wait_time valves)
                   (Tools.prediction_id h)))
  | Some (Tools.Finished, s) =>
      Some (Tools.handle_result valves emitter w prompt (finished s))
  end.

(** The body of the outer [try]. *)
Definition edit_image_try (fuel : nat) (valves : Tools.Valves)
    (prompt : string) (aspect_ratio : option string)
    (high_fidelity : option bool) (emitter : bool)
    (messages : option (list dict)) (w : World)
    : option (list effect * exc Tools.edit_result) :=
  if negb (Py.truthy (PStr (Tools.replicate_api_token valves))) then
    Some ([], ret Tools.NoToken)
  else
    match messages with
    | None => Some ([], ret Tools.NoMessages)
    | Some [] => Some ([], ret Tools.NoMessages)
    | Some msgs =>
        let images := extract_images_from_messages msgs 3 in
        match images with
        | [] => Some ([], ret Tools.NoImages)
        | _ =>
            let use_fast :=
              match high_fidelity with
              | None => Tools.go_fast valves
              | Some hf => negb hf
              end in
            match Tools.build_input valves prompt aspect_ratio use_fast images
            with
            | inl e => Some ([], raise e)
            | inr replicate_input =>
                let mode :=
                  if use_fast then "Lightning" else "High-fidelity" in
                let log0 :=
                  if emitter
                  then [Emit (Generating (List.length images) mode)]
                  else [] in
                let (posted, created) :=
                  Tools.submit_prediction valves w replicate_input in
                let log1 := log0 ++ posted in
                match created with
                | inl e => Some (log1, raise e)
                | inr (inl early) => Some (log1, ret early)
                | inr (inr h) =>
                    poll_for_completion fuel valves emitter w prompt h log1
                end
            end
        end
    end.

(** [edit_image], with its two handlers. *)
Definition edit_image (fuel : nat) (valves : Tools.Valves) (prompt : string)
    (aspect_ratio : option string) (high_fidelity : option bool)
    (emitter : bool) (messages : option (list dict)) (w : World)
    : option (Tools.edit_result * list effect) :=
  match edit_image_try fuel valves prompt aspect_ratio high_fidelity
          emitter messages w with
  | None => None
  | Some (l, inr r) => Some (r, l)
  | Some (l, inl ClientError) =>
      Some (Tools.NetworkError,
            if emitter then l ++ [Emit NetworkErrorStatus] else l)
  | Some (l, inl e) =>
      Some (Tools.UnexpectedError e,
            if emitter then l ++ [Emit ErrorStatus] else l)
  end.

(** The clock, the time of the last report and the number of reports made
    after [n] passes of the loop in which every status check is answered
    with 200 and a state that is not terminal.  [None]: the deadline is
    reached, or [int(elapsed)] raises, before the [n] passes are made. *)
Fixpoint running_passes (max_wait_time : Z) (emitter : bool) (n : nat)
    (elapsed last_status_update : time) (reports : nat)
    : option (time * time * nat) :=
  match n with
  | O => Some (elapsed, last_status_update, reports)
  | S n' =>
      if reached C max_wait_time elapsed then None
      else
        let elapsed' := tick C elapsed in
        if emitter && due C elapsed' last_status_update then
          match seconds C elapsed' with
          | inl _ => None
          | inr _ =>
              running_passes max_wait_time emitter n' elapsed' elapsed'
                (S reports)
          end
        else
          running_passes max_wait_time emitter n' elapsed' last_status_update
            reports
  end.

End OnClock.

(** The state of [Tools], as a state of the loop on the exact clock. *)
Definition of_exact (s : Tools.poll_state) : poll_state Q :=
  {| status := Tools.status s; result := Tools.result s;
     elapsed := Tools.elapsed s;
     last_status_update := Tools.last_status_update s;
     polls := Tools.polls s; log := Tools.log s |}.

End Timed.

Arguments Timed.status {time}.
Arguments Timed.result {time}.
Arguments Timed.elapsed {time}.
Arguments Timed.last_status_update {time}.
Arguments Timed.polls {time}.
Arguments Timed.log {time}.
Arguments Timed.Next {time}.
Arguments Timed.Exit {time}.
Arguments Timed.poll_step {time}.
Arguments Timed.poll_loop {time}.
Arguments Timed.poll_steps {time}.
Arguments Timed.start {time}.
Arguments Timed.finished {time}.
Arguments Timed.poll_for_completion {time}.
Arguments Timed.edit_image_try {time}.
Arguments Timed.edit_image {time}.
Arguments Timed.running_passes {time}.

(** What a run of the loop keeps account of: the clock is the clock after
    as many pauses as status checks were made, every status check is in
    the log, and the pauses of the log are that many pauses of the
    interval. *)
Definition tracked {time : Type} (C : clock time) (log0 : list effect)
    (s : Timed.poll_state time) : Prop :=
  Timed.elapsed s = clock_after C (Timed.polls s)
  /\ count is_get (Timed.log s) = (count is_get log0 + Timed.polls s)%nat
  /\ filter is_sleep (Timed.log s)
     = filter is_sleep log0 ++ repeat (Sleep (pause C)) (Timed.polls s).

(** Passes of the loop, counted from 1 and latest first: each is later than
    the one before it (pass 0, the start, for the earliest), and at each the
    clock finds itself 5 or more past the clock of the one before. *)
Fixpoint spaced {time : Type} (C : clock time) (js : list nat) : Prop :=
  match js with
  | [] => True
  | j :: earlier =>
      (hd 0%nat earlier < j)%nat
      /\ due C (clock_after C j) (clock_after C (hd 0%nat earlier)) = true
      /\ spaced C earlier
  end.

(** The status check of pass [j] was answered with 200 and a JSON
    object. *)
Definition answered (w : World) (j : nat) : Prop :=
  exists text d, poll_reply w (pred j) = Reply 200 text (Some (PDict d)).

(** The progress reports of a run that began with the log [log0], as the
    passes [js] at which they were made, the latest first: they are spaced
    by the clock, each was made after a status check answered with 200
    and an object, the log holds one report for each, and
    [last_status_update] is the clock of the latest.  Without an emitter
    there is none. *)
Definition paced {time : Type} (C : clock time) (emitter : bool)
    (w : World) (log0 : list effect) (s : Timed.poll_state time)
    (js : list nat) : Prop :=
  spaced C js
  /\ Forall (fun j => (j <= Timed.polls s)%nat /\ answered w j) js
  /\ count is_progress (Timed.log s)
     = (count is_progress log0 + List.length js)%nat
  /\ Timed.last_status_update s = clock_after C (hd 0%nat js)
  /\ (emitter = false -> js = []).

(** The machine's numbers 1, 5 and a tenth. *)
Definition one : float := 1%float.
Definition five : float := 5%float.
Definition tenth : float := PrimFloat.div one 10%float.

(** * Properties *)

(** ** Bytes and magic numbers *)



(** ** [detect_image_mime] *)

Lemma detect_image_mime_decoded (base64_data : string) (header : list Z) :
  Base64.b64decode (Py.take 32 base64_data) = inr header ->
  detect_image_mime base64_data =
    if bytes_startswith header PNG_MAGIC then "image/png"
    else if bytes_startswith header JPEG_MAGIC then "image/jpeg"
    else if bytes_startswith header GIF_MAGIC then "image/gif"
    else if bytes_startswith header RIFF_MAGIC
            && bytes_contains header WEBP_MAGIC then "image/webp"
    else "image/png".
Proof.
  intros H. unfold detect_image_mime, detect_image_mime_try. rewrite H.
  unfold bind, ret.
  destruct (bytes_startswith header PNG_MAGIC); [reflexivity|].
  destruct (bytes_startswith header JPEG_MAGIC); [reflexivity|].
  destruct (bytes_startswith header GIF_MAGIC); [reflexivity|].
  destruct (bytes_startswith header RIFF_MAGIC && bytes_contains header WEBP_MAGIC);
    reflexivity.
Qed.

Lemma detect_image_mime_undecodable (base64_data : string) (e : exn) :
  Base64.b64decode (Py.take 32 base64_data) = inl e ->
  detect_image_mime base64_data = "image/png".
Proof.
  intros H. unfold detect_image_mime, detect_image_mime_try. now rewrite H.
Qed.




(** C10.  [detect_image_mime] returns a value for every string, and the
    value is one of the four media types; it is image/png whenever the
    first 32 characters do not decode, and whenever the decoded header
    matches no magic number. *)
Theorem detect_image_mime_total (base64_data : string) :
  In (detect_image_mime base64_data)
     ["image/png"; "image/jpeg"; "image/gif"; "image/webp"]
  /\ (forall e, Base64.b64decode (Py.take 32 base64_data) = inl e ->
        detect_image_mime base64_data = "image/png")
  /\ (forall header,
        Base64.b64decode (Py.take 32 base64_data) = inr header ->
        bytes_startswith header PNG_MAGIC = false ->
        bytes_startswith header JPEG_MAGIC = false ->
        bytes_startswith header GIF_MAGIC = false ->
        bytes_startswith header RIFF_MAGIC && bytes_contains header WEBP_MAGIC
          = false ->
        detect_image_mime base64_data = "image/png").
Proof.
  split; [|split].
  - destruct (Base64.b64decode (Py.take 32 base64_data)) as [e|header] eqn:H.
    + rewrite (detect_image_mime_undecodable _ _ H). simpl. auto.
    + rewrite (detect_image_mime_decoded _ _ H).
      destruct (bytes_startswith header PNG_MAGIC); [simpl; auto|].
      destruct (bytes_startswith header JPEG_MAGIC); [simpl; auto|].
      destruct (bytes_startswith header GIF_MAGIC); [simpl; auto|].
      destruct (bytes_startswith header RIFF_MAGIC
                && bytes_contains header WEBP_MAGIC); simpl; auto.
  - intros e H. exact (detect_image_mime_undecodable _ _ H).
  - intros header H Hp Hj Hg Hw.
    rewrite (detect_image_mime_decoded _ _ H), Hp, Hj, Hg, Hw. reflexivity.
Qed.

Lemma detect_image_mime_total_witness :
  detect_image_mime "not base64!" = "image/png"
  /\ detect_image_mime Sample.text_data = "image/png".
Proof.
  split.
  - refine (proj1 (proj2 (detect_image_mime_total "not base64!")) _ eq_refl).
  - refine (proj2 (proj2 (detect_image_mime_total Sample.text_data))
              _ eq_refl _ _ _ _); reflexivity.
Defined.

(** ** [extract_images_from_messages] *)

Lemma find_app_none {A} (f : A -> bool) (l1 l2 : list A) :
  find f l1 = None -> find f (l1 ++ l2) = find f l2.
Proof.
  induction l1 as [|a l1 IH]; simpl; [reflexivity|].
  destruct (f a); [discriminate | exact IH].
Qed.

Lemma find_none_forallb {A} (f : A -> bool) (l : list A) :
  forallb (fun a => negb (f a)) l = true -> find f l = None.
Proof.
  induction l as [|a l IH]; simpl; [reflexivity|].
  destruct (f a); simpl; [discriminate | exact IH].
Qed.

Lemma forallb_rev {A} (f : A -> bool) (l : list A) :
  forallb f (rev l) = forallb f l.
Proof.
  induction l as [|a l IH]; simpl; [reflexivity|].
  rewrite forallb_app, IH. simpl. rewrite andb_true_r. apply andb_comm.
Qed.

Lemma last_user_message_none (messages : list dict) :
  forallb (fun m => negb (is_user m)) messages = true ->
  last_user_message messages = None.
Proof.
  intros H. unfold last_user_message. apply find_none_forallb.
  now rewrite forallb_rev.
Qed.

Lemma last_user_message_found (before after : list dict) (m : dict) :
  is_user m = true ->
  forallb (fun m' => negb (is_user m')) after = true ->
  last_user_message (before ++ m :: after) = Some m.
Proof.
  intros Hm Hafter. unfold last_user_message.
  rewrite rev_app_distr. simpl. rewrite <- app_assoc.
  rewrite find_app_none.
  - simpl. now rewrite Hm.
  - apply find_none_forallb. now rewrite forallb_rev.
Qed.

Lemma item_image_other (item : pyval) :
  is_image_url_item item = false -> item_image item = None.
Proof.
  unfold is_image_url_item, item_image.
  destruct item as [| | | | |d]; try reflexivity.
  now intros ->.
Qed.

Lemma collect_images_firstn (max_images : Z) (content : list pyval) :
  forall base64_images,
    Z.of_nat (List.length base64_images) < max_images ->
    collect_images content base64_images max_images =
      firstn (Z.to_nat max_images)
        (base64_images ++ flat_map item_images content).
Proof.
  induction content as [|item rest IH]; intros acc Hacc; simpl.
  - rewrite app_nil_r. symmetry. apply firstn_all2. lia.
  - unfold item_images at 1.
    destruct (is_image_url_item item) eqn:Hkind;
      [|rewrite (item_image_other item Hkind); now rewrite (IH _ Hacc)].
    destruct (item_image item) as [img|].
    + destruct (Z.geb_spec (Z.of_nat (List.length (acc ++ [img]))) max_images)
        as [Hge|Hlt].
      * rewrite length_app in Hge. simpl in Hge.
        change (acc ++ [img] ++ flat_map item_images rest)
          with (acc ++ ([img] ++ flat_map item_images rest)).
        rewrite app_assoc.
        rewrite firstn_app.
        replace (Z.to_nat max_images - List.length (acc ++ [img]))%nat
          with 0%nat by (rewrite length_app; simpl; lia).
        rewrite firstn_O, app_nil_r. symmetry. apply firstn_all2.
        rewrite length_app. simpl. lia.
      * rewrite (IH _ Hlt). now rewrite <- app_assoc.
    + destruct (Z.geb_spec (Z.of_nat (List.length acc)) max_images); [lia|].
      now rewrite (IH _ Hacc).
Qed.

(** C9.  The images are those of the last message whose role is user, and
    of no other message: without a user message the result is empty, and
    otherwise it is the first [max_images] images of that message, in the
    order of its content (for the maximum of 3 the tool asks for: the
    first three). *)
Theorem extract_images_from_last_user_message (max_images : Z) :
  1 <= max_images ->
  (forall messages,
     forallb (fun m => negb (is_user m)) messages = true ->
     extract_images_from_messages messages max_images = [])
  /\ (forall before m after,
        is_user m = true ->
        forallb (fun m' => negb (is_user m')) after = true ->
        extract_images_from_messages (before ++ m :: after) max_images =
          firstn (Z.to_nat max_images) (message_images m)
        /\ (List.length
              (extract_images_from_messages (before ++ m :: after) max_images)
            <= Z.to_nat max_images)%nat).
Proof.
  intros Hmax. split.
  - intros messages H. unfold extract_images_from_messages.
    now rewrite (last_user_message_none _ H).
  - intros before m after Hm Hafter.
    assert (E : extract_images_from_messages (before ++ m :: after) max_images
                = firstn (Z.to_nat max_images) (message_images m)).
    { unfold extract_images_from_messages.
      rewrite (last_user_message_found _ _ _ Hm Hafter).
      destruct m as [|kv m']; [discriminate Hm|]. simpl negb. cbv iota.
      unfold message_images.
      destruct (Py.get (kv :: m') "content"); try now rewrite firstn_nil.
      rewrite collect_images_firstn by (simpl; lia). reflexivity. }
    split; [exact E|]. rewrite E. apply firstn_le_length.
Qed.

Lemma extract_images_from_last_user_message_witness :
  extract_images_from_messages Sample.transcript 3 =
    [Sample.png_data; "https://x/ref.jpg"].
Proof.
  refine (eq_trans
    (proj1 (proj2 (extract_images_from_last_user_message 3 _)
       [Sample.message "user"
          [Sample.text_item "first try"; Sample.image_item "https://x/old.png"];
        Sample.message "assistant" [Sample.text_item "done"]]
       (Sample.message "user"
          [Sample.text_item "make the sofa blue";
           Sample.image_item Sample.png_uri;
           Sample.image_item "https://x/ref.jpg"])
       [Sample.message "assistant" [Sample.text_item "working on it"]]
       eq_refl eq_refl)) _).
  - lia.
  - reflexivity.
Defined.

(** ** The polling loop of the tool *)

Section PollingLoop.

Variable valves : Tools.Valves.
Variable emitter : bool.
Variable w : World.
Variable url : locator.

Let max_wait : Q := inject_Z (Tools.max_wait_time valves).
Let interval : Q := Tools.polling_interval valves.
Let poll_step := Tools.poll_step valves emitter w url.
Let poll_steps n := Tools.poll_steps n valves emitter w url.
Let poll_loop fuel := Tools.poll_loop fuel valves emitter w url.

Lemma Qle_bool_false (x y : Q) : Qle_bool x y = false -> (y < x)%Q.
Proof.
  intros H. apply Qnot_le_lt. intros L. apply Qle_bool_iff in L. congruence.
Qed.

Lemma Qle_bool_lt (x y : Q) : (y < x)%Q -> Qle_bool x y = false.
Proof.
  intros H. destruct (Qle_bool x y) eqn:E; [|reflexivity].
  apply Qle_bool_iff in E. exfalso. exact (Qlt_not_le _ _ H E).
Qed.

(** A status check answered with another status code than 200 changes
    nothing but the clock, the count and the log. *)
Lemma poll_step_not_ok (s : Tools.poll_state) :
  is_terminal (Tools.status s) = false ->
  (Tools.elapsed s < max_wait)%Q ->
  reply_not_ok (poll_reply w (Tools.polls s)) = true ->
  poll_step s =
    Tools.Next
      {| Tools.status := Tools.status s;
         Tools.result := Tools.result s;
         Tools.elapsed := (Tools.elapsed s + interval)%Q;
         Tools.last_status_update := Tools.last_status_update s;
         Tools.polls := S (Tools.polls s);
         Tools.log := Tools.log s ++ [Sleep interval; HttpGet url] |}.
Proof.
  intros Hs He Hr. unfold poll_step, interval, max_wait, Tools.poll_step in *.
  rewrite Hs, (Qle_bool_lt _ _ He).
  destruct (poll_reply w (Tools.polls s)) as [|code text json];
    [discriminate|].
  simpl in Hr. destruct (code =? 200); [discriminate | reflexivity].
Qed.

(** A status check answered with 200 and a JSON object replaces the
    status and the result, and reports progress when 5 units have
    passed since the last report. *)
Lemma poll_step_ok (s : Tools.poll_state) (text : string) (d : dict) :
  is_terminal (Tools.status s) = false ->
  (Tools.elapsed s < max_wait)%Q ->
  poll_reply w (Tools.polls s) = Reply 200 text (Some (PDict d)) ->
  poll_step s =
    Tools.Next
      (let elapsed' := (Tools.elapsed s + interval)%Q in
       let report :=
         emitter
         && Qle_bool 5 (elapsed' - Tools.last_status_update s)%Q in
       {| Tools.status := Py.get d "status";
          Tools.result := d;
          Tools.elapsed := elapsed';
          Tools.last_status_update :=
            if report then elapsed' else Tools.last_status_update s;
          Tools.polls := S (Tools.polls s);
          Tools.log :=
            (Tools.log s ++ [Sleep interval; HttpGet url])
            ++ (if report then [Emit (Processing (Py.int elapsed'))]
                else []) |}).
Proof.
  intros Hs He Hr. unfold poll_step, interval, max_wait, Tools.poll_step in *.
  rewrite Hs, (Qle_bool_lt _ _ He), Hr. simpl.
  destruct (emitter
            && Qle_bool 5
                 (Tools.elapsed s + Tools.polling_interval valves
                  - Tools.last_status_update s)%Q).
  - reflexivity.
  - now rewrite app_nil_r.
Qed.

Lemma reply_pending_cases (r : http_reply) :
  reply_pending r = true ->
  reply_not_ok r = true
  \/ exists text d, r = Reply 200 text (Some (PDict d))
                    /\ is_terminal (Py.get d "status") = false.
Proof.
  unfold reply_pending. intros H. apply orb_true_iff in H as [H|H]; [|now left].
  right. destruct r as [|code text [[| | | | |d]|]]; try discriminate.
  simpl in H. apply andb_true_iff in H as [Hc Ht].
  apply Z.eqb_eq in Hc. subst code.
  exists text, d. split; [reflexivity|]. now destruct (is_terminal _).
Qed.

(** While the service answers without reporting a terminal state, a pass
    of the loop adds exactly one interval to the clock, whatever the
    status code. *)
Lemma poll_step_pending (s : Tools.poll_state) :
  is_terminal (Tools.status s) = false ->
  (Tools.elapsed s < max_wait)%Q ->
  reply_pending (poll_reply w (Tools.polls s)) = true ->
  exists s',
    poll_step s = Tools.Next s'
    /\ is_terminal (Tools.status s') = false
    /\ Tools.elapsed s' = (Tools.elapsed s + interval)%Q
    /\ Tools.polls s' = S (Tools.polls s).
Proof.
  intros Hs He Hr.
  destruct (reply_pending_cases _ Hr) as [Hn|(text & d & Hd & Ht)].
  - eexists. split; [apply (poll_step_not_ok s Hs He Hn)|]. simpl. auto.
  - eexists. split; [apply (poll_step_ok s text d Hs He Hd)|]. simpl. auto.
Qed.

Lemma poll_step_deadline (s : Tools.poll_state) :
  is_terminal (Tools.status s) = false ->
  (max_wait <= Tools.elapsed s)%Q ->
  poll_step s = Tools.Exit Tools.TimedOut s.
Proof.
  intros Hs He. unfold poll_step, max_wait, Tools.poll_step in *.
  rewrite Hs. apply Qle_bool_iff in He. now rewrite He.
Qed.


(** Against a service that never reports a terminal state, the loop
    leaves by the deadline, with the clock in
    [[max_wait, max_wait + interval)]. *)
Lemma poll_loop_times_out (k : nat) :
  (0 < interval)%Q ->
  (forall j, reply_pending (poll_reply w j) = true) ->
  forall s,
    is_terminal (Tools.status s) = false ->
    (max_wait - Tools.elapsed s <= inject_Z (Z.of_nat k) * interval)%Q ->
    (Tools.elapsed s < max_wait + interval)%Q ->
    exists s',
      (forall fuel, (k < fuel)%nat ->
         poll_loop fuel s = Some (Tools.TimedOut, s'))
      /\ (max_wait <= Tools.elapsed s')%Q
      /\ (Tools.elapsed s' < max_wait + interval)%Q.
Proof.
  intros Hi Hw. induction k as [|k IH]; intros s Hs Hk Hlt.
  - change (inject_Z (Z.of_nat 0)) with 0%Q in Hk.
    assert (Hafter : (max_wait <= Tools.elapsed s)%Q) by lra.
    exists s. split; [|split; [exact Hafter | exact Hlt]].
    intros fuel Hf. destruct fuel as [|fuel]; [lia|].
    unfold poll_loop. simpl. fold (poll_step s).
    now rewrite (poll_step_deadline s Hs Hafter).
  - destruct (Qlt_le_dec (Tools.elapsed s) max_wait) as [Hbefore|Hafter].
    + destruct (poll_step_pending s Hs Hbefore (Hw _))
        as (s1 & Hstep & Hs1 & He1 & _).
      destruct (IH s1 Hs1) as (s' & Hloop & Hbounds).
      * rewrite He1. rewrite Nat2Z.inj_succ in Hk.
        unfold Z.succ in Hk. rewrite inject_Z_plus in Hk.
        change (inject_Z 1) with 1%Q in Hk.
        assert (Hd : ((inject_Z (Z.of_nat k) + 1) * interval
                      == inject_Z (Z.of_nat k) * interval + interval)%Q)
          by ring.
        rewrite Hd in Hk. lra.
      * rewrite He1. lra.
      * exists s'. split; [|exact Hbounds].
        intros fuel Hf. destruct fuel as [|fuel]; [lia|].
        unfold poll_loop. simpl. fold (poll_step s). rewrite Hstep.
        apply Hloop. lia.
    + exists s. split; [|split; [exact Hafter | exact Hlt]].
      intros fuel Hf. destruct fuel as [|fuel]; [lia|].
      unfold poll_loop. simpl. fold (poll_step s).
      now rewrite (poll_step_deadline s Hs Hafter).
Qed.

End PollingLoop.

Lemma poll_loop_S (fuel : nat) (valves : Tools.Valves) (emitter : bool)
    (w : World) (url : locator) (s : Tools.poll_state) :
  Tools.poll_loop (S fuel) valves emitter w url s =
    match Tools.poll_step valves emitter w url s with
    | Tools.Exit x s' => Some (x, s')
    | Tools.Next s' => Tools.poll_loop fuel valves emitter w url s'
    end.
Proof. reflexivity. Qed.

Lemma enough_polls (m i : Q) :
  (0 < i)%Q -> (0 <= m)%Q ->
  exists k : nat, (m <= inject_Z (Z.of_nat k) * i)%Q.
Proof.
  intros Hi Hm. exists (Z.to_nat (Qceiling (m / i))).
  assert (Hq : (0 <= m / i)%Q).
  { apply Qle_shift_div_l; [exact Hi | lra]. }
  assert (Hc : 0 <= Qceiling (m / i)).
  { change 0 with (Qceiling 0). now apply Qceiling_resp_le. }
  rewrite Z2Nat.id by exact Hc.
  assert (Hle : (m / i <= inject_Z (Qceiling (m / i)))%Q) by apply Qle_ceiling.
  assert (Hmul : (m / i * i <= inject_Z (Qceiling (m / i)) * i)%Q).
  { apply Qmult_le_compat_r; [exact Hle | lra]. }
  assert (Hdiv : (m / i * i == m)%Q).
  { field. intros Hz. rewrite Hz in Hi. exact (Qlt_irrefl _ Hi). }
  rewrite Hdiv in Hmul. exact Hmul.
Qed.

(** On the exact clock: from a handle whose status is not terminal, with a
    positive polling interval and a deadline that is not negative, against a
    service that answers every status check and never reports a terminal
    state: the loop ends, the call returns the timeout message with the
    identifier of the handle, and the clock at that point is at least the
    deadline and less than the deadline plus one interval. *)
Theorem deadline_respected (valves : Tools.Valves) (emitter : bool)
    (w : World) (prompt : string) (h : Tools.handle) (log0 : list effect) :
  (0 < Tools.polling_interval valves)%Q ->
  0 <= Tools.max_wait_time valves ->
  is_terminal (Tools.initial_status h) = false ->
  (forall k, reply_pending (poll_reply w k) = true) ->
  exists (n : nat) (s : Tools.poll_state),
    (forall fuel, (n <= fuel)%nat ->
       Tools.poll_loop fuel valves emitter w (Tools.prediction_url h)
         (Tools.start h log0) = Some (Tools.TimedOut, s)
       /\ Tools.poll_for_completion fuel valves emitter w prompt h log0 =
            Some (Tools.log s,
                  ret (Tools.Timeout (Tools.max_wait_time valves)
                         (Tools.prediction_id h))))
    /\ (inject_Z (Tools.max_wait_time valves) <= Tools.elapsed s)%Q
    /\ (Tools.elapsed s <
          inject_Z (Tools.max_wait_time valves)
          + Tools.polling_interval valves)%Q.
Proof.
  intros Hi Hm Hs Hw.
  assert (Hm' : (0 <= inject_Z (Tools.max_wait_time valves))%Q).
  { change 0%Q with (inject_Z 0). now rewrite <- Zle_Qle. }
  destruct (enough_polls _ _ Hi Hm') as [k Hk].
  destruct (poll_loop_times_out valves emitter w (Tools.prediction_url h) k
              Hi Hw (Tools.start h log0) Hs)
    as (s & Hloop & Hlo & Hhi).
  - simpl. lra.
  - simpl. lra.
  - exists (S k), s. split; [|split; assumption].
    intros fuel Hf. assert (Hl := Hloop fuel ltac:(lia)).
    split; [exact Hl|]. unfold Tools.poll_for_completion. now rewrite Hl.
Qed.

Lemma deadline_respected_witness :
  exists (n : nat) (s : Tools.poll_state),
    (forall fuel, (n <= fuel)%nat ->
       Tools.poll_loop fuel (Sample.valves 5 1) true Sample.never_done
         (PredictionUrl (PStr "p1")) (Tools.start Sample.handle_p1 [])
         = Some (Tools.TimedOut, s)
       /\ Tools.poll_for_completion fuel (Sample.valves 5 1) true
            Sample.never_done "make the sofa blue" Sample.handle_p1 [] =
            Some (Tools.log s, ret (Tools.Timeout 5 (PStr "p1"))))
    /\ (5 <= Tools.elapsed s)%Q
    /\ (Tools.elapsed s < 5 + 1)%Q.
Proof.
  apply (deadline_respected (Sample.valves 5 1) true Sample.never_done
           "make the sofa blue" Sample.handle_p1 []).
  - reflexivity.
  - simpl. lia.
  - reflexivity.
  - intros k. reflexivity.
Defined.

(** The instance of the specification, evaluated: interval 1 and deadline
    5 give five status checks and a clock of exactly 5. *)
Example deadline_5_interval_1 :
  exists s,
    Tools.poll_loop 100 (Sample.valves 5 1) true Sample.never_done
      (PredictionUrl (PStr "p1")) (Tools.start Sample.handle_p1 [])
      = Some (Tools.TimedOut, s)
    /\ (Tools.elapsed s == 5)%Q
    /\ Tools.polls s = 5%nat.
Proof.
  eexists. split; [vm_compute; reflexivity|]. split; reflexivity.
Qed.

(** With an interval of 0 the clock stands still and the loop of the tool
    does not end: the positive interval is needed. *)
Lemma zero_interval_never_returns (fuel : nat) :
  Tools.poll_for_completion fuel (Sample.valves 5 0) true Sample.never_done
    "make the sofa blue" Sample.handle_p1 [] = None.
Proof.
  unfold Tools.poll_for_completion.
  enough (H : forall s,
             is_terminal (Tools.status s) = false ->
             (Tools.elapsed s == 0)%Q ->
             Tools.poll_loop fuel (Sample.valves 5 0) true Sample.never_done
               (Tools.prediction_url Sample.handle_p1) s = None).
  { now rewrite H. }
  induction fuel as [|fuel IH]; intros s Hs He; [reflexivity|].
  destruct (poll_step_pending (Sample.valves 5 0) true Sample.never_done
              (Tools.prediction_url Sample.handle_p1) s Hs)
    as (s1 & Hstep & Hs1 & He1 & _).
  - rewrite He. reflexivity.
  - reflexivity.
  - rewrite poll_loop_S, Hstep. apply IH; [exact Hs1|].
    rewrite He1, He. reflexivity.
Qed.

(** [quick_test.run_edit] has no deadline: against the same service its
    loop is still running after any number of status checks. *)
Lemma run_edit_has_no_deadline (fuel polls : nat) :
  QuickTest.run_edit_poll fuel Sample.never_done polls = None.
Proof.
  revert polls. induction fuel as [|fuel IH]; intros polls; [reflexivity|].
  simpl. apply IH.
Qed.

(** ** Status checks that fail *)







(** ** Progress reports *)

Lemma count_app (f : effect -> bool) (l1 l2 : list effect) :
  count f (l1 ++ l2) = (count f l1 + count f l2)%nat.
Proof. unfold count. now rewrite filter_app, length_app. Qed.

Lemma Qle_bool_5_inject (e l : Q) (a b : Z) :
  (e == inject_Z a)%Q -> (l == inject_Z b)%Q ->
  Qle_bool 5 (e - l) = (5 <=? a - b).
Proof.
  intros He Hl. apply eq_true_iff_eq.
  rewrite Qle_bool_iff, Z.leb_le, He, Hl.
  unfold Qminus. rewrite <- inject_Z_opp, <- inject_Z_plus.
  change 5%Q with (inject_Z 5). rewrite <- Zle_Qle. lia.
Qed.

Section Progress.

Variable valves : Tools.Valves.
Variable w : World.
Variable url : locator.

Hypothesis interval_1 : (Tools.polling_interval valves == 1)%Q.
Hypothesis running : forall k, reply_running (poll_reply w k) = true.

Lemma cadence_step (c0 : nat) (n c : Z) (s : Tools.poll_state) :
  cadence c0 n c s ->
  n < Tools.max_wait_time valves ->
  exists s' c',
    Tools.poll_step valves true w url s = Tools.Next s'
    /\ cadence c0 (n + 1) c' s'.
Proof.
  intros (Hs & He & Hl & Hc & Hcount & Hpolls) Hn.
  assert (Hbefore : (Tools.elapsed s
                     < inject_Z (Tools.max_wait_time valves))%Q).
  { rewrite He. now rewrite <- Zlt_Qlt. }
  specialize (running (Tools.polls s)).
  destruct (poll_reply w (Tools.polls s)) as [|code text [[| | | | |d]|]]
    eqn:Hr; try discriminate.
  simpl in running. apply andb_true_iff in running as [Hcode Hd].
  apply Z.eqb_eq in Hcode. subst code.
  apply negb_true_iff in Hd.
  rewrite (poll_step_ok valves true w url s text d Hs Hbefore Hr).
  assert (He' : (Tools.elapsed s + Tools.polling_interval valves
                 == inject_Z (n + 1))%Q).
  { rewrite He, interval_1, inject_Z_plus. reflexivity. }
  cbv zeta. rewrite (Qle_bool_5_inject _ _ _ _ He' Hl). cbn [andb].
  destruct (Z.leb_spec 5 (n + 1 - 5 * c)) as [Hreport|Hquiet].
  - eexists. exists (c + 1). split; [reflexivity|].
    unfold cadence. cbn [Tools.status Tools.elapsed Tools.polls Tools.log
                         Tools.last_status_update].
    refine (conj Hd (conj He' (conj _ (conj _ (conj _ _))))).
    + rewrite He'. replace (5 * (c + 1)) with (n + 1) by lia. reflexivity.
    + lia.
    + rewrite !count_app. unfold count in *. simpl. lia.
    + lia.
  - eexists. exists c. split; [reflexivity|].
    unfold cadence. cbn [Tools.status Tools.elapsed Tools.polls Tools.log
                         Tools.last_status_update].
    refine (conj Hd (conj He' (conj Hl (conj _ (conj _ _))))).
    + lia.
    + rewrite !count_app. unfold count in *. simpl. lia.
    + lia.
Qed.

Lemma cadence_steps (c0 : nat) (m : nat) :
  forall n c s,
    cadence c0 n c s ->
    n + Z.of_nat m <= Tools.max_wait_time valves ->
    exists s' c',
      Tools.poll_steps m valves true w url s = Tools.Next s'
      /\ cadence c0 (n + Z.of_nat m) c' s'.
Proof.
  induction m as [|m IH]; intros n c s Hc Hn.
  - exists s, c. split; [reflexivity|]. now rewrite Z.add_0_r.
  - destruct (cadence_step c0 n c s Hc ltac:(lia)) as (s1 & c1 & Hstep & Hc1).
    destruct (IH (n + 1) c1 s1 Hc1 ltac:(lia)) as (s' & c' & Hsteps & Hc').
    exists s', c'. split.
    + simpl. now rewrite Hstep.
    + replace (n + Z.of_nat (S m)) with (n + 1 + Z.of_nat m) by lia.
      exact Hc'.
Qed.

End Progress.

(** A pass of the loop either reports progress, 5 units or more after the
    last report, or leaves the reports as they are. *)
Lemma poll_step_progress (valves : Tools.Valves) (emitter : bool) (w : World)
    (url : locator) (s s' : Tools.poll_state) :
  Tools.poll_step valves emitter w url s = Tools.Next s' ->
  Tools.elapsed s' = (Tools.elapsed s + Tools.polling_interval valves)%Q
  /\ ((count is_progress (Tools.log s') = count is_progress (Tools.log s)
       /\ Tools.last_status_update s' = Tools.last_status_update s)
      \/ (count is_progress (Tools.log s')
            = S (count is_progress (Tools.log s))
          /\ Tools.last_status_update s' = Tools.elapsed s'
          /\ (5 <= Tools.elapsed s' - Tools.last_status_update s)%Q)).
Proof.
  unfold Tools.poll_step.
  destruct (is_terminal (Tools.status s)); [discriminate|].
  destruct (Qle_bool _ _); [discriminate|].
  destruct (poll_reply w (Tools.polls s)) as [|code text json];
    [discriminate|].
  assert (Hquiet : forall l : list effect,
            count is_progress
              (l ++ [Sleep (Tools.polling_interval valves); HttpGet url])
            = count is_progress l).
  { intros l. rewrite count_app. unfold count. simpl. lia. }
  destruct (code =? 200).
  - destruct json as [[| | | | |d]|]; try discriminate.
    destruct emitter; cbn [andb].
    + destruct (Qle_bool 5 _) eqn:Hq.
      * apply Qle_bool_iff in Hq.
        intros H; inversion H; subst; clear H.
        cbn [Tools.elapsed Tools.log Tools.last_status_update].
        split; [reflexivity|]. right.
        rewrite count_app, Hquiet. unfold count at 2. simpl.
        split; [lia|]. split; [reflexivity | exact Hq].
      * intros H; inversion H; subst; clear H.
        cbn [Tools.elapsed Tools.log Tools.last_status_update].
        split; [reflexivity|]. left. split; [apply Hquiet | reflexivity].
    + intros H; inversion H; subst; clear H.
      cbn [Tools.elapsed Tools.log Tools.last_status_update].
      split; [reflexivity|]. left. split; [apply Hquiet | reflexivity].
  - intros H; inversion H; subst; clear H.
    cbn [Tools.elapsed Tools.log Tools.last_status_update].
    split; [reflexivity|]. left. split; [apply Hquiet | reflexivity].
Qed.

(** At most one progress report per 5 units of the clock, for every
    interval that is not negative and every service. *)
Lemma progress_at_most_every_5 (valves : Tools.Valves) (emitter : bool)
    (w : World) (url : locator) (h : Tools.handle) (log0 : list effect)
    (n : nat) (s' : Tools.poll_state) :
  (0 <= Tools.polling_interval valves)%Q ->
  Tools.poll_steps n valves emitter w url (Tools.start h log0)
    = Tools.Next s' ->
  (count is_progress log0 <= count is_progress (Tools.log s'))%nat
  /\ (5 * inject_Z (Z.of_nat (count is_progress (Tools.log s')
                              - count is_progress log0))
        <= Tools.elapsed s')%Q.
Proof.
  intros Hi.
  set (c0 := count is_progress log0).
  enough (H : forall s,
            (c0 <= count is_progress (Tools.log s))%nat ->
            (5 * inject_Z (Z.of_nat (count is_progress (Tools.log s) - c0))
               <= Tools.last_status_update s)%Q ->
            (Tools.last_status_update s <= Tools.elapsed s)%Q ->
            Tools.poll_steps n valves emitter w url s = Tools.Next s' ->
            (c0 <= count is_progress (Tools.log s'))%nat
            /\ (5 * inject_Z (Z.of_nat (count is_progress (Tools.log s') - c0))
                  <= Tools.last_status_update s')%Q
            /\ (Tools.last_status_update s' <= Tools.elapsed s')%Q).
  { intros Hsteps.
    destruct (H (Tools.start h log0)) as (H0 & H1 & H2); try assumption.
    - cbn [Tools.start Tools.log]. lia.
    - cbn [Tools.start Tools.log Tools.last_status_update]. fold c0.
      rewrite Nat.sub_diag. change (inject_Z (Z.of_nat 0)) with 0%Q. lra.
    - cbn [Tools.start Tools.elapsed Tools.last_status_update]. lra.
    - split; [exact H0 | lra]. }
  induction n as [|n IH]; intros s Hc Hl He Hsteps; simpl in Hsteps.
  - inversion Hsteps; subst. auto.
  - destruct (Tools.poll_step valves emitter w url s) as [s1|x s1] eqn:Hstep;
      [|discriminate].
    destruct (poll_step_progress _ _ _ _ _ _ Hstep)
      as (He1 & [(Hc1 & Hl1)|(Hc1 & Hl1 & Hq)]);
      apply (IH s1); try exact Hsteps.
    + lia.
    + rewrite Hc1, Hl1. exact Hl.
    + rewrite Hl1, He1. lra.
    + lia.
    + rewrite Hc1, Hl1.
      replace (S (count is_progress (Tools.log s)) - c0)%nat
        with (S (count is_progress (Tools.log s) - c0)) by lia.
      rewrite Nat2Z.inj_succ. unfold Z.succ. rewrite inject_Z_plus.
      change (inject_Z 1) with 1%Q. lra.
    + rewrite Hl1. lra.
Qed.

(** On the exact clock: with an observer, an interval of 1 and the cadence
    of 5 of the tool, a run that stays non-terminal through 20 status checks (20
    units of the clock) makes exactly 4 progress reports, not 20. *)
Theorem progress_throttled (valves : Tools.Valves) (w : World)
    (h : Tools.handle) (log0 : list effect) :
  (Tools.polling_interval valves == 1)%Q ->
  20 <= Tools.max_wait_time valves ->
  is_terminal (Tools.initial_status h) = false ->
  (forall k, reply_running (poll_reply w k) = true) ->
  exists s,
    Tools.poll_steps 20 valves true w (Tools.prediction_url h)
      (Tools.start h log0) = Tools.Next s
    /\ (Tools.elapsed s == 20)%Q
    /\ Tools.polls s = 20%nat
    /\ count is_progress (Tools.log s)
       = (count is_progress log0 + 4)%nat.
Proof.
  intros Hi Hm Hs Hw.
  destruct (cadence_steps valves w (Tools.prediction_url h) Hi Hw
              (count is_progress log0) 20 0 0 (Tools.start h log0))
    as (s & c & Hsteps & Hc).
  - unfold cadence.
    cbn [Tools.start Tools.status Tools.elapsed Tools.polls Tools.log
         Tools.last_status_update].
    refine (conj Hs (conj _ (conj _ (conj _ (conj _ _)))));
      try reflexivity; lia.
  - change (Z.of_nat 20) with 20. lia.
  - change (0 + Z.of_nat 20) with 20 in Hc.
    destruct Hc as (_ & He & _ & Hc & Hcount & Hpolls).
    exists s. split; [exact Hsteps|].
    split; [exact He|]. split; lia.
Qed.

Lemma progress_throttled_witness :
  exists s,
    Tools.poll_steps 20 (Sample.valves 300 1) true Sample.never_done
      (PredictionUrl (PStr "p1")) (Tools.start Sample.handle_p1 [])
      = Tools.Next s
    /\ (Tools.elapsed s == 20)%Q
    /\ Tools.polls s = 20%nat
    /\ count is_progress (Tools.log s) = 4%nat.
Proof.
  apply (progress_throttled (Sample.valves 300 1) Sample.never_done
           Sample.handle_p1 []).
  - reflexivity.
  - simpl. lia.
  - reflexivity.
  - intros k. reflexivity.
Defined.

(** ** Terminal states reported by the service *)






(** The harness passes the error value on for both states. *)
Lemma call_replicate_reports_error (status error : string) :
  status = "failed" \/ status = "canceled" ->
  option_map snd
    (Harness.call_replicate 151 Sample.input_data
       (Sample.done_at_once [("status", PStr status); ("error", PStr error)]))
  = Some (ret [ ("success", PBool false); ("error", PStr error);
                ("prediction_id", PStr "p1") ]).
Proof.
  intros [-> | ->]; reflexivity.
Qed.

(** ** The output of a succeeded job *)

Lemma handle_result_succeeded (valves : Tools.Valves) (emitter : bool)
    (w : World) (prompt : string) (s : Tools.poll_state) (image_url : pyval) :
  Tools.status s = PStr "succeeded" ->
  Py.truthy (Py.get (Tools.result s) "output") = true ->
  first_output (Py.get (Tools.result s) "output") = ret image_url ->
  exists l r,
    Tools.handle_result valves emitter w prompt s = (l, ret r)
    /\ Tools.artifacts r = [Tools.final_url w image_url].
Proof.
  intros Hs Ht Hf. unfold Tools.handle_result. rewrite Hs, Ht, Hf.
  cbn [Py.eq_str String.eqb Ascii.eqb Bool.eqb negb].
  simpl Py.eq_str. cbv iota.
  destruct (Tools.return_html_embed valves);
    eexists; eexists; split; reflexivity.
Qed.

(** C3 (as the code has it).  A single address and a list holding that one
    address give the same single artifact; of a longer list the first
    element alone is kept. *)
Theorem output_normalised_to_first :
  (forall u : string,
     first_output (PStr u) = ret (PStr u)
     /\ first_output (PList [PStr u]) = ret (PStr u))
  /\ (forall x rest, first_output (PList (x :: rest)) = ret x)
  /\ (forall valves emitter w prompt s x rest,
        Tools.status s = PStr "succeeded" ->
        Py.get (Tools.result s) "output" = PList (x :: rest) ->
        exists l r,
          Tools.handle_result valves emitter w prompt s = (l, ret r)
          /\ Tools.artifacts r = [Tools.final_url w x])
  /\ (forall valves emitter w prompt s u,
        Tools.status s = PStr "succeeded" ->
        Py.get (Tools.result s) "output" = PStr u ->
        u <> EmptyString ->
        exists l r,
          Tools.handle_result valves emitter w prompt s = (l, ret r)
          /\ Tools.artifacts r = [Tools.final_url w (PStr u)]).
Proof.
  split; [|split; [|split]].
  - intros u. split; reflexivity.
  - intros x rest. reflexivity.
  - intros valves emitter w prompt s x rest Hs Ho.
    apply handle_result_succeeded; [exact Hs | |]; now rewrite Ho.
  - intros valves emitter w prompt s u Hs Ho Hu.
    apply handle_result_succeeded; [exact Hs | |]; rewrite Ho;
      [|reflexivity].
    simpl. destruct u; [congruence | reflexivity].
Qed.

Lemma output_normalised_to_first_witness :
  exists l r,
    Tools.handle_result Sample.default_valves true Sample.never_done
      "make the sofa blue"
      {| Tools.status := PStr "succeeded";
         Tools.result := [("status", PStr "succeeded");
                          ("output", PStr "https://x/a.png")];
         Tools.elapsed := 3; Tools.last_status_update := 0;
         Tools.polls := 2; Tools.log := [] |} = (l, ret r)
    /\ Tools.artifacts r
       = [Tools.final_url Sample.never_done (PStr "https://x/a.png")].
Proof.
  refine (proj2 (proj2 (proj2 output_normalised_to_first))
            Sample.default_valves true Sample.never_done "make the sofa blue"
            _ "https://x/a.png" _ _ _).
  - reflexivity.
  - reflexivity.
  - discriminate.
Defined.

(** C3, as stated, fails for a list of two: the second address is not
    part of what the tool returns, nor of what the harness keeps. *)
Lemma second_output_is_dropped :
  let output := PList [PStr "https://x/a.png"; PStr "https://x/b.png"] in
  (exists r l,
     Sample.run Sample.default_valves
       (Sample.done_at_once [("status", PStr "succeeded"); ("output", output)])
       = Some (r, l)
     /\ Tools.artifacts r = [PStr "https://x/a.png"]
     /\ Tools.artifacts r <> [PStr "https://x/a.png"; PStr "https://x/b.png"])
  /\ Harness.run_test_output_url [("success", PBool true); ("output", output)]
     = ret (PStr "https://x/a.png").
Proof.
  split; [|reflexivity].
  eexists. eexists. split; [vm_compute; reflexivity|].
  split; [reflexivity | discriminate].
Qed.

(** ** The creation call *)

Lemma read_handle_locator (json : option pyval) (h : Tools.handle) :
  Tools.read_handle json = ret h ->
  exists result,
    json = Some (PDict result)
    /\ Tools.prediction_id h = Py.get result "id"
    /\ Tools.initial_status h = Py.get result "status"
    /\ ((exists v, Tools.prediction_url h = UrlsGet v /\ Py.truthy v = true)
        \/ Tools.prediction_url h = PredictionUrl (Py.get result "id")).
Proof.
  unfold Tools.read_handle.
  destruct json as [[| | | | |result]|]; try discriminate.
  destruct (Py.get_default result "urls" (PDict [])) as [| | | | |urls];
    try discriminate.
  intros H. inversion H; subst; clear H. exists result.
  cbn [Tools.prediction_id Tools.initial_status Tools.prediction_url].
  repeat split.
  destruct (Py.truthy (Py.get urls "get")) eqn:Ht.
  - left. eexists. split; [reflexivity | exact Ht].
  - now right.
Qed.

Lemma locator_text_nonempty (str : pyval -> string) (l : locator) :
  (exists v, l = UrlsGet v /\ Py.truthy v = true)
  \/ (exists id, l = PredictionUrl id) ->
  locator_text str l <> Some EmptyString.
Proof.
  intros [(v & -> & Hv)|(id & ->)]; simpl.
  - destruct v; try discriminate. simpl in Hv.
    destruct s; [discriminate|]. discriminate.
  - discriminate.
Qed.

Lemma poll_step_posts (valves : Tools.Valves) (emitter : bool) (w : World)
    (url : locator) (s : Tools.poll_state) :
  match Tools.poll_step valves emitter w url s with
  | Tools.Next s' | Tools.Exit _ s' =>
      count is_post (Tools.log s') = count is_post (Tools.log s)
  end.
Proof.
  assert (Hq : forall l : list effect,
            count is_post
              (l ++ [Sleep (Tools.polling_interval valves); HttpGet url])
            = count is_post l).
  { intros l. rewrite count_app. unfold count. simpl. lia. }
  unfold Tools.poll_step.
  destruct (is_terminal (Tools.status s)); [reflexivity|].
  destruct (Qle_bool _ _); [reflexivity|].
  destruct (poll_reply w (Tools.polls s)) as [|code text json];
    [apply Hq|].
  destruct (code =? 200); [|apply Hq].
  destruct json as [[| | | | |d]|]; try apply Hq.
  destruct (emitter && _); cbn [Tools.log]; [|apply Hq].
  rewrite count_app, Hq. unfold count. simpl. lia.
Qed.

Lemma poll_loop_posts (fuel : nat) (valves : Tools.Valves) (emitter : bool)
    (w : World) (url : locator) :
  forall s x s',
    Tools.poll_loop fuel valves emitter w url s = Some (x, s') ->
    count is_post (Tools.log s') = count is_post (Tools.log s).
Proof.
  induction fuel as [|fuel IH]; intros s x s' H; [discriminate|].
  rewrite poll_loop_S in H.
  pose proof (poll_step_posts valves emitter w url s) as Hp.
  destruct (Tools.poll_step valves emitter w url s) as [s1|x1 s1].
  - rewrite (IH _ _ _ H). exact Hp.
  - inversion H; subst. exact Hp.
Qed.

Lemma poll_for_completion_posts (fuel : nat) (valves : Tools.Valves)
    (emitter : bool) (w : World) (prompt : string) (h : Tools.handle)
    (log0 l : list effect) (r : exc Tools.edit_result) :
  Tools.poll_for_completion fuel valves emitter w prompt h log0 = Some (l, r) ->
  count is_post l = count is_post log0.
Proof.
  unfold Tools.poll_for_completion.
  destruct (Tools.poll_loop fuel valves emitter w (Tools.prediction_url h)
              (Tools.start h log0)) as [[x s]|] eqn:Hloop; [|discriminate].
  apply poll_loop_posts in Hloop. cbn [Tools.start Tools.log] in Hloop.
  destruct x as [| |e].
  - unfold Tools.handle_result.
    destruct (Py.eq_str (Tools.status s) "failed");
      [intros H; inversion H; subst; exact Hloop|].
    destruct (Py.eq_str (Tools.status s) "canceled");
      [intros H; inversion H; subst; exact Hloop|].
    destruct (negb _); [intros H; inversion H; subst; exact Hloop|].
    destruct (first_output _);
      [intros H; inversion H; subst; exact Hloop|].
    assert (Hc : count is_post
                   (if emitter then Tools.log s ++ [Emit Complete]
                    else Tools.log s) = count is_post log0).
    { destruct emitter; [|exact Hloop].
      rewrite count_app, Hloop. unfold count. simpl. lia. }
    destruct (Tools.return_html_embed valves);
      intros H; inversion H; subst; exact Hc.
  - intros H; inversion H; subst; exact Hloop.
  - intros H; inversion H; subst; exact Hloop.
Qed.

Lemma edit_image_try_posts (fuel : nat) (valves : Tools.Valves)
    (prompt : string) (aspect_ratio : option string)
    (high_fidelity : option bool) (emitter : bool)
    (messages : option (list dict)) (w : World) (l : list effect)
    (r : exc Tools.edit_result) :
  Tools.edit_image_try fuel valves prompt aspect_ratio high_fidelity emitter
    messages w = Some (l, r) ->
  (count is_post l <= 1)%nat
  /\ (count is_post l = 1%nat ->
      forall code text json,
        create_reply w = Reply code text json ->
        code <> 200 -> code <> 201 ->
        r = ret (Tools.ApiError code (Py.take 200 text))
        /\ count is_get l = 0%nat).
Proof.
  unfold Tools.edit_image_try.
  destruct (negb _);
    [intros H; inversion H; subst; split; [auto | discriminate]|].
  destruct messages as [[|m msgs]|];
    try (intros H; inversion H; subst; split; [auto | discriminate]).
  destruct (extract_images_from_messages (m :: msgs) 3) as [|img images];
    [intros H; inversion H; subst; split; [auto | discriminate]|].
  destruct (Tools.build_input _ _ _ _ _) as [e|replicate_input];
    [intros H; inversion H; subst; split; [auto | discriminate]|].
  set (log0 := if emitter then _ else _).
  assert (H0 : count is_post log0 = 0%nat /\ count is_get log0 = 0%nat).
  { subst log0. destruct emitter; split; reflexivity. }
  destruct H0 as [Hp0 Hg0].
  unfold Tools.submit_prediction.
  set (posted := [HttpPost _ _]).
  assert (Hp1 : count is_post (log0 ++ posted) = 1%nat).
  { rewrite count_app, Hp0. reflexivity. }
  assert (Hg1 : count is_get (log0 ++ posted) = 0%nat).
  { rewrite count_app, Hg0. reflexivity. }
  destruct (create_reply w) as [|code text json].
  - intros H; inversion H; subst. split; [lia|].
    intros _ code text json Hc. discriminate Hc.
  - destruct ((code =? 200) || (code =? 201)) eqn:Hcode; cbn [negb].
    + apply orb_true_iff in Hcode.
      assert (Hok : code = 200 \/ code = 201)
        by (destruct Hcode as [Hc|Hc]; apply Z.eqb_eq in Hc; auto).
      destruct (Tools.read_handle json) as [e|h]; cbn [bind ret].
      * intros H; inversion H; subst. split; [lia|].
        intros _ code' text' json' Hc H200 H201.
        inversion Hc; subst. lia.
      * intros H. apply poll_for_completion_posts in H. split; [lia|].
        intros _ code' text' json' Hc H200 H201.
        inversion Hc; subst. lia.
    + intros H; inversion H; subst. split; [lia|].
      intros _ code' text' json' Hc _ _. inversion Hc; subst.
      split; [reflexivity | exact Hg1].
Qed.

(** C2 (as the code has it).  The creation call is made once.  A network
    failure raises the client error, and a status code other than 200 and
    201 returns the API error at once, with no status check and no second
    creation call in the whole run; otherwise the handle carries the [id]
    of the response as it is, and a status-check address that is never the
    empty string. *)
Theorem creation_call_once (valves : Tools.Valves) (w : World)
    (replicate_input : dict) :
  fst (Tools.submit_prediction valves w replicate_input)
    = [HttpPost (Tools.create_url valves) replicate_input]
  /\ (create_reply w = NetworkFailure ->
      snd (Tools.submit_prediction valves w replicate_input)
        = raise ClientError)
  /\ (forall code text json,
        create_reply w = Reply code text json ->
        code <> 200 -> code <> 201 ->
        snd (Tools.submit_prediction valves w replicate_input)
          = ret (inl (Tools.ApiError code (Py.take 200 text))))
  /\ (forall h,
        snd (Tools.submit_prediction valves w replicate_input)
          = ret (inr h) ->
        exists code text result,
          create_reply w = Reply code text (Some (PDict result))
          /\ (code = 200 \/ code = 201)
          /\ Tools.prediction_id h = Py.get result "id"
          /\ forall str,
               locator_text str (Tools.prediction_url h) <> Some EmptyString)
  /\ (forall fuel prompt aspect_ratio high_fidelity emitter messages r l,
        Tools.edit_image fuel valves prompt aspect_ratio high_fidelity
          emitter messages w = Some (r, l) ->
        (count is_post l <= 1)%nat
        /\ (count is_post l = 1%nat ->
            forall code text json,
              create_reply w = Reply code text json ->
              code <> 200 -> code <> 201 ->
              r = Tools.ApiError code (Py.take 200 text)
              /\ count is_get l = 0%nat)).
Proof.
  split; [reflexivity|]. split; [|split; [|split]].
  - intros H. unfold Tools.submit_prediction. now rewrite H.
  - intros code text json H H200 H201.
    unfold Tools.submit_prediction. rewrite H. cbn [snd].
    destruct (Z.eqb_spec code 200); [contradiction|].
    destruct (Z.eqb_spec code 201); [contradiction|]. reflexivity.
  - intros h. unfold Tools.submit_prediction. cbn [snd].
    destruct (create_reply w) as [|code text json]; [discriminate|].
    destruct ((code =? 200) || (code =? 201)) eqn:Hcode; cbn [negb];
      [|discriminate].
    destruct (Tools.read_handle json) as [e|h'] eqn:Hread; cbn [bind ret];
      [discriminate|].
    intros H; inversion H; subst h'; clear H.
    destruct (read_handle_locator _ _ Hread) as (result & -> & Hid & _ & Hloc).
    exists code, text, result. split; [reflexivity|].
    split.
    { apply orb_true_iff in Hcode.
      destruct Hcode as [Hc|Hc]; apply Z.eqb_eq in Hc; auto. }
    split; [exact Hid|].
    intros str. apply locator_text_nonempty.
    destruct Hloc as [Hl|Hl]; [now left | right; eauto].
  - intros fuel prompt aspect_ratio high_fidelity emitter messages r l.
    unfold Tools.edit_image.
    destruct (Tools.edit_image_try _ _ _ _ _ _ _ _) as [[l0 r0]|] eqn:Htry;
      [|discriminate].
    destruct (edit_image_try_posts _ _ _ _ _ _ _ _ _ _ Htry) as [Hle Hrej].
    assert (Hemit : forall e : status_event,
              count is_post (if emitter then l0 ++ [Emit e] else l0)
              = count is_post l0
              /\ count is_get (if emitter then l0 ++ [Emit e] else l0)
                 = count is_get l0).
    { intros e. destruct emitter; [|auto].
      rewrite !count_app. unfold count. simpl. lia. }
    destruct r0 as [[|name]|r0]; intros H; inversion H; subst; clear H.
    + destruct (Hemit NetworkErrorStatus) as [Hp Hg]. rewrite Hp.
      split; [exact Hle|].
      intros H1 code text json Hc H200 H201.
      destruct (Hrej H1 code text json Hc H200 H201) as [Hr _].
      discriminate Hr.
    + destruct (Hemit ErrorStatus) as [Hp Hg]. rewrite Hp.
      split; [exact Hle|].
      intros H1 code text json Hc H200 H201.
      destruct (Hrej H1 code text json Hc H200 H201) as [Hr _].
      discriminate Hr.
    + split; [exact Hle|].
      intros H1 code text json Hc H200 H201.
      destruct (Hrej H1 code text json Hc H200 H201) as [Hr Hg].
      inversion Hr; subst. split; [reflexivity | exact Hg].
Qed.

Lemma creation_call_once_witness :
  snd (Tools.submit_prediction Sample.default_valves
         (Sample.world (Reply 422 "invalid input" None)
            (fun _ => Sample.processing))
         Sample.input_data)
  = ret (inl (Tools.ApiError 422 "invalid input")).
Proof.
  refine (proj1 (proj2 (proj2
            (creation_call_once Sample.default_valves
               (Sample.world (Reply 422 "invalid input" None)
                  (fun _ => Sample.processing))
               Sample.input_data)))
          422 "invalid input" None _ _ _).
  - reflexivity.
  - lia.
  - lia.
Defined.

(** A rejected creation call, end to end: one POST, no status check. *)
Example rejected_run :
  exists l,
    Sample.run Sample.default_valves
      (Sample.world (Reply 422 "invalid input" None)
         (fun _ => Sample.processing))
    = Some (Tools.ApiError 422 "invalid input", l)
    /\ count is_post l = 1%nat /\ count is_get l = 0%nat.
Proof.
  eexists. split; [vm_compute; reflexivity|]. split; reflexivity.
Qed.

(** C2, as stated, fails: a creation response with status 201 and an
    empty [id] yields a handle, not an error, and the handle has that
    empty identifier; the run goes on to poll with it. *)
Lemma handle_with_empty_identifier :
  (exists h,
     snd (Tools.submit_prediction Sample.default_valves
            (Sample.world Sample.created_without_id
               (fun _ => Sample.processing))
            Sample.input_data) = ret (inr h)
     /\ Tools.prediction_id h = PStr EmptyString)
  /\ exists l,
       Sample.run (Sample.valves 5 1)
         (Sample.world Sample.created_without_id (fun _ => Sample.processing))
       = Some (Tools.Timeout 5 (PStr EmptyString), l)
       /\ count is_get l = 5%nat.
Proof.
  split.
  - eexists. split; reflexivity.
  - eexists. split; [vm_compute; reflexivity | reflexivity].
Qed.

(** ** Outcomes *)

(** In the tool an image is returned only for a response that is neither
    failed nor canceled and whose output is not empty. *)
Lemma handle_result_artifacts (valves : Tools.Valves) (emitter : bool)
    (w : World) (prompt : string) (s : Tools.poll_state) (l : list effect)
    (r : Tools.edit_result) :
  Tools.handle_result valves emitter w prompt s = (l, ret r) ->
  Tools.artifacts r <> [] ->
  Py.eq_str (Tools.status s) "failed" = false
  /\ Py.eq_str (Tools.status s) "canceled" = false
  /\ Py.truthy (Py.get (Tools.result s) "output") = true
  /\ exists image_url,
       first_output (Py.get (Tools.result s) "output") = ret image_url
       /\ Tools.artifacts r = [Tools.final_url w image_url].
Proof.
  unfold Tools.handle_result.
  destruct (Py.eq_str (Tools.status s) "failed");
    [intros H; inversion H; subst; simpl; congruence|].
  destruct (Py.eq_str (Tools.status s) "canceled");
    [intros H; inversion H; subst; simpl; congruence|].
  destruct (Py.truthy (Py.get (Tools.result s) "output")); cbn [negb];
    [|intros H; inversion H; subst; simpl; congruence].
  destruct (first_output (Py.get (Tools.result s) "output")) as [e|image_url];
    [discriminate|].
  destruct (Tools.return_html_embed valves);
    intros H _; inversion H; subst; repeat split; eauto.
Qed.

(** C4, in the harness: a status check that reports [succeeded] without
    an output makes [call_replicate] return a success with no artifact,
    from which [run_test] gets no address (or an [IndexError] for an
    empty list); the tool, given the same responses, returns its
    no-output error. *)
Theorem call_replicate_success_without_output :
  let no_output := [("status", PStr "succeeded"); ("output", PNone)] in
  let empty_output := [("status", PStr "succeeded"); ("output", PList [])] in
  option_map snd
    (Harness.call_replicate 151 Sample.input_data
       (Sample.done_at_once no_output))
  = Some (ret [ ("success", PBool true); ("output", PNone);
                ("metrics", PDict []); ("prediction_id", PStr "p1") ])
  /\ Harness.run_test_output_url
       [ ("success", PBool true); ("output", PNone);
         ("metrics", PDict []); ("prediction_id", PStr "p1") ]
     = ret PNone
  /\ option_map snd
       (Harness.call_replicate 151 Sample.input_data
          (Sample.done_at_once empty_output))
     = Some (ret [ ("success", PBool true); ("output", PList []);
                   ("metrics", PDict []); ("prediction_id", PStr "p1") ])
  /\ Harness.run_test_output_url
       [ ("success", PBool true); ("output", PList []);
         ("metrics", PDict []); ("prediction_id", PStr "p1") ]
     = raise (OtherError "IndexError")
  /\ option_map fst
       (Sample.run Sample.default_valves (Sample.done_at_once no_output))
     = Some (Tools.NoOutput no_output)
  /\ option_map fst
       (Sample.run Sample.default_valves (Sample.done_at_once empty_output))
     = Some (Tools.NoOutput empty_output).
Proof.
  cbv zeta. repeat split; vm_compute; reflexivity.
Qed.

(** [call_replicate] always returns: 150 status checks at most, so that a
    fuel of 151 is never spent. *)
Lemma call_replicate_poll_returns (w : World) (prediction_id : pyval) :
  forall (fuel : nat) (elapsed : Z) (polls : nat) (log : list effect),
    (0 < fuel)%nat ->
    Harness.max_wait - elapsed <= 2 * (Z.of_nat fuel - 1) ->
    exists r,
      Harness.call_replicate_poll fuel w prediction_id elapsed polls log
        = Some r.
Proof.
  induction fuel as [|fuel IH]; intros elapsed polls log Hf He; [lia|].
  cbn [Harness.call_replicate_poll].
  destruct (Z.ltb_spec elapsed Harness.max_wait) as [Hlt|Hge];
    [|eexists; reflexivity].
  destruct (poll_reply w polls) as [|code text [[| | | | |poll_data]|]];
    try (eexists; reflexivity).
  destruct (Py.eq_str (Py.get poll_data "status") "succeeded");
    [eexists; reflexivity|].
  destruct (Py.eq_str (Py.get poll_data "status") "failed"
            || Py.eq_str (Py.get poll_data "status") "canceled");
    [eexists; reflexivity|].
  apply IH; lia.
Qed.

Lemma call_replicate_returns (input_data : dict) (w : World) :
  exists r, Harness.call_replicate 151 input_data w = Some r.
Proof.
  unfold Harness.call_replicate.
  destruct (create_reply w) as [|code text [[| | | | |result]|]];
    try (eexists; reflexivity);
    destruct (negb _); try (eexists; reflexivity).
  apply call_replicate_poll_returns; [lia|].
  unfold Harness.max_wait. lia.
Qed.

(** The whole call of the tool against a service that never finishes, with
    the deadline of 5 and the interval of 1: five status checks, one
    progress report, then the timeout message. *)
Example never_done_run :
  exists l,
    Sample.run (Sample.valves 5 1) Sample.never_done
      = Some (Tools.Timeout 5 (PStr "p1"), l)
    /\ count is_post l = 1%nat
    /\ count is_get l = 5%nat
    /\ count is_progress l = 1%nat.
Proof.
  eexists. split; [vm_compute; reflexivity|]. repeat split.
Qed.

(** ** The earlier version of the tool *)

(** It labels every inline image as PNG, whatever its header says. *)
Example qwen_labels_jpeg_as_png :
  Qwen.slot_value Sample.jpeg_data
    = ("data:image/png;base64," ++ Sample.jpeg_data)%string
  /\ Tools.slot_value Sample.jpeg_data
    = ("data:image/jpeg;base64," ++ Sample.jpeg_data)%string.
Proof. split; reflexivity. Qed.

(** It reports progress on every status check that says [processing]: 20
    reports in 20 units at an interval of 1. *)
Example qwen_reports_every_poll :
  exists s,
    Qwen.poll_steps 20 (Sample.valves 300 1) true Sample.never_done
      (PredictionUrl (PStr "p1")) (Tools.start Sample.handle_p1 [])
      = Tools.Next s
    /\ count is_progress (Tools.log s) = 20%nat.
Proof.
  eexists. split; [vm_compute; reflexivity | reflexivity].
Qed.

(** Its extraction has no limit of its own: the caller cuts the list down
    to three. *)
Example qwen_extracts_all_images :
  Qwen.extract_images_from_messages Sample.four_images
    = [Sample.png_data; Sample.jpeg_data; Sample.gif_data; Sample.webp_data]
  /\ Qwen.limit_images (Qwen.extract_images_from_messages Sample.four_images)
    = [Sample.png_data; Sample.jpeg_data; Sample.gif_data]
  /\ extract_images_from_messages Sample.four_images 3
    = [Sample.png_data; Sample.jpeg_data; Sample.gif_data].
Proof. repeat split. Qed.

(** ** The deadline of the harness *)

(** [call_replicate] gives up after 150 status checks, two seconds apart:
    its clock is then at 300, the deadline. *)
Example call_replicate_times_out :
  exists l,
    Harness.call_replicate 151 Sample.input_data Sample.never_done
      = Some (l, ret [ ("success", PBool false); ("error", PStr "Timeout");
                       ("prediction_id", PStr "p1") ])
    /\ count is_get l = 150%nat.
Proof.
  eexists. split; [vm_compute; reflexivity | reflexivity].
Qed.

(** * Further properties *)

(** ** What a run of the tool does on the outside *)

(** A pass of the loop adds a pause, a status check and at most a progress
    report to the log: the count of any other kind of call stays. *)
Lemma poll_step_count (f : effect -> bool) (valves : Tools.Valves)
    (emitter : bool) (w : World) (url : locator) (s : Tools.poll_state) :
  (forall q, f (Sleep q) = false) ->
  (forall u, f (HttpGet u) = false) ->
  (emitter = true -> forall z, f (Emit (Processing z)) = false) ->
  match Tools.poll_step valves emitter w url s with
  | Tools.Next s' | Tools.Exit _ s' =>
      count f (Tools.log s') = count f (Tools.log s)
  end.
Proof.
  intros Hsleep Hget Hprog.
  assert (Hq : forall l : list effect,
            count f (l ++ [Sleep (Tools.polling_interval valves); HttpGet url])
            = count f l).
  { intros l. rewrite count_app. unfold count. simpl.
    rewrite Hsleep, Hget. simpl. lia. }
  unfold Tools.poll_step.
  destruct (is_terminal (Tools.status s)); [reflexivity|].
  destruct (Qle_bool _ _); [reflexivity|].
  destruct (poll_reply w (Tools.polls s)) as [|code text json];
    [apply Hq|].
  destruct (code =? 200); [|apply Hq].
  destruct json as [[| | | | |d]|]; try apply Hq.
  destruct emitter; cbn [andb]; [|apply Hq].
  destruct (Qle_bool 5 _); cbn [Tools.log]; [|apply Hq].
  rewrite count_app, Hq. unfold count. simpl.
  rewrite (Hprog eq_refl). simpl. lia.
Qed.

Lemma poll_loop_count (f : effect -> bool) (valves : Tools.Valves)
    (emitter : bool) (w : World) (url : locator) :
  (forall q, f (Sleep q) = false) ->
  (forall u, f (HttpGet u) = false) ->
  (emitter = true -> forall z, f (Emit (Processing z)) = false) ->
  forall fuel s x s',
    Tools.poll_loop fuel valves emitter w url s = Some (x, s') ->
    count f (Tools.log s') = count f (Tools.log s).
Proof.
  intros Hsleep Hget Hprog.
  induction fuel as [|fuel IH]; intros s x s' H; [discriminate|].
  rewrite poll_loop_S in H.
  pose proof (poll_step_count f valves emitter w url s Hsleep Hget Hprog) as Hp.
  destruct (Tools.poll_step valves emitter w url s) as [s1|x1 s1].
  - rewrite (IH _ _ _ H). exact Hp.
  - inversion H; subst. exact Hp.
Qed.

(** How a value comes out of the polling phase. *)
Lemma poll_for_completion_inv (fuel : nat) (valves : Tools.Valves)
    (emitter : bool) (w : World) (prompt : string) (h : Tools.handle)
    (log0 l : list effect) (r : exc Tools.edit_result) :
  Tools.poll_for_completion fuel valves emitter w prompt h log0 = Some (l, r) ->
  exists x s,
    Tools.poll_loop fuel valves emitter w (Tools.prediction_url h)
      (Tools.start h log0) = Some (x, s)
    /\ match x with
       | Tools.Finished =>
           Tools.handle_result valves emitter w prompt s = (l, r)
       | Tools.TimedOut =>
           l = Tools.log s
           /\ r = ret (Tools.Timeout (Tools.max_wait_time valves)
                         (Tools.prediction_id h))
       | Tools.Raised e => l = Tools.log s /\ r = raise e
       end.
Proof.
  unfold Tools.poll_for_completion.
  destruct (Tools.poll_loop fuel valves emitter w (Tools.prediction_url h)
              (Tools.start h log0)) as [[x s]|]; [|discriminate].
  intros H. exists x, s. split; [reflexivity|].
  destruct x; inversion H; subst; auto.
Qed.

(** What the last phase adds to the log: nothing, or the final report when
    an image is returned and there is an emitter. *)
Lemma handle_result_log (valves : Tools.Valves) (emitter : bool) (w : World)
    (prompt : string) (s : Tools.poll_state) (l : list effect)
    (r : exc Tools.edit_result) :
  Tools.handle_result valves emitter w prompt s = (l, r) ->
  (l = Tools.log s
   /\ match r with
      | inr r' => emitter && reports_done r' = false
      | inl e => e = OtherError "IndexError"
      end)
  \/ (emitter = true /\ l = Tools.log s ++ [Emit Complete]
      /\ exists r', r = ret r' /\ Tools.artifacts r' <> []
                    /\ reports_done r' = true).
Proof.
  unfold Tools.handle_result.
  destruct (Py.eq_str (Tools.status s) "failed");
    [intros H; inversion H; subst; left; split;
       [reflexivity | apply andb_false_r]|].
  destruct (Py.eq_str (Tools.status s) "canceled");
    [intros H; inversion H; subst; left; split;
       [reflexivity | apply andb_false_r]|].
  destruct (negb _);
    [intros H; inversion H; subst; left; split;
       [reflexivity | apply andb_false_r]|].
  destruct (first_output _) as [e|image_url] eqn:Hf.
  - intros H; inversion H; subst. left. split; [reflexivity|].
    unfold first_output in Hf.
    destruct (Py.get (Tools.result s) "output") as [| | | |[|x o]|];
      try discriminate Hf.
    now inversion Hf.
  - destruct emitter.
    + destruct (Tools.return_html_embed valves);
        intros H; inversion H; subst; right;
        (split; [reflexivity|]; split; [reflexivity|]);
        eexists; (split; [reflexivity|]); split;
        [discriminate | reflexivity | discriminate | reflexivity].
    + destruct (Tools.return_html_embed valves);
        intros H; inversion H; subst; left; split; reflexivity.
Qed.

(** *** The slots of a request *)

Lemma extract_images_length (messages : list dict) :
  (List.length (extract_images_from_messages messages 3) <= 3)%nat.
Proof.
  unfold extract_images_from_messages.
  destruct (last_user_message messages) as [m|]; [|simpl; lia].
  destruct (negb _); [simpl; lia|].
  destruct (Py.get m "content"); try (simpl; lia).
  rewrite collect_images_firstn by (simpl; lia).
  apply firstn_le_length.
Qed.

(** The slot values are kept folded while a request is computed. *)
Ltac hide_slots :=
  repeat match goal with
         | |- context [Tools.slot_value ?x] =>
             generalize (Tools.slot_value x); intro
         end.

Lemma build_input_slots (valves : Tools.Valves) (prompt : string)
    (aspect_ratio : option string) (use_fast : bool) (images : list string) :
  (List.length images <= 3)%nat ->
  exists replicate_input,
    Tools.build_input valves prompt aspect_ratio use_fast images
      = inr replicate_input
    /\ map fst replicate_input
       = base_keys ++ firstn (List.length images) Tools.image_keys
    /\ Py.get replicate_input "prompt" = PStr prompt
    /\ forall i img,
         nth_error images i = Some img ->
         exists key,
           nth_error Tools.image_keys i = Some key
           /\ Py.get replicate_input key = PStr (Tools.slot_value img).
Proof.
  intros Hlen. unfold Tools.build_input.
  set (ratio := match aspect_ratio with Some r => _ | None => _ end).
  clearbody ratio.
  destruct images as [|a [|b [|c [|d images]]]]; try (simpl in Hlen; lia);
    cbn [Tools.map_images nth_error Tools.image_keys];
    eexists; (split; [reflexivity|]);
    (split; [hide_slots; reflexivity|]);
    (split; [hide_slots; reflexivity|]);
    intros i img Hi;
    repeat (destruct i as [|i];
            [cbn [nth_error] in Hi; inversion Hi; subst; eexists;
             split; [reflexivity | hide_slots; reflexivity]|]);
    destruct i; discriminate Hi.
Qed.

(** How a value comes out of the body of [edit_image]: before any call on
    the outside, or after the announcement and the creation call. *)
Lemma edit_image_try_inv (fuel : nat) (valves : Tools.Valves)
    (prompt : string) (aspect_ratio : option string)
    (high_fidelity : option bool) (emitter : bool)
    (messages : option (list dict)) (w : World) (l : list effect)
    (r : exc Tools.edit_result) :
  Tools.edit_image_try fuel valves prompt aspect_ratio high_fidelity emitter
    messages w = Some (l, r) ->
  (l = []
   /\ (r = ret Tools.NoToken /\ Tools.replicate_api_token valves = EmptyString
       \/ r = ret Tools.NoMessages
          /\ (messages = None \/ messages = Some [])
       \/ r = ret Tools.NoImages
          /\ exists msgs,
               messages = Some msgs
               /\ extract_images_from_messages msgs 3 = []))
  \/ exists msgs replicate_input log0,
       Tools.replicate_api_token valves <> EmptyString
       /\ messages = Some msgs
       /\ extract_images_from_messages msgs 3 <> []
       /\ (emitter = false /\ log0 = []
           \/ emitter = true
              /\ exists n mode, log0 = [Emit (Generating n mode)])
       /\ match snd (Tools.submit_prediction valves w replicate_input) with
          | inl e =>
              l = log0 ++ [HttpPost (Tools.create_url valves) replicate_input]
              /\ r = raise e
          | inr (inl early) =>
              l = log0 ++ [HttpPost (Tools.create_url valves) replicate_input]
              /\ r = ret early
          | inr (inr h) =>
              Tools.poll_for_completion fuel valves emitter w prompt h
                (log0 ++ [HttpPost (Tools.create_url valves) replicate_input])
              = Some (l, r)
          end.
Proof.
  unfold Tools.edit_image_try.
  destruct (Tools.replicate_api_token valves) as [|c token] eqn:Htoken;
    cbn [Py.truthy String.eqb negb];
    [intros H; inversion H; subst; left; auto|].
  destruct messages as [[|m msgs]|];
    try (intros H; inversion H; subst; left; now auto 6).
  destruct (extract_images_from_messages (m :: msgs) 3) as [|img images]
    eqn:Himages;
    [intros H; inversion H; subst; left; split; [reflexivity|];
     do 2 right; split; [reflexivity|]; now exists (m :: msgs)|].
  destruct (Tools.build_input _ _ _ _ _) as [e|replicate_input] eqn:Hbuild.
  - exfalso.
    destruct (build_input_slots valves prompt aspect_ratio
                match high_fidelity with
                | Some hf => negb hf
                | None => Tools.go_fast valves
                end (img :: images)) as (input & Hok & _).
    + rewrite <- Himages. apply extract_images_length.
    + rewrite Hok in Hbuild. discriminate.
  - unfold Tools.submit_prediction.
    intros H. right. exists (m :: msgs), replicate_input.
    exists (if emitter
            then [Emit (Generating (List.length (img :: images))
                          (if match high_fidelity with
                              | Some hf => negb hf
                              | None => Tools.go_fast valves
                              end
                           then "Lightning" else "High-fidelity"))]
            else []).
    split; [discriminate|]. split; [reflexivity|].
    split; [now rewrite Himages|].
    split.
    { destruct emitter; [right | left]; split; try reflexivity.
      eexists; eexists; reflexivity. }
    cbn [snd].
    destruct (create_reply w) as [|code text json].
    + inversion H; subst. split; reflexivity.
    + destruct (negb _).
      * inversion H; subst. split; reflexivity.
      * destruct (Tools.read_handle json) as [e|h]; cbn [bind ret] in *.
        -- inversion H; subst. split; reflexivity.
        -- exact H.
Qed.

(** ** The request of the tool, from the transcript *)

(** X1.  For every transcript the request of the tool is built without an
    error from the images it extracts: the six parameters come first, then
    one slot per image, [image], [image_2], [image_3] in the order of the
    images, each holding the URL or the data URI of its image.  With more
    than three images the slot loop would raise [IndexError]; the limit of
    the extraction is what rules that out. *)
Theorem request_slots_follow_images (valves : Tools.Valves) (prompt : string)
    (aspect_ratio : option string) (use_fast : bool) :
  (forall messages,
     exists replicate_input,
       Tools.build_input valves prompt aspect_ratio use_fast
         (extract_images_from_messages messages 3) = inr replicate_input
       /\ map fst replicate_input
          = base_keys
            ++ firstn (List.length (extract_images_from_messages messages 3))
                 Tools.image_keys
       /\ forall i img,
            nth_error (extract_images_from_messages messages 3) i = Some img ->
            exists key,
              nth_error Tools.image_keys i = Some key
              /\ Py.get replicate_input key = PStr (Tools.slot_value img))
  /\ (forall images,
        (3 < List.length images)%nat ->
        Tools.build_input valves prompt aspect_ratio use_fast images
          = raise (OtherError "IndexError")).
Proof.
  split.
  - intros messages.
    destruct (build_input_slots valves prompt aspect_ratio use_fast _
                (extract_images_length messages))
      as (input & Hb & Hk & _ & Hs).
    exists input. auto.
  - intros images Hlen.
    destruct images as [|a [|b [|c [|d images]]]]; try (simpl in Hlen; lia).
    reflexivity.
Qed.

Lemma request_slots_follow_images_witness :
  exists replicate_input,
    Tools.build_input Sample.default_valves "make the sofa blue" None true
      (extract_images_from_messages Sample.transcript 3) = inr replicate_input
    /\ Py.get replicate_input "image"
       = PStr ("data:image/png;base64," ++ Sample.png_data)%string
    /\ Py.get replicate_input "image_2" = PStr "https://x/ref.jpg".
Proof.
  destruct (proj1 (request_slots_follow_images Sample.default_valves
                     "make the sofa blue" None true) Sample.transcript)
    as (input & Hb & _ & Hs).
  exists input. split; [exact Hb|]. split.
  - destruct (Hs 0%nat Sample.png_data eq_refl) as (key & Hk & Hg).
    inversion Hk; subst. rewrite Hg. vm_compute. reflexivity.
  - destruct (Hs 1%nat "https://x/ref.jpg" eq_refl) as (key & Hk & Hg).
    inversion Hk; subst. rewrite Hg. vm_compute. reflexivity.
Defined.

(** ** Calls and reports of a run *)

Lemma submit_prediction_early (valves : Tools.Valves) (w : World)
    (replicate_input : dict) (early : Tools.edit_result) :
  snd (Tools.submit_prediction valves w replicate_input) = ret (inl early) ->
  exists code text, early = Tools.ApiError code text.
Proof.
  unfold Tools.submit_prediction. cbn [snd].
  destruct (create_reply w) as [|code text json]; [discriminate|].
  destruct (negb _).
  - intros H; inversion H; subst. eauto.
  - destruct (Tools.read_handle json); discriminate.
Qed.

(** The log of the body of [edit_image], by kinds of calls. *)
Lemma edit_image_try_log (fuel : nat) (valves : Tools.Valves)
    (prompt : string) (aspect_ratio : option string)
    (high_fidelity : option bool) (emitter : bool)
    (messages : option (list dict)) (w : World) (l : list effect)
    (r : exc Tools.edit_result) :
  Tools.edit_image_try fuel valves prompt aspect_ratio high_fidelity emitter
    messages w = Some (l, r) ->
  (emitter = false -> count is_emit l = 0%nat)
  /\ (l <> [] -> count is_post l = 1%nat)
  /\ match r with
     | inl _ => count is_done l = 0%nat /\ l <> []
     | inr r' =>
         if emitter && reports_done r'
         then count is_done l = 1%nat
              /\ exists l', l = l' ++ [Emit Complete]
         else count is_done l = 0%nat
     end.
Proof.
  intros H.
  destruct (edit_image_try_inv _ _ _ _ _ _ _ _ _ _ H)
    as [(-> & Hr)|(msgs & input & log0 & Htoken & Hmsgs & Himages & Hlog0 & Hrun)];
    unfold ret, raise in *.
  - split; [reflexivity|]. split; [congruence|].
    destruct Hr as [(-> & _)|[(-> & _)|(-> & _)]];
      cbn [reports_done]; rewrite andb_false_r; reflexivity.
  - set (posted := [HttpPost (Tools.create_url valves) input]) in *.
    assert (H0 : (emitter = false -> count is_emit (log0 ++ posted) = 0%nat)
                 /\ count is_post (log0 ++ posted) = 1%nat
                 /\ count is_done (log0 ++ posted) = 0%nat
                 /\ log0 ++ posted <> []).
    { destruct Hlog0 as [(He & ->)|(He & n & mode & ->)].
      - repeat split; try reflexivity. discriminate.
      - repeat split; try reflexivity; [congruence | discriminate]. }
    destruct H0 as (Hemit0 & Hpost0 & Hdone0 & Hne0).
    destruct (snd (Tools.submit_prediction valves w input))
      as [e|[early|h]] eqn:Hsub.
    + destruct Hrun as [-> ->]. auto.
    + destruct Hrun as [-> ->].
      destruct (submit_prediction_early _ _ _ _ Hsub) as (code & text & ->).
      cbn [reports_done]. rewrite andb_false_r. auto.
    + destruct (poll_for_completion_inv _ _ _ _ _ _ _ _ _ Hrun)
        as (x & s & Hloop & Hx).
      assert (Hposts : count is_post (Tools.log s) = 1%nat).
      { rewrite (poll_loop_count is_post valves emitter w _
                   (fun _ => eq_refl) (fun _ => eq_refl)
                   (fun _ _ => eq_refl) _ _ _ _ Hloop).
        exact Hpost0. }
      assert (Hdones : count is_done (Tools.log s) = 0%nat).
      { rewrite (poll_loop_count is_done valves emitter w _
                   (fun _ => eq_refl) (fun _ => eq_refl)
                   (fun _ _ => eq_refl) _ _ _ _ Hloop).
        exact Hdone0. }
      assert (Hemits : emitter = false ->
                       count is_emit (Tools.log s) = 0%nat).
      { intros He. subst emitter.
        rewrite (poll_loop_count is_emit valves false w _
                   (fun _ => eq_refl) (fun _ => eq_refl)
                   (fun Hf => ltac:(discriminate Hf)) _ _ _ _ Hloop).
        now apply Hemit0. }
      assert (Hne : Tools.log s <> []).
      { intros Hnil. rewrite Hnil in Hposts. discriminate. }
      destruct x as [| |e].
      * destruct (handle_result_log _ _ _ _ _ _ _ Hx)
          as [(-> & Hr)|(He & -> & r' & -> & _ & Hr')].
        -- split; [exact Hemits|]. split; [auto|].
           destruct r as [e|r']; [split; assumption|]. now rewrite Hr.
        -- split; [congruence|]. split.
           { intros _. rewrite count_app, Hposts. reflexivity. }
           cbv beta iota delta [ret]. rewrite He, Hr'. cbn [andb]. split.
           ++ rewrite count_app, Hdones. reflexivity.
           ++ eexists. reflexivity.
      * destruct Hx as [-> ->]. cbv beta iota delta [ret reports_done].
        rewrite andb_false_r. auto.
      * destruct Hx as [-> ->]. cbv beta iota delta [raise]. auto.
Qed.

(** X2.  The tool calls nothing on the outside before its checks pass:
    without a token, with no messages, or with no image in the last user
    message it returns its message with an empty log, whatever the
    service; and a run that has called anything at all had a token and at
    least one image, and has made the creation call exactly once. *)
Theorem no_call_before_validation (valves : Tools.Valves) (prompt : string)
    (aspect_ratio : option string) (high_fidelity : option bool)
    (emitter : bool) (messages : option (list dict)) (w : World) :
  (Tools.replicate_api_token valves = EmptyString ->
   forall fuel,
     Tools.edit_image fuel valves prompt aspect_ratio high_fidelity emitter
       messages w = Some (Tools.NoToken, []))
  /\ (Tools.replicate_api_token valves <> EmptyString ->
      messages = None \/ messages = Some [] ->
      forall fuel,
        Tools.edit_image fuel valves prompt aspect_ratio high_fidelity emitter
          messages w = Some (Tools.NoMessages, []))
  /\ (Tools.replicate_api_token valves <> EmptyString ->
      forall m msgs,
        messages = Some (m :: msgs) ->
        extract_images_from_messages (m :: msgs) 3 = [] ->
        forall fuel,
          Tools.edit_image fuel valves prompt aspect_ratio high_fidelity
            emitter messages w = Some (Tools.NoImages, []))
  /\ (forall fuel r l,
        Tools.edit_image fuel valves prompt aspect_ratio high_fidelity emitter
          messages w = Some (r, l) ->
        l <> [] ->
        Tools.replicate_api_token valves <> EmptyString
        /\ (exists msgs,
              messages = Some msgs
              /\ extract_images_from_messages msgs 3 <> [])
        /\ count is_post l = 1%nat).
Proof.
  split; [|split; [|split]].
  - intros Ht fuel. unfold Tools.edit_image, Tools.edit_image_try.
    now rewrite Ht.
  - intros Ht Hm fuel. unfold Tools.edit_image, Tools.edit_image_try.
    destruct (Tools.replicate_api_token valves); [congruence|].
    destruct Hm as [-> | ->]; reflexivity.
  - intros Ht m msgs -> Hi fuel.
    unfold Tools.edit_image, Tools.edit_image_try.
    destruct (Tools.replicate_api_token valves); [congruence|].
    cbn [Py.truthy String.eqb negb]. now rewrite Hi.
  - intros fuel r l. unfold Tools.edit_image.
    destruct (Tools.edit_image_try _ _ _ _ _ _ _ _) as [[l0 r0]|] eqn:Htry;
      [|discriminate].
    destruct (edit_image_try_log _ _ _ _ _ _ _ _ _ _ Htry)
      as (_ & Hpost & Hr).
    assert (Hcalled : l0 <> [] ->
              Tools.replicate_api_token valves <> EmptyString
              /\ exists msgs,
                   messages = Some msgs
                   /\ extract_images_from_messages msgs 3 <> []).
    { intros Hne.
      destruct (edit_image_try_inv _ _ _ _ _ _ _ _ _ _ Htry)
        as [(-> & _)|(msgs & _ & _ & Ht & Hm & Hi & _)]; [congruence|].
      eauto. }
    assert (Hemit : forall e : status_event,
              count is_post (if emitter then l0 ++ [Emit e] else l0)
              = count is_post l0).
    { intros e. destruct emitter; [|reflexivity].
      rewrite count_app. unfold count at 2. simpl. lia. }
    destruct r0 as [[|name]|r0]; intros H; inversion H; subst; clear H;
      intros Hne.
    + destruct Hr as [_ Hl0]. destruct (Hcalled Hl0) as [Ht Hm].
      rewrite Hemit. auto.
    + destruct Hr as [_ Hl0]. destruct (Hcalled Hl0) as [Ht Hm].
      rewrite Hemit. auto.
    + destruct (Hcalled Hne) as [Ht Hm]. auto.
Qed.

Lemma no_call_before_validation_witness :
  Tools.edit_image 0 (Sample.valves 300 1) "make the sofa blue" None None true
    (Some [Sample.message "user" [Sample.text_item "no image here"]])
    Sample.never_done = Some (Tools.NoImages, []).
Proof.
  refine (proj1 (proj2 (proj2
            (no_call_before_validation (Sample.valves 300 1)
               "make the sofa blue" None None true
               (Some [Sample.message "user" [Sample.text_item "no image here"]])
               Sample.never_done)))
          _ _ [] eq_refl eq_refl 0%nat).
  discriminate.
Defined.

(** X3.  The report with [done: True] is sent exactly when the tool
    returns an image or leaves through one of its two handlers, and it is
    then the last call of the run; a timeout, a failed or canceled job, a
    missing output, a rejected creation call and the three messages of the
    checks end the run without it.  Without an emitter nothing is
    reported at all. *)
Theorem done_report (fuel : nat) (valves : Tools.Valves) (prompt : string)
    (aspect_ratio : option string) (high_fidelity : option bool)
    (emitter : bool) (messages : option (list dict)) (w : World)
    (r : Tools.edit_result) (l : list effect) :
  Tools.edit_image fuel valves prompt aspect_ratio high_fidelity emitter
    messages w = Some (r, l) ->
  (emitter = false -> count is_emit l = 0%nat)
  /\ count is_done l = (if emitter && reports_done r then 1 else 0)%nat
  /\ (emitter = true -> reports_done r = true ->
      exists l' e, l = l' ++ [Emit e] /\ is_done (Emit e) = true).
Proof.
  unfold Tools.edit_image.
  destruct (Tools.edit_image_try _ _ _ _ _ _ _ _) as [[l0 r0]|] eqn:Htry;
    [|discriminate].
  destruct (edit_image_try_log _ _ _ _ _ _ _ _ _ _ Htry) as (Hemit & _ & Hr).
  destruct r0 as [[|name]|r0]; intros H; inversion H; subst; clear H.
  - destruct Hr as [Hd _]. cbn [reports_done]. rewrite andb_true_r.
    destruct emitter.
    + split; [discriminate|]. split.
      * rewrite count_app, Hd. reflexivity.
      * intros _ _. eexists. eexists. split; reflexivity.
    + split; [exact Hemit|]. split; [exact Hd | discriminate].
  - destruct Hr as [Hd _]. cbn [reports_done]. rewrite andb_true_r.
    destruct emitter.
    + split; [discriminate|]. split.
      * rewrite count_app, Hd. reflexivity.
      * intros _ _. eexists. eexists. split; reflexivity.
    + split; [exact Hemit|]. split; [exact Hd | discriminate].
  - split; [exact Hemit|].
    destruct (emitter && reports_done r) eqn:Hb.
    + destruct Hr as [Hd (l' & ->)]. split; [exact Hd|].
      intros _ _. exists l', Complete. split; reflexivity.
    + split; [exact Hr|]. intros -> Hrd. rewrite Hrd in Hb. discriminate.
Qed.

Lemma done_report_witness :
  exists l,
    Sample.run (Sample.valves 5 1) Sample.never_done
      = Some (Tools.Timeout 5 (PStr "p1"), l)
    /\ count is_done l = 0%nat.
Proof.
  eexists. split; [vm_compute; reflexivity|].
  refine (proj1 (proj2 (done_report 1000 (Sample.valves 5 1)
                          "make the sofa blue" None None true
                          (Some Sample.transcript) Sample.never_done
                          (Tools.Timeout 5 (PStr "p1")) _ _))).
  vm_compute. reflexivity.
Defined.

(** ** The polling loop against any service *)

Lemma poll_step_cases (valves : Tools.Valves) (emitter : bool) (w : World)
    (url : locator) (s : Tools.poll_state) :
  match Tools.poll_step valves emitter w url s with
  | Tools.Next s' =>
      is_terminal (Tools.status s) = false
      /\ (Tools.elapsed s < inject_Z (Tools.max_wait_time valves))%Q
      /\ Tools.elapsed s' = (Tools.elapsed s + Tools.polling_interval valves)%Q
      /\ Tools.polls s' = S (Tools.polls s)
  | Tools.Exit Tools.Finished s' =>
      s' = s /\ is_terminal (Tools.status s) = true
  | Tools.Exit Tools.TimedOut s' =>
      s' = s /\ is_terminal (Tools.status s) = false
      /\ (inject_Z (Tools.max_wait_time valves) <= Tools.elapsed s)%Q
  | Tools.Exit (Tools.Raised e) s' =>
      is_terminal (Tools.status s) = false
      /\ (Tools.elapsed s < inject_Z (Tools.max_wait_time valves))%Q
      /\ Tools.elapsed s' = (Tools.elapsed s + Tools.polling_interval valves)%Q
      /\ Tools.polls s' = S (Tools.polls s)
  end.
Proof.
  unfold Tools.poll_step.
  destruct (is_terminal (Tools.status s)) eqn:Ht; [auto|].
  destruct (Qle_bool _ _) eqn:Hq.
  - apply Qle_bool_iff in Hq. auto.
  - apply Qle_bool_false in Hq.
    destruct (poll_reply w (Tools.polls s)) as [|code text json];
      [cbn; auto|].
    destruct (code =? 200); [|cbn; auto].
    destruct json as [[| | | | |d]|]; try (cbn; now auto).
    destruct (emitter && _); cbn; auto.
Qed.

Lemma accounted_step (valves : Tools.Valves) (emitter : bool) (w : World)
    (url : locator) (log0 : list effect) (s : Tools.poll_state) :
  accounted valves log0 s ->
  match Tools.poll_step valves emitter w url s with
  | Tools.Next s' | Tools.Exit _ s' => accounted valves log0 s'
  end.
Proof.
  intros (He & Hg & Hs).
  assert (Hq : forall (f : effect -> bool) l n,
            count f l = n ->
            f (Sleep (Tools.polling_interval valves)) || f (HttpGet url) = true ->
            f (Sleep (Tools.polling_interval valves)) && f (HttpGet url) = false ->
            count f (l ++ [Sleep (Tools.polling_interval valves); HttpGet url])
            = S n).
  { intros f l n Hn Hor Hand. rewrite count_app, Hn. unfold count. simpl.
    destruct (f (Sleep _)), (f (HttpGet url)); simpl in *;
      try discriminate; lia. }
  assert (Hclock : (Tools.elapsed s + Tools.polling_interval valves
                    == inject_Z (Z.of_nat (S (Tools.polls s)))
                       * Tools.polling_interval valves)%Q).
  { rewrite He, Nat2Z.inj_succ. unfold Z.succ. rewrite inject_Z_plus.
    change (inject_Z 1) with 1%Q. ring. }
  assert (Hgets : count is_get
                    (Tools.log s
                     ++ [Sleep (Tools.polling_interval valves); HttpGet url])
                  = (count is_get log0 + S (Tools.polls s))%nat).
  { rewrite (Hq is_get _ _ Hg); [lia | reflexivity | reflexivity]. }
  assert (Hsleeps : count is_sleep
                      (Tools.log s
                       ++ [Sleep (Tools.polling_interval valves); HttpGet url])
                    = (count is_sleep log0 + S (Tools.polls s))%nat).
  { rewrite (Hq is_sleep _ _ Hs); [lia | reflexivity | reflexivity]. }
  assert (Hemit : forall e,
            count is_get
              ((Tools.log s
                ++ [Sleep (Tools.polling_interval valves); HttpGet url])
               ++ [Emit e])
            = (count is_get log0 + S (Tools.polls s))%nat
            /\ count is_sleep
                 ((Tools.log s
                   ++ [Sleep (Tools.polling_interval valves); HttpGet url])
                  ++ [Emit e])
               = (count is_sleep log0 + S (Tools.polls s))%nat).
  { intros e. rewrite !(count_app _ (_ ++ _) [Emit e]), Hgets, Hsleeps.
    split; cbn [count is_get is_sleep List.length List.filter]; lia. }
  assert (Hmore : accounted valves log0
            {| Tools.status := Tools.status s; Tools.result := Tools.result s;
               Tools.elapsed := Tools.elapsed s + Tools.polling_interval valves;
               Tools.last_status_update := Tools.last_status_update s;
               Tools.polls := S (Tools.polls s);
               Tools.log :=
                 Tools.log s
                 ++ [Sleep (Tools.polling_interval valves); HttpGet url] |}).
  { exact (conj Hclock (conj Hgets Hsleeps)). }
  assert (Hold : accounted valves log0 s).
  { exact (conj He (conj Hg Hs)). }
  unfold Tools.poll_step.
  destruct (is_terminal (Tools.status s)); [exact Hold|].
  destruct (Qle_bool _ _); [exact Hold|].
  cbv zeta.
  destruct (poll_reply w (Tools.polls s)) as [|code text json];
    [exact Hmore|].
  destruct (code =? 200); [|exact Hmore].
  destruct json as [[| | | | |d]|]; try exact Hmore.
  destruct (emitter && _).
  - exact (conj Hclock
             (Hemit (Processing
                       (Py.int (Tools.elapsed s
                                + Tools.polling_interval valves))))).
  - exact (conj Hclock (conj Hgets Hsleeps)).
Qed.

Lemma accounted_start (valves : Tools.Valves) (h : Tools.handle)
    (log0 : list effect) :
  accounted valves log0 (Tools.start h log0).
Proof.
  unfold accounted. cbn [Tools.start Tools.elapsed Tools.polls Tools.log].
  split; [|split; lia].
  change (inject_Z (Z.of_nat 0)) with 0%Q. ring.
Qed.

Lemma accounted_loop (valves : Tools.Valves) (emitter : bool) (w : World)
    (url : locator) (log0 : list effect) (fuel : nat) :
  forall s x s',
    accounted valves log0 s ->
    Tools.poll_loop fuel valves emitter w url s = Some (x, s') ->
    accounted valves log0 s'.
Proof.
  induction fuel as [|fuel IH]; intros s x s' Hs H; [discriminate|].
  rewrite poll_loop_S in H.
  pose proof (accounted_step valves emitter w url log0 s Hs) as Hstep.
  destruct (Tools.poll_step valves emitter w url s) as [s1|x1 s1].
  - exact (IH _ _ _ Hstep H).
  - now inversion H; subst.
Qed.

(** ** The first status *)

Lemma edit_image_inv (fuel : nat) (valves : Tools.Valves) (prompt : string)
    (aspect_ratio : option string) (high_fidelity : option bool)
    (emitter : bool) (messages : option (list dict)) (w : World)
    (r : Tools.edit_result) (l : list effect) :
  Tools.edit_image fuel valves prompt aspect_ratio high_fidelity emitter
    messages w = Some (r, l) ->
  exists l0 r0,
    Tools.edit_image_try fuel valves prompt aspect_ratio high_fidelity emitter
      messages w = Some (l0, r0)
    /\ match r0 with
       | inr r' => r = r' /\ l = l0
       | inl e =>
           (r = Tools.NetworkError \/ r = Tools.UnexpectedError e)
           /\ (l = l0 \/ exists ev, l = l0 ++ [Emit ev])
       end.
Proof.
  unfold Tools.edit_image.
  destruct (Tools.edit_image_try _ _ _ _ _ _ _ _) as [[l0 r0]|];
    [|discriminate].
  intros H. exists l0, r0. split; [reflexivity|].
  destruct r0 as [[|name]|r0]; inversion H; subst; clear H;
    try (split; reflexivity);
    (split; [auto|]); destruct emitter; eauto.
Qed.






(** ** Images of the transcript *)

Lemma after_comma_app (t p : string) :
  has_char ","%char t = false ->
  Py.after_comma (t ++ String ","%char p) = Some p.
Proof.
  induction t as [|c t IH]; intros H; cbn [String.append Py.after_comma].
  - reflexivity.
  - cbn [has_char] in H. apply orb_false_iff in H. destruct H as [Hc Ht].
    rewrite Hc. exact (IH Ht).
Qed.

Lemma after_comma_none (u : string) :
  has_char ","%char u = false -> Py.after_comma u = None.
Proof.
  induction u as [|c u IH]; intros H; cbn [Py.after_comma]; [reflexivity|].
  cbn [has_char] in H. apply orb_false_iff in H. destruct H as [Hc Hu].
  rewrite Hc. exact (IH Hu).
Qed.

Lemma prefix_empty (s : string) : String.prefix EmptyString s = true.
Proof. now destruct s. Qed.

Lemma detect_image_mime_cases (base64_data : string) :
  detect_image_mime base64_data = "image/png"
  \/ detect_image_mime base64_data = "image/jpeg"
  \/ detect_image_mime base64_data = "image/gif"
  \/ detect_image_mime base64_data = "image/webp".
Proof.
  unfold detect_image_mime, detect_image_mime_try.
  destruct (Base64.b64decode (Py.take 32 base64_data)) as [e|header];
    cbv beta iota delta [bind ret]; [auto|].
  destruct (bytes_startswith header PNG_MAGIC); [auto|].
  destruct (bytes_startswith header JPEG_MAGIC); [auto|].
  destruct (bytes_startswith header GIF_MAGIC); [auto|].
  destruct (bytes_startswith header RIFF_MAGIC && _); auto.
Qed.

Lemma item_image_data_uri (t p : string) :
  has_char ","%char t = false ->
  item_image (Sample.image_item ("data:image" ++ t ++ String ","%char p))
  = Some p.
Proof.
  intros H. unfold item_image, Sample.image_item.
  cbn [Py.get Py.get_default Py.lookup String.eqb Ascii.eqb Bool.eqb
       Py.eq_str Py.truthy negb Py.startswith String.prefix String.append].
  cbn. rewrite prefix_empty, (after_comma_app t p H). reflexivity.
Qed.

(** X7.  The base64 text of an inline image goes through the tool
    unchanged.  From a data URI of any media type the extraction keeps
    exactly the text after the first comma; a data URI without a comma is
    kept whole.  And whatever the tool puts into a slot of its request, a
    URL or the data URI it builds around base64 text, is read back by its
    own extraction as the image it was built from. *)
Theorem data_uri_round_trip :
  (forall t p,
     has_char ","%char t = false ->
     item_image (Sample.image_item ("data:image" ++ t ++ String ","%char p))
     = Some p)
  /\ (forall t,
        has_char ","%char t = false ->
        item_image (Sample.image_item ("data:image" ++ t))
        = Some ("data:image" ++ t)%string)
  /\ (forall img,
        item_image (Sample.image_item (Tools.slot_value img)) = Some img).
Proof.
  split; [exact item_image_data_uri|]. split.
  - intros t H. unfold item_image, Sample.image_item.
    cbn [Py.get Py.get_default Py.lookup String.eqb Ascii.eqb Bool.eqb
         Py.eq_str Py.truthy negb Py.startswith String.prefix String.append].
    cbn. rewrite prefix_empty, (after_comma_none t H). reflexivity.
  - intros img. unfold Tools.slot_value.
    destruct (Py.startswith img "http") eqn:Hhttp.
    + unfold Py.startswith in Hhttp.
      destruct img as [|c img]; [discriminate Hhttp|].
      cbn [String.prefix] in Hhttp.
      destruct (ascii_dec "h"%char c) as [<-|]; [|discriminate Hhttp].
      unfold item_image, Sample.image_item. cbn.
      cbn [String.prefix] in Hhttp. rewrite Hhttp. reflexivity.
    + cbv zeta.
      destruct (detect_image_mime_cases img) as [-> | [-> | [-> | ->]]].
      * exact (item_image_data_uri "/png;base64" img eq_refl).
      * exact (item_image_data_uri "/jpeg;base64" img eq_refl).
      * exact (item_image_data_uri "/gif;base64" img eq_refl).
      * exact (item_image_data_uri "/webp;base64" img eq_refl).
Qed.

Lemma data_uri_round_trip_witness :
  item_image (Sample.image_item
                ("data:image/svg+xml;charset=utf-8;base64,"
                 ++ Sample.text_data))
  = Some Sample.text_data.
Proof.
  exact (proj1 data_uri_round_trip "/svg+xml;charset=utf-8;base64"
           Sample.text_data eq_refl).
Defined.

Lemma item_images_length (item : pyval) :
  (List.length (item_images item) <= 1)%nat.
Proof. unfold item_images. destruct (item_image item); simpl; lia. Qed.

Lemma collect_images_no_room (max_images : Z) (content : list pyval) :
  max_images <= 0 ->
  collect_images content [] max_images
  = match find is_image_url_item content with
    | Some item => item_images item
    | None => []
    end.
Proof.
  intros Hmax. induction content as [|item rest IH]; [reflexivity|].
  cbn [collect_images find].
  destruct (is_image_url_item item); [|exact IH]. unfold item_images.
  destruct (item_image item) as [img|]; cbn [app List.length].
  - destruct (Z.geb_spec (Z.of_nat 1) max_images); [reflexivity | lia].
  - destruct (Z.geb_spec (Z.of_nat 0) max_images); [reflexivity | lia].
Qed.

(** X8.  The limit of the extraction is tested after an image has been
    added, and only after a content item of type [image_url].  So for a
    limit below 1 the result is not empty: it is what the first item of
    that type in the last user message gives, one image if that item
    holds a usable address, whatever items of other types come before it.
    For every limit the result has at most [max(1, max_images)] images. *)
Theorem extraction_limit (messages : list dict) (max_images : Z) :
  (List.length (extract_images_from_messages messages max_images)
   <= Z.to_nat (Z.max 1 max_images))%nat
  /\ (forall m content,
        max_images <= 0 ->
        last_user_message messages = Some m ->
        Py.get m "content" = PList content ->
        extract_images_from_messages messages max_images
        = match find is_image_url_item content with
          | Some item => item_images item
          | None => []
          end).
Proof.
  split.
  - unfold extract_images_from_messages.
    destruct (last_user_message messages) as [m|]; [|simpl; lia].
    destruct (negb _); [simpl; lia|].
    destruct (Py.get m "content") as [| | | |content|]; try (simpl; lia).
    destruct (Z.leb_spec max_images 0) as [Hle|Hgt].
    + rewrite (collect_images_no_room _ _ Hle).
      destruct (find is_image_url_item content) as [item|]; [|simpl; lia].
      pose proof (item_images_length item). lia.
    + rewrite collect_images_firstn by (simpl; lia).
      cbn [app]. rewrite length_firstn. lia.
  - intros m content Hmax Hlast Hcontent.
    unfold extract_images_from_messages. rewrite Hlast.
    destruct m as [|kv m]; [discriminate Hcontent|].
    cbn [Py.truthy negb]. rewrite Hcontent.
    exact (collect_images_no_room _ _ Hmax).
Qed.

Lemma extraction_limit_witness :
  extract_images_from_messages
    [Sample.message "user" [Sample.text_item "make the sofa blue";
                            Sample.image_item "https://x/ref.jpg";
                            Sample.image_item "https://x/other.jpg"]] 0
  = ["https://x/ref.jpg"].
Proof.
  refine (eq_trans
            (proj2 (extraction_limit
                      [Sample.message "user"
                         [Sample.text_item "make the sofa blue";
                          Sample.image_item "https://x/ref.jpg";
                          Sample.image_item "https://x/other.jpg"]] 0)
               _ _ _ eq_refl eq_refl) _).
  - lia.
  - reflexivity.
Defined.

(** ** The prompt in the page *)

Lemma escape_app (p q : string) :
  Tools.escape (p ++ q) = (Tools.escape p ++ Tools.escape q)%string.
Proof.
  induction p as [|c p IH]; cbn [String.append Tools.escape]; [reflexivity|].
  rewrite IH. unfold Tools.escape_char.
  destruct (Ascii.eqb c (ascii_of_nat 34)); [reflexivity|].
  destruct (Ascii.eqb c "<"%char); [reflexivity|].
  destruct (Ascii.eqb c ">"%char); reflexivity.
Qed.

Lemma has_char_app (c : ascii) (p q : string) :
  has_char c (p ++ q) = has_char c p || has_char c q.
Proof.
  induction p as [|c' p IH]; cbn [String.append has_char]; [reflexivity|].
  rewrite IH. apply orb_assoc.
Qed.

Lemma escaped_prompt_cons (c : ascii) (prompt : string) :
  escaped_prompt (String c prompt)
  = (Tools.escape_char c ++ escaped_prompt prompt)%string.
Proof.
  unfold escaped_prompt, Tools.escape_char. cbn [replace_char].
  destruct (Ascii.eqb c (ascii_of_nat 34)) eqn:Hq; [reflexivity|].
  cbn [replace_char].
  destruct (Ascii.eqb c "<"%char) eqn:Hl; [reflexivity|].
  cbn [replace_char].
  destruct (Ascii.eqb c ">"%char) eqn:Hg; reflexivity.
Qed.

Lemma escaped_prompt_escape (prompt : string) :
  escaped_prompt prompt = Tools.escape prompt.
Proof.
  induction prompt as [|c prompt IH]; [reflexivity|].
  rewrite escaped_prompt_cons, IH. reflexivity.
Qed.

Lemma escape_char_clean (c x : ascii) :
  x = ascii_of_nat 34 \/ x = "<"%char \/ x = ">"%char ->
  has_char x (Tools.escape_char c) = false.
Proof.
  intros Hx. unfold Tools.escape_char.
  destruct (Ascii.eqb c (ascii_of_nat 34)) eqn:Hq;
    [destruct Hx as [-> | [-> | ->]]; reflexivity|].
  destruct (Ascii.eqb c "<"%char) eqn:Hl;
    [destruct Hx as [-> | [-> | ->]]; reflexivity|].
  destruct (Ascii.eqb c ">"%char) eqn:Hg;
    [destruct Hx as [-> | [-> | ->]]; reflexivity|].
  cbn [has_char]. rewrite orb_false_r.
  destruct Hx as [-> | [-> | ->]]; assumption.
Qed.

(** X9.  The three replacements of the prompt, made one after the other,
    amount to one pass that rewrites each character on its own, since no
    replacement text holds a character that a later replacement looks for.
    The text put into the page holds no double quote, no [<] and no [>];
    a prompt without these characters is shown as it is.  The ampersand
    is not rewritten, so the text does not tell a prompt that holds [<]
    from one that holds [&lt;] in its place. *)
Theorem prompt_escaping (prompt : string) :
  escaped_prompt prompt = Tools.escape prompt
  /\ (forall x,
        x = ascii_of_nat 34 \/ x = "<"%char \/ x = ">"%char ->
        has_char x (escaped_prompt prompt) = false)
  /\ (has_char (ascii_of_nat 34) prompt = false ->
      has_char "<"%char prompt = false ->
      has_char ">"%char prompt = false ->
      escaped_prompt prompt = prompt)
  /\ (forall rest,
        escaped_prompt (prompt ++ "<" ++ rest)
        = escaped_prompt (prompt ++ "&lt;" ++ rest)).
Proof.
  split; [apply escaped_prompt_escape|]. split; [|split].
  - intros x Hx. induction prompt as [|c prompt IH]; [reflexivity|].
    rewrite escaped_prompt_cons, has_char_app, IH.
    now rewrite (escape_char_clean c x Hx).
  - induction prompt as [|c prompt IH]; intros Hq Hl Hg; [reflexivity|].
    cbn [has_char] in Hq, Hl, Hg.
    apply orb_false_iff in Hq. destruct Hq as [Hq Hq'].
    apply orb_false_iff in Hl. destruct Hl as [Hl Hl'].
    apply orb_false_iff in Hg. destruct Hg as [Hg Hg'].
    rewrite escaped_prompt_cons, (IH Hq' Hl' Hg').
    unfold Tools.escape_char. now rewrite Hq, Hl, Hg.
  - intros rest. rewrite !escaped_prompt_escape, !escape_app. reflexivity.
Qed.

Lemma prompt_escaping_witness :
  escaped_prompt "make the sofa blue" = "make the sofa blue".
Proof.
  exact (proj1 (proj2 (proj2 (prompt_escaping "make the sofa blue")))
           eq_refl eq_refl eq_refl).
Defined.

(** ** The harness against any service *)

Lemma count_snoc (f : effect -> bool) (l : list effect) (e : effect) :
  count f (l ++ [e]) = (count f l + if f e then 1 else 0)%nat.
Proof.
  rewrite count_app. unfold count at 2. cbn [filter].
  now destruct (f e).
Qed.

Lemma call_replicate_poll_runs (w : World) (prediction_id : pyval) :
  forall (n : nat) (elapsed : Z) (polls : nat) (log : list effect),
    Harness.max_wait <= elapsed + 2 * Z.of_nat n ->
    exists l r,
      (forall fuel, (n < fuel)%nat ->
         Harness.call_replicate_poll fuel w prediction_id elapsed polls log
         = Some (l, r))
      /\ count is_post l = count is_post log
      /\ (count is_get l <= count is_get log + n)%nat
      /\ (count is_get log <= count is_get l)%nat
      /\ (elapsed < Harness.max_wait ->
          (count is_get log < count is_get l)%nat)
      /\ (count is_sleep l + count is_get log
          <= count is_sleep log + count is_get l)%nat.
Proof.
  induction n as [|n IH]; intros elapsed polls log Hn.
  - exists log. eexists. split; [|repeat split; lia].
    intros [|fuel] Hf; [lia|]. cbn [Harness.call_replicate_poll].
    destruct (Z.ltb_spec elapsed Harness.max_wait); [lia | reflexivity].
  - destruct (Z.ltb_spec elapsed Harness.max_wait) as [Hlt|Hge].
    + assert (Hexit : forall r : exc dict,
                (forall fuel, (S n < fuel)%nat ->
                   Harness.call_replicate_poll fuel w prediction_id elapsed
                     polls log
                   = Some (log ++ [HttpGet (PredictionUrl prediction_id)], r))
                ->
                exists l r,
                  (forall fuel, (S n < fuel)%nat ->
                     Harness.call_replicate_poll fuel w prediction_id elapsed
                       polls log = Some (l, r))
                  /\ count is_post l = count is_post log
                  /\ (count is_get l <= count is_get log + S n)%nat
                  /\ (count is_get log <= count is_get l)%nat
                  /\ (elapsed < Harness.max_wait ->
                      (count is_get log < count is_get l)%nat)
                  /\ (count is_sleep l + count is_get log
                      <= count is_sleep log + count is_get l)%nat).
      { intros r Hr. exists (log ++ [HttpGet (PredictionUrl prediction_id)]), r.
        split; [exact Hr|]. rewrite !count_snoc. cbn [is_post is_get is_sleep].
        repeat split; lia. }
      assert (Hrun : forall fuel,
                Harness.call_replicate_poll (S fuel) w prediction_id elapsed
                  polls log
                = let log' := log ++ [HttpGet (PredictionUrl prediction_id)] in
                  match poll_reply w polls with
                  | NetworkFailure => Some (log', raise ClientError)
                  | Reply _ _ None =>
                      Some (log', raise (OtherError "JSONDecodeError"))
                  | Reply _ _ (Some (PDict poll_data)) =>
                      let status := Py.get poll_data "status" in
                      if Py.eq_str status "succeeded" then
                        Some (log',
                              ret [ ("success", PBool true);
                                    ("output", Py.get poll_data "output");
                                    ("metrics",
                                     Py.get_default poll_data "metrics"
                                       (PDict []));
                                    ("prediction_id", prediction_id) ])
                      else if Py.eq_str status "failed"
                              || Py.eq_str status "canceled"
                      then
                        Some (log',
                              ret [ ("success", PBool false);
                                    ("error",
                                     Py.get_default poll_data "error"
                                       (PStr "Unknown error"));
                                    ("prediction_id", prediction_id) ])
                      else
                        Harness.call_replicate_poll fuel w prediction_id
                          (elapsed + 2) (S polls) (log' ++ [Sleep 2])
                  | Reply _ _ (Some _) =>
                      Some (log', raise (OtherError "AttributeError"))
                  end).
      { intros fuel. cbn [Harness.call_replicate_poll].
        destruct (Z.ltb_spec elapsed Harness.max_wait); [reflexivity | lia]. }
      destruct (poll_reply w polls) as [|code text [[| | | | |poll_data]|]]
        eqn:Hreply;
        try (eapply Hexit; intros [|fuel] Hf; [lia|];
             rewrite Hrun; reflexivity).
      cbv zeta in Hrun.
      destruct (Py.eq_str (Py.get poll_data "status") "succeeded");
        [eapply Hexit; intros [|fuel] Hf; [lia|]; rewrite Hrun; reflexivity|].
      destruct (Py.eq_str (Py.get poll_data "status") "failed"
                || Py.eq_str (Py.get poll_data "status") "canceled");
        [eapply Hexit; intros [|fuel] Hf; [lia|]; rewrite Hrun; reflexivity|].
      destruct (IH (elapsed + 2) (S polls)
                  ((log ++ [HttpGet (PredictionUrl prediction_id)])
                   ++ [Sleep 2]) ltac:(lia))
        as (l & r & Hloop & Hp & Hg & Hm & _ & Hs).
      rewrite !count_snoc in Hp. rewrite !count_snoc in Hg.
      rewrite !count_snoc in Hm. rewrite !count_snoc in Hs.
      cbn [is_post is_get is_sleep] in *.
      exists l, r. split; [|repeat split; lia].
      intros [|fuel] Hf; [lia|]. rewrite Hrun. apply Hloop. lia.
    + exists log. eexists. split; [|repeat split; lia].
      intros [|fuel] Hf; [lia|]. cbn [Harness.call_replicate_poll].
      destruct (Z.ltb_spec elapsed Harness.max_wait); [lia | reflexivity].
Qed.

(** X10.  [call_replicate] of the harness returns whatever the service
    does, with the same result for every fuel above 150: it makes the
    creation call once and at most 150 status checks with a pause of two
    seconds after each one that found the job running.  Once the creation
    call is accepted with a JSON object it makes at least one status
    check, since it does not read the status of the creation response. *)
Theorem call_replicate_bounded (input_data : dict) (w : World) :
  exists l r,
    (forall fuel, (150 < fuel)%nat ->
       Harness.call_replicate fuel input_data w = Some (l, r))
    /\ count is_post l = 1%nat
    /\ (count is_sleep l <= count is_get l <= 150)%nat
    /\ (forall code text result,
          create_reply w = Reply code text (Some (PDict result)) ->
          (code =? 200) || (code =? 201) = true ->
          (1 <= count is_get l)%nat).
Proof.
  unfold Harness.call_replicate.
  set (posted := [HttpPost _ input_data]).
  assert (Hearly : forall r : exc dict,
            (forall code text result,
               create_reply w = Reply code text (Some (PDict result)) ->
               (code =? 200) || (code =? 201) = true -> False) ->
            exists l r',
              (forall fuel : nat, (150 < fuel)%nat ->
                 Some (posted, r) = Some (l, r'))
              /\ count is_post l = 1%nat
              /\ (count is_sleep l <= count is_get l <= 150)%nat
              /\ (forall code text result,
                    create_reply w = Reply code text (Some (PDict result)) ->
                    (code =? 200) || (code =? 201) = true ->
                    (1 <= count is_get l)%nat)).
  { intros r Hno. exists posted, r. split; [reflexivity|].
    split; [reflexivity|]. split; [cbn; lia|].
    intros code text result Hc Hok. destruct (Hno _ _ _ Hc Hok). }
  destruct (create_reply w) as [|code text json] eqn:Hcreate.
  - apply Hearly. discriminate.
  - destruct ((code =? 200) || (code =? 201)) eqn:Hcode; cbn [negb].
    + destruct json as [[| | | | |result]|];
        try (apply Hearly; discriminate).
      destruct (call_replicate_poll_runs w (Py.get result "id") 150 0 0%nat
                  posted ltac:(unfold Harness.max_wait; lia))
        as (l & r & Hloop & Hp & Hg & _ & Hfirst & Hs).
      exists l, r. split; [exact Hloop|].
      change (count is_post posted) with 1%nat in Hp.
      change (count is_get posted) with 0%nat in Hg, Hfirst, Hs.
      change (count is_sleep posted) with 0%nat in Hs.
      split; [exact Hp|]. split; [lia|].
      intros _ _ _ _ _.
      assert (0 < count is_get l)%nat
        by (apply Hfirst; unfold Harness.max_wait; lia).
      lia.
    + apply Hearly. intros code' text' result H.
      inversion H; subst. congruence.
Qed.

Lemma call_replicate_bounded_witness :
  exists l r,
    Harness.call_replicate 151 Sample.input_data Sample.never_done
    = Some (l, r)
    /\ (1 <= count is_get l)%nat.
Proof.
  destruct (call_replicate_bounded Sample.input_data Sample.never_done)
    as (l & r & Hrun & _ & _ & Hfirst).
  exists l, r. split; [apply Hrun; lia|].
  exact (Hfirst 201 EmptyString _ eq_refl eq_refl).
Defined.

(** ** Results and their test cases *)

Lemma prefix_app (p rest : string) : String.prefix p (p ++ rest) = true.
Proof.
  induction p as [|c p IH]; cbn [String.append String.prefix].
  - apply prefix_empty.
  - destruct (ascii_dec c c); [exact IH | congruence].
Qed.

Lemma prefix_inv (p s : string) :
  String.prefix p s = true -> exists rest, s = (p ++ rest)%string.
Proof.
  revert s. induction p as [|c p IH]; intros s H.
  - now exists s.
  - destruct s as [|c' s]; [discriminate H|]. cbn [String.prefix] in H.
    destruct (ascii_dec c c') as [<-|]; [|discriminate H].
    destruct (IH s H) as [rest ->]. now exists rest.
Qed.

Lemma split_first_found (sep rest : string) :
  TestCases.split_first sep (sep ++ rest) = EmptyString.
Proof.
  pose proof (prefix_app sep rest) as H.
  destruct (sep ++ rest)%string; cbn [TestCases.split_first]; now rewrite H.
Qed.

(** No occurrence of the marker begins in the identifier and ends in the
    marker that follows it. *)
Lemma run_marker_no_overlap (c : ascii) (s rest : string) :
  String.prefix "_run" (String c s ++ "_run" ++ rest) = true ->
  String.prefix "_run" (String c s) = true.
Proof.
  intros H. apply prefix_inv in H. destruct H as [tail H].
  destruct s as [|c2 [|c3 [|c4 s]]]; cbn [String.append] in H;
    inversion H; subst.
  exact (prefix_app "_run" s).
Qed.

Lemma split_first_run (i rest : string) :
  TestCases.contains "_run" i = false ->
  TestCases.split_first "_run" (i ++ "_run" ++ rest) = i.
Proof.
  induction i as [|c i IH]; intros H.
  - exact (split_first_found "_run" rest).
  - cbn [TestCases.contains] in H. apply orb_false_iff in H.
    destruct H as [Hp Hc].
    change ((String c i ++ "_run" ++ rest)%string)
      with (String c (i ++ "_run" ++ rest)).
    cbn [TestCases.split_first].
    destruct (String.prefix "_run" (String c (i ++ "_run" ++ rest))) eqn:Hq.
    + apply (run_marker_no_overlap c i rest) in Hq. congruence.
    + now rewrite (IH Hc).
Qed.

Lemma split_first_none (sep s : string) :
  TestCases.contains sep s = false -> TestCases.split_first sep s = s.
Proof.
  induction s as [|c s IH]; intros H; cbn [TestCases.contains] in H;
    apply orb_false_iff in H; destruct H as [Hp Hc];
    cbn [TestCases.split_first]; rewrite Hp; [reflexivity|].
  now rewrite (IH Hc).
Qed.

Lemma split_first_length (sep s : string) :
  (String.length (TestCases.split_first sep s) <= String.length s)%nat.
Proof.
  induction s as [|c s IH]; cbn [TestCases.split_first];
    destruct (String.prefix sep _); cbn [String.length]; lia.
Qed.

Lemma split_first_cut (sep s : string) :
  TestCases.contains sep s = true ->
  (String.length (TestCases.split_first sep s) < String.length s)%nat
  \/ s = EmptyString.
Proof.
  induction s as [|c s IH]; intros H; [now right|]. left.
  cbn [TestCases.contains] in H. cbn [TestCases.split_first].
  destruct (String.prefix sep (String c s)) eqn:Hp; cbn [String.length];
    [lia|].
  cbn [orb] in H. destruct (IH H) as [Hlt | ->]; [lia|].
  cbn [TestCases.contains] in H. rewrite orb_false_r in H.
  destruct sep; [discriminate Hp | discriminate H].
Qed.

(** X11.  A result is shown with the test case it came from.  The
    identifier of a repeated run is the identifier of the test case
    followed by [_run] and the run number, and the evaluation sheet cuts
    it at the first [_run]: for an identifier that does not hold [_run]
    this gives the identifier back, whatever follows the marker, and every
    result of a run of the harness, for any choice of categories, finds
    its own test case.  An identifier that holds [_run] would be cut
    short and not be found under its own name. *)
Theorem results_find_their_test_case :
  (forall i rest,
     TestCases.contains "_run" i = false ->
     TestCases.split_first "_run" (i ++ "_run" ++ rest) = i
     /\ TestCases.split_first "_run" i = i)
  /\ (forall categories test_id,
        In test_id (TestCases.run_all_tests_ids categories) ->
        exists tc run_number,
          In tc TestCases.TEST_CASES
          /\ TestCases.selected categories tc = true
          /\ In run_number (TestCases.run_numbers tc)
          /\ test_id = TestCases.run_test_id tc run_number
          /\ TestCases.original test_id = Some tc)
  /\ (forall i,
        i <> EmptyString ->
        TestCases.contains "_run" i = true ->
        TestCases.split_first "_run" i <> i).
Proof.
  split; [|split].
  - intros i rest H. split; [exact (split_first_run i rest H)|].
    exact (split_first_none _ _ H).
  - intros categories test_id Hin.
    unfold TestCases.run_all_tests_ids in Hin.
    apply in_flat_map in Hin. destruct Hin as (tc & Htc & Hid).
    apply filter_In in Htc. destruct Htc as [Htc Hsel].
    apply in_map_iff in Hid. destruct Hid as (n & <- & Hn).
    exists tc, n. repeat (split; [assumption|]). split; [reflexivity|].
    assert (Hall : Forall
              (fun tc =>
                 Forall
                   (fun n =>
                      TestCases.original (TestCases.run_test_id tc n)
                      = Some tc)
                   (TestCases.run_numbers tc))
              TestCases.TEST_CASES).
    { unfold TestCases.TEST_CASES. repeat constructor. }
    rewrite Forall_forall in Hall. specialize (Hall tc Htc).
    rewrite Forall_forall in Hall. exact (Hall n Hn).
  - intros i Hne H Heq.
    destruct (split_first_cut _ _ H) as [Hlt | ->]; [|congruence].
    rewrite Heq in Hlt. lia.
Qed.

Lemma results_find_their_test_case_witness :
  TestCases.split_first "_run" "consistency_001_run3" = "consistency_001"
  /\ TestCases.original "consistency_001_run3"
     = nth_error TestCases.TEST_CASES 8.
Proof.
  split.
  - exact (proj1 (proj1 results_find_their_test_case "consistency_001" "3"
                    eq_refl)).
  - destruct (proj1 (proj2 results_find_their_test_case) None
                "consistency_001_run3") as (tc & n & _ & _ & _ & _ & Ho).
    + vm_compute. tauto.
    + reflexivity.
Defined.

(** ** The summary of a run of the harness *)

Section Summary.

Import Results.

Let counters := list (string * (nat * nat)).

Lemma filter_length_snoc {A} (f : A -> bool) (l : list A) (a : A) :
  List.length (filter f (l ++ [a]))
  = (List.length (filter f l) + if f a then 1 else 0)%nat.
Proof.
  rewrite filter_app, length_app. cbn [filter]. now destruct (f a).
Qed.

Lemma successful_failed (results : list TestResult) :
  (successful results + failed results = List.length results)%nat.
Proof.
  unfold successful, failed.
  induction results as [|r results IH]; [reflexivity|].
  cbn [filter List.length]. destruct (success r); cbn [negb List.length]; lia.
Qed.

Lemma tally_snoc (results : list TestResult) (r : TestResult) :
  tally (results ++ [r]) = tally_one (category r) (success r) (tally results).
Proof. unfold tally. now rewrite fold_left_app. Qed.

Lemma tally_one_keys (cat : string) (ok : bool) (categories : counters) :
  forall c,
    In c (map fst (tally_one cat ok categories))
    <-> c = cat \/ In c (map fst categories).
Proof.
  induction categories as [|[c0 [s f]] rest IH]; intros c;
    cbn [tally_one map fst In].
  - destruct ok; cbn [map fst In]; intuition congruence.
  - destruct (String.eqb_spec c0 cat) as [->|Hne]; cbn [map fst In].
    + intuition congruence.
    + rewrite IH. intuition congruence.
Qed.

Lemma tally_one_nodup (cat : string) (ok : bool) (categories : counters) :
  NoDup (map fst categories) ->
  NoDup (map fst (tally_one cat ok categories)).
Proof.
  induction categories as [|[c0 [s f]] rest IH]; intros H;
    cbn [tally_one map fst].
  - destruct ok; cbn [map fst]; repeat constructor; intros [].
  - inversion H as [|? ? Hnot Hrest]; subst.
    destruct (String.eqb_spec c0 cat) as [->|Hne]; cbn [map fst].
    + now constructor.
    + constructor; [|exact (IH Hrest)].
      rewrite tally_one_keys. intuition congruence.
Qed.

Lemma tally_one_entry (cat : string) (ok : bool) (categories : counters)
    (c : string) (s f : nat) :
  NoDup (map fst categories) ->
  In (c, (s, f)) (tally_one cat ok categories) ->
  (c <> cat /\ In (c, (s, f)) categories)
  \/ (c = cat
      /\ exists s0 f0,
           (s, f) = (if ok then (S s0, f0) else (s0, S f0))
           /\ (In (cat, (s0, f0)) categories
               \/ (~ In cat (map fst categories)
                   /\ s0 = 0%nat /\ f0 = 0%nat))).
Proof.
  induction categories as [|[c0 [s0 f0]] rest IH]; intros Hnd H;
    cbn [tally_one] in H.
  - right. destruct H as [H|[]]. split; [now destruct ok; inversion H|].
    exists 0%nat, 0%nat. split; [now destruct ok; inversion H|].
    right. cbn. tauto.
  - inversion Hnd as [|? ? Hnot Hrest]; subst.
    destruct (String.eqb_spec c0 cat) as [->|Hne].
    + destruct H as [H|H].
      * right. inversion H; subst. split; [reflexivity|].
        exists s0, f0. split; [now destruct ok|]. left. now left.
      * left. split; [|now right].
        intros ->. apply Hnot. apply (in_map fst) in H. exact H.
    + destruct H as [H|H].
      * left. inversion H; subst. split; [exact Hne | now left].
      * destruct (IH Hrest H) as [(Hc & Hin)|(-> & s1 & f1 & Heq & Hwhere)].
        -- left. split; [exact Hc | now right].
        -- right. split; [reflexivity|]. exists s1, f1.
           split; [exact Heq|].
           destruct Hwhere as [Hin|(Hout & -> & ->)]; [left; now right|].
           right. split; [|split; reflexivity].
           cbn [map fst In]. intuition congruence.
Qed.

Lemma none_in_category (cat : string) (results : list TestResult) :
  (forall r, In r results -> category r <> cat) ->
  passes_in cat results = 0%nat /\ failures_in cat results = 0%nat.
Proof.
  unfold passes_in, failures_in.
  induction results as [|r results IH]; intros H; [split; reflexivity|].
  cbn [filter].
  destruct (String.eqb_spec (category r) cat) as [He|_];
    [destruct (H r (or_introl eq_refl) He)|].
  cbn [andb]. apply IH. intros r' Hr'. apply H. now right.
Qed.

(** What the dictionary holds after the loop over the results. *)
Lemma tally_spec (results : list TestResult) :
  NoDup (map fst (tally results))
  /\ (forall c s f,
        In (c, (s, f)) (tally results) ->
        s = passes_in c results /\ f = failures_in c results
        /\ (1 <= s + f)%nat)
  /\ (forall r, In r results -> In (category r) (map fst (tally results))).
Proof.
  induction results as [|r results IH] using rev_ind.
  - split; [constructor|]. split; [intros c s f []|intros r []].
  - destruct IH as (Hnd & Hcount & Hkeys). rewrite tally_snoc.
    split; [exact (tally_one_nodup _ _ _ Hnd)|]. split.
    + intros c s f Hin. unfold passes_in, failures_in.
      rewrite !filter_length_snoc.
      fold (passes_in c results). fold (failures_in c results).
      destruct (tally_one_entry _ _ _ _ _ _ Hnd Hin)
        as [(Hc & Hold)|(-> & s0 & f0 & Heq & Hwhere)].
      * destruct (Hcount _ _ _ Hold) as (-> & -> & Hpos).
        destruct (String.eqb_spec (category r) c) as [He|_];
          [congruence|].
        cbn [andb]. lia.
      * rewrite String.eqb_refl. cbn [andb].
        assert (Hbase : s0 = passes_in (category r) results
                        /\ f0 = failures_in (category r) results).
        { destruct Hwhere as [Hold|(Hout & -> & ->)].
          - destruct (Hcount _ _ _ Hold) as (-> & -> & _). now split.
          - destruct (none_in_category (category r) results) as [-> ->];
              [|now split].
            intros r' Hr' He. apply Hout. rewrite <- He. now apply Hkeys. }
        destruct Hbase as [<- <-].
        destruct (success r); inversion Heq; subst; cbn [negb]; lia.
    + intros r' Hr'. rewrite tally_one_keys.
      apply in_app_or in Hr'. destruct Hr' as [Hr'|[<-|[]]]; [|now left].
      right. now apply Hkeys.
Qed.

Lemma tally_one_sums (cat : string) (ok : bool) (categories : counters) :
  list_sum (map (fun x => fst (snd x)) (tally_one cat ok categories))
  = (list_sum (map (fun x => fst (snd x)) categories)
     + if ok then 1 else 0)%nat
  /\ list_sum (map (fun x => snd (snd x)) (tally_one cat ok categories))
     = (list_sum (map (fun x => snd (snd x)) categories)
        + if ok then 0 else 1)%nat.
Proof.
  assert (Hcons : forall (n : nat) (l : list nat),
            list_sum (n :: l) = (n + list_sum l)%nat) by reflexivity.
  induction categories as [|[c0 [s f]] rest [IHs IHf]]; cbn [tally_one].
  - destruct ok; split; reflexivity.
  - destruct (String.eqb c0 cat).
    + destruct ok; cbn [map fst snd]; rewrite !Hcons; split; lia.
    + cbn [map fst snd]. rewrite !Hcons, IHs, IHf. split; lia.
Qed.

Lemma tally_sums (results : list TestResult) :
  list_sum (map (fun x => fst (snd x)) (tally results)) = successful results
  /\ list_sum (map (fun x => snd (snd x)) (tally results)) = failed results.
Proof.
  induction results as [|r results [IHs IHf]] using rev_ind;
    [split; reflexivity|].
  rewrite tally_snoc. destruct (tally_one_sums (category r) (success r)
                                  (tally results)) as [-> ->].
  rewrite IHs, IHf. unfold successful, failed.
  rewrite !filter_length_snoc. destruct (success r); cbn [negb]; split; lia.
Qed.

(** The lines of the categories are printed without an error, one per
    entry of the dictionary. *)
Lemma category_rows_spec (categories : counters) :
  exists rows,
    category_rows categories = ret rows
    /\ map (fun x => (row_category x, (row_passes x, row_failures x))) rows
       = categories
    /\ forall x,
         In x rows ->
         (1 <= row_passes x + row_failures x)%nat ->
         (snd x == inject_Z (Z.of_nat (row_passes x))
                   / inject_Z (Z.of_nat (row_passes x + row_failures x))
                   * 100)%Q.
Proof.
  induction categories as [|[c [s f]] rest (rows & Hrows & Hmap & Hrate)].
  - exists []. split; [reflexivity|]. split; [reflexivity | intros x []].
  - cbn [category_rows]. cbv zeta. unfold rate.
    assert (Hhead : (if (0 <? s + f)%nat
                     then if (s + f =? 0)%nat
                          then raise (OtherError "ZeroDivisionError")
                          else ret (inject_Z (Z.of_nat s)
                                    / inject_Z (Z.of_nat (s + f)) * 100)%Q
                     else ret 0%Q)
                    = ret (if (0 <? s + f)%nat
                           then (inject_Z (Z.of_nat s)
                                 / inject_Z (Z.of_nat (s + f)) * 100)%Q
                           else 0%Q)).
    { destruct (Nat.ltb_spec 0 (s + f)) as [Hpos|_]; [|reflexivity].
      destruct (Nat.eqb_spec (s + f) 0); [lia | reflexivity]. }
    rewrite Hhead, Hrows. cbv beta iota delta [bind ret].
    eexists. split; [reflexivity|]. split.
    + cbn [map]. rewrite Hmap. reflexivity.
    + intros x [<-|Hx]; [|now apply Hrate].
      unfold row_passes, row_failures. cbn [fst snd]. intros Hpos.
      destruct (Nat.ltb_spec 0 (s + f)); [reflexivity | lia].
Qed.

End Summary.

(** X12.  The summaries of a run add up.  In the saved file the successful
    and the failed results together are the total.  The table printed for
    a run that has results is printed without an error: it has one line
    per category, in no category twice; each line counts the passes and
    the failures of its category and at least one result, so that its rate
    is always a true quotient; every result is in some line; and the
    columns sum to the numbers of the line of the totals.  For an empty
    list of results the line of the totals divides by zero. *)
Theorem summary_adds_up (results : list Results.TestResult) :
  (Results.saved_successful (Results.save_results results)
   + Results.saved_failed (Results.save_results results)
   = Results.total_tests (Results.save_results results))%nat
  /\ (results = [] ->
      Results.print_summary results = raise (OtherError "ZeroDivisionError"))
  /\ (results <> [] ->
      exists rows total_rate,
        Results.print_summary results
        = ret (rows,
               ("TOTAL", Results.successful results, Results.failed results,
                total_rate))
        /\ NoDup (map Results.row_category rows)
        /\ (forall x,
              In x rows ->
              Results.row_passes x
              = Results.passes_in (Results.row_category x) results
              /\ Results.row_failures x
                 = Results.failures_in (Results.row_category x) results
              /\ (1 <= Results.row_passes x + Results.row_failures x)%nat
              /\ (snd x
                  == inject_Z (Z.of_nat (Results.row_passes x))
                     / inject_Z (Z.of_nat (Results.row_passes x
                                           + Results.row_failures x))
                     * 100)%Q)
        /\ (forall r,
              In r results ->
              In (Results.category r) (map Results.row_category rows))
        /\ list_sum (map Results.row_passes rows)
           = Results.successful results
        /\ list_sum (map Results.row_failures rows)
           = Results.failed results).
Proof.
  split; [exact (successful_failed results)|]. split.
  - intros ->. reflexivity.
  - intros Hne.
    destruct (category_rows_spec (Results.tally results))
      as (rows & Hrows & Hmap & Hrate).
    destruct (tally_spec results) as (Hnd & Hcount & Hkeys).
    destruct (tally_sums results) as [Hs Hf].
    assert (Hcat : map Results.row_category rows
                   = map fst (Results.tally results)).
    { rewrite <- Hmap, map_map. reflexivity. }
    assert (Hlen : (List.length results =? 0)%nat = false).
    { destruct results; [congruence | reflexivity]. }
    exists rows. eexists. split.
    { unfold Results.print_summary, Results.total_row, Results.rate.
      rewrite Hrows, Hlen. cbv beta iota zeta delta [bind ret].
      replace (List.length results - Results.successful results)%nat
        with (Results.failed results)
        by (pose proof (successful_failed results); lia).
      reflexivity. }
    split; [now rewrite Hcat|]. split.
    { intros x Hx.
      assert (Hin : In (Results.row_category x,
                        (Results.row_passes x, Results.row_failures x))
                      (Results.tally results)).
      { rewrite <- Hmap.
        exact (in_map (fun x => (Results.row_category x,
                                 (Results.row_passes x,
                                  Results.row_failures x))) rows x Hx). }
      destruct (Hcount _ _ _ Hin) as (Hp & Hfl & Hpos).
      repeat (split; [assumption|]). exact (Hrate x Hx Hpos). }
    split; [intros r Hr; rewrite Hcat; now apply Hkeys|].
    rewrite <- Hs, <- Hf, <- Hmap, !map_map. split; reflexivity.
Qed.

Lemma summary_adds_up_witness :
  exists rows total_rate,
    Results.print_summary sample_results
    = ret (rows, ("TOTAL", 2%nat, 1%nat, total_rate))
    /\ map Results.row_category rows = ["Precise Scale"; "Edge Cases"]
    /\ list_sum (map Results.row_passes rows) = 2%nat.
Proof.
  destruct (proj2 (proj2 (summary_adds_up sample_results))
              ltac:(discriminate))
    as (rows & total_rate & Hp & _ & _ & _ & Hs & _).
  exists rows, total_rate. split; [exact Hp|]. split; [|exact Hs].
  vm_compute in Hp. inversion Hp. reflexivity.
Defined.

(** ** The two versions of the tool on the same transcript *)

Lemma qwen_collect_images (content : list pyval) :
  forall base64_images,
    Qwen.collect_images content base64_images
    = base64_images
      ++ flat_map (fun item => match Qwen.item_image item with
                               | Some img => [img]
                               | None => []
                               end) content.
Proof.
  induction content as [|item rest IH]; intros acc; cbn [Qwen.collect_images
                                                          flat_map].
  - now rewrite app_nil_r.
  - rewrite IH. destruct (Qwen.item_image item); [|reflexivity].
    now rewrite <- app_assoc.
Qed.

Lemma limit_images_firstn (base64_images : list string) :
  Qwen.limit_images base64_images = firstn 3 base64_images.
Proof.
  unfold Qwen.limit_images.
  destruct (Nat.ltb_spec 3 (List.length base64_images)); [reflexivity|].
  symmetry. now apply firstn_all2.
Qed.

Lemma flat_map_agree {A B} (f g : A -> list B) (l : list A) :
  (forall a, In a l -> f a = g a) -> flat_map f l = flat_map g l.
Proof.
  induction l as [|a l IH]; intros H; [reflexivity|]. cbn [flat_map].
  rewrite (H a (or_introl eq_refl)), IH; [reflexivity|].
  intros a' Ha'. apply H. now right.
Qed.

(** The earlier version reads an item as the later one does, unless the
    item is an image given by an http URL, which it does not take. *)
Lemma qwen_item_image (item : pyval) :
  Qwen.item_image item = item_image item
  \/ (Qwen.item_image item = None
      /\ exists url,
           item_image item = Some url /\ Py.startswith url "http" = true).
Proof.
  unfold Qwen.item_image, item_image.
  destruct item as [| | | | |d]; auto.
  destruct (Py.eq_str (Py.get d "type") "image_url"); auto.
  destruct (Py.get_default d "image_url" (PDict [])) as [| | | | |o]; auto.
  destruct (Py.get o "url") as [| | |u| |]; auto.
  destruct (Py.truthy (PStr u)); cbn [andb]; auto.
  destruct (Py.startswith u "data:image"); auto.
  destruct (Py.startswith u "http") eqn:Hh; auto.
  right. split; [reflexivity|]. now exists u.
Qed.

(** X13.  The two versions of the tool take the same images from a
    transcript whose last user message has no image given by an http URL:
    the three first inline images, in order.  They differ exactly on such
    URLs, which the later version passes on and the earlier one does not
    see; a message whose only images are URLs has no image at all for the
    earlier version. *)
Theorem versions_agree_on_inline_images (messages : list dict) :
  ((forall m content item,
      last_user_message messages = Some m ->
      Py.get m "content" = PList content ->
      In item content ->
      forall url, item_image item = Some url ->
                  Qwen.item_image item = Some url) ->
   Qwen.limit_images (Qwen.extract_images_from_messages messages)
   = extract_images_from_messages messages 3)
  /\ (forall m content,
        last_user_message messages = Some m ->
        Py.get m "content" = PList content ->
        (forall item, In item content -> Qwen.item_image item = None) ->
        Qwen.extract_images_from_messages messages = [])
  /\ (forall item,
        Qwen.item_image item <> item_image item ->
        Qwen.item_image item = None
        /\ exists url,
             item_image item = Some url /\ Py.startswith url "http" = true).
Proof.
  split; [|split].
  - intros H. rewrite limit_images_firstn.
    unfold Qwen.extract_images_from_messages, extract_images_from_messages.
    destruct (last_user_message messages) as [m|]; [|reflexivity].
    destruct (negb _); [reflexivity|].
    destruct (Py.get m "content") as [| | | |content|] eqn:Hcontent;
      try reflexivity.
    rewrite collect_images_firstn by (cbn; lia).
    rewrite qwen_collect_images. cbn [app]. f_equal.
    apply flat_map_agree. intros item Hin. unfold item_images.
    destruct (qwen_item_image item) as [-> | (Hq & url & Hi & _)];
      [reflexivity|].
    rewrite (H m content item eq_refl Hcontent Hin url Hi) in Hq.
    discriminate Hq.
  - intros m content Hlast Hcontent Hnone.
    unfold Qwen.extract_images_from_messages. rewrite Hlast.
    destruct (negb _); [reflexivity|]. rewrite Hcontent.
    rewrite qwen_collect_images. cbn [app]. clear Hcontent.
    induction content as [|item rest IH]; [reflexivity|]. cbn [flat_map].
    rewrite (Hnone item (or_introl eq_refl)). cbn [app].
    apply IH. intros item' Hin. apply Hnone. now right.
  - intros item Hne.
    destruct (qwen_item_image item) as [Heq | Hdiff]; [congruence | exact Hdiff].
Qed.

Lemma versions_agree_on_inline_images_witness :
  Qwen.extract_images_from_messages
    [Sample.message "user" [Sample.text_item "make the sofa blue";
                            Sample.image_item "https://x/ref.jpg"]]
  = []
  /\ extract_images_from_messages
       [Sample.message "user" [Sample.text_item "make the sofa blue";
                               Sample.image_item "https://x/ref.jpg"]] 3
     = ["https://x/ref.jpg"].
Proof.
  split; [|reflexivity].
  refine (proj1 (proj2 (versions_agree_on_inline_images
                          [Sample.message "user"
                             [Sample.text_item "make the sofa blue";
                              Sample.image_item "https://x/ref.jpg"]]))
            (Sample.message "user"
               [Sample.text_item "make the sofa blue";
                Sample.image_item "https://x/ref.jpg"])
            [Sample.text_item "make the sofa blue";
             Sample.image_item "https://x/ref.jpg"] eq_refl eq_refl _).
  intros item [<-|[<-|[]]]; reflexivity.
Defined.

(** ** Encoded files *)

Lemma below_forall (n : nat) (f : Z -> bool) :
  forallb f (Encode.below n) = true ->
  forall z, 0 <= z < Z.of_nat n -> f z = true.
Proof.
  intros H z Hz. rewrite forallb_forall in H. apply H.
  unfold Encode.below. apply in_map_iff. exists (Z.to_nat z).
  split; [lia|]. apply in_seq. lia.
Qed.

Lemma is_byte_range (b : Z) : Encode.is_byte b = true -> 0 <= b < 256.
Proof. unfold Encode.is_byte. lia. Qed.

Lemma below_forall2 (f : Z -> Z -> bool) :
  forallb (fun a => forallb (f a) (Encode.below 256)) (Encode.below 256)
  = true ->
  forall a b, Encode.is_byte a = true -> Encode.is_byte b = true ->
              f a b = true.
Proof.
  intros H a b Ha Hb. apply is_byte_range in Ha. apply is_byte_range in Hb.
  apply (below_forall 256 (f a)); [|exact Hb].
  exact (below_forall 256 _ H a Ha).
Qed.

(** A character of the alphabet is read back as the value it stands for. *)
Lemma table_round_trip (v : Z) :
  0 <= v < 64 ->
  (Encode.table_b2a v =? Base64.BASE64_PAD) = false
  /\ Base64.table_a2b (Encode.table_b2a v) = v
  /\ 0 <= Encode.table_b2a v <= 127.
Proof.
  intros Hv.
  assert (H : (negb (Encode.table_b2a v =? Base64.BASE64_PAD)
               && (Base64.table_a2b (Encode.table_b2a v) =? v)
               && (0 <=? Encode.table_b2a v)
               && (Encode.table_b2a v <=? 127)) = true).
  { apply (below_forall 64
             (fun v => negb (Encode.table_b2a v =? Base64.BASE64_PAD)
                       && (Base64.table_a2b (Encode.table_b2a v) =? v)
                       && (0 <=? Encode.table_b2a v)
                       && (Encode.table_b2a v <=? 127)));
      [vm_compute; reflexivity | exact Hv]. }
  repeat (apply andb_true_iff in H; destruct H as [H ?]).
  apply negb_true_iff in H. split; [exact H|]. split; lia.
Qed.

(** One character of the alphabet in the decoding loop. *)
Lemma a2b_loop_char (v : Z) (rest : list Z) (quad_pos leftchar pads : Z)
    (bin : list Z) :
  0 <= v < 64 ->
  Base64.a2b_loop (Encode.table_b2a v :: rest) quad_pos leftchar pads bin
  = if quad_pos =? 0 then Base64.a2b_loop rest 1 v 0 bin
    else if quad_pos =? 1 then
      Base64.a2b_loop rest 2 (Z.land v 15) 0
        (bin ++ [Base64.u8 (Z.lor (Z.shiftl leftchar 2) (Z.shiftr v 4))])
    else if quad_pos =? 2 then
      Base64.a2b_loop rest 3 (Z.land v 3) 0
        (bin ++ [Base64.u8 (Z.lor (Z.shiftl leftchar 4) (Z.shiftr v 2))])
    else
      Base64.a2b_loop rest 0 0 0
        (bin ++ [Base64.u8 (Z.lor (Z.shiftl leftchar 6) v)]).
Proof.
  intros Hv. destruct (table_round_trip v Hv) as (Hpad & Htab & _).
  cbn [Base64.a2b_loop]. rewrite Hpad. cbv zeta. rewrite Htab.
  destruct (Z.geb_spec v 64); [lia | reflexivity].
Qed.

(** The six-bit values of a group, and the bytes they give back. *)
Lemma sextets (a b : Z) :
  Encode.is_byte a = true -> Encode.is_byte b = true ->
  0 <= Z.shiftr a 2 < 64
  /\ 0 <= Z.lor (Z.shiftl (Z.land a 3) 4) (Z.shiftr b 4) < 64
  /\ 0 <= Z.lor (Z.shiftl (Z.land a 15) 2) (Z.shiftr b 6) < 64
  /\ 0 <= Z.land a 63 < 64
  /\ 0 <= Z.shiftl (Z.land a 3) 4 < 64
  /\ 0 <= Z.shiftl (Z.land a 15) 2 < 64
  /\ Base64.u8
       (Z.lor (Z.shiftl (Z.shiftr a 2) 2)
          (Z.shiftr (Z.lor (Z.shiftl (Z.land a 3) 4) (Z.shiftr b 4)) 4)) = a
  /\ Base64.u8
       (Z.lor (Z.shiftl (Z.shiftr a 2) 2)
          (Z.shiftr (Z.shiftl (Z.land a 3) 4) 4)) = a
  /\ Z.land (Z.lor (Z.shiftl (Z.land a 3) 4) (Z.shiftr b 4)) 15
     = Z.shiftr b 4
  /\ Z.shiftr (Z.lor (Z.shiftl (Z.land a 15) 2) (Z.shiftr b 6)) 2
     = Z.land a 15
  /\ Z.shiftr (Z.shiftl (Z.land a 15) 2) 2 = Z.land a 15
  /\ Base64.u8 (Z.lor (Z.shiftl (Z.shiftr a 4) 4) (Z.land a 15)) = a
  /\ Z.land (Z.lor (Z.shiftl (Z.land a 15) 2) (Z.shiftr b 6)) 3
     = Z.shiftr b 6
  /\ Base64.u8 (Z.lor (Z.shiftl (Z.shiftr a 6) 6) (Z.land a 63)) = a.
Proof.
  intros Ha Hb.
  pose (check := fun a b : Z =>
    (0 <=? Z.shiftr a 2) && (Z.shiftr a 2 <? 64)
    && (0 <=? Z.lor (Z.shiftl (Z.land a 3) 4) (Z.shiftr b 4))
    && (Z.lor (Z.shiftl (Z.land a 3) 4) (Z.shiftr b 4) <? 64)
    && (0 <=? Z.lor (Z.shiftl (Z.land a 15) 2) (Z.shiftr b 6))
    && (Z.lor (Z.shiftl (Z.land a 15) 2) (Z.shiftr b 6) <? 64)
    && (0 <=? Z.land a 63) && (Z.land a 63 <? 64)
    && (0 <=? Z.shiftl (Z.land a 3) 4) && (Z.shiftl (Z.land a 3) 4 <? 64)
    && (0 <=? Z.shiftl (Z.land a 15) 2) && (Z.shiftl (Z.land a 15) 2 <? 64)
    && (Base64.u8
          (Z.lor (Z.shiftl (Z.shiftr a 2) 2)
             (Z.shiftr (Z.lor (Z.shiftl (Z.land a 3) 4) (Z.shiftr b 4)) 4))
        =? a)
    && (Base64.u8
          (Z.lor (Z.shiftl (Z.shiftr a 2) 2)
             (Z.shiftr (Z.shiftl (Z.land a 3) 4) 4)) =? a)
    && (Z.land (Z.lor (Z.shiftl (Z.land a 3) 4) (Z.shiftr b 4)) 15
        =? Z.shiftr b 4)
    && (Z.shiftr (Z.lor (Z.shiftl (Z.land a 15) 2) (Z.shiftr b 6)) 2
        =? Z.land a 15)
    && (Z.shiftr (Z.shiftl (Z.land a 15) 2) 2 =? Z.land a 15)
    && (Base64.u8 (Z.lor (Z.shiftl (Z.shiftr a 4) 4) (Z.land a 15)) =? a)
    && (Z.land (Z.lor (Z.shiftl (Z.land a 15) 2) (Z.shiftr b 6)) 3
        =? Z.shiftr b 6)
    && (Base64.u8 (Z.lor (Z.shiftl (Z.shiftr a 6) 6) (Z.land a 63)) =? a)).
  assert (H : check a b = true).
  { apply (below_forall2 check); [vm_compute; reflexivity | exact Ha
                                  | exact Hb]. }
  unfold check in H.
  repeat (apply andb_true_iff in H; destruct H as [H ?]).
  repeat split; lia.
Qed.

Lemma list_ind3 {A} (P : list A -> Prop) :
  P [] ->
  (forall a, P [a]) ->
  (forall a b, P [a; b]) ->
  (forall a b c l, P l -> P (a :: b :: c :: l)) ->
  forall l, P l.
Proof.
  intros H0 H1 H2 H3 l.
  assert (H : P l /\ (forall a, P (a :: l)) /\ (forall a b, P (a :: b :: l))).
  { induction l as [|x l (IH0 & IH1 & IH2)]; [auto|].
    split; [apply IH1|]. split; [intros a; apply IH2|].
    intros a b. apply H3. exact IH0. }
  exact (proj1 H).
Qed.

(** Four characters of a full group give its three bytes back. *)
Lemma a2b_loop_group (a b c : Z) (rest bin : list Z) :
  Encode.is_byte a = true -> Encode.is_byte b = true ->
  Encode.is_byte c = true ->
  Base64.a2b_loop
    (Encode.table_b2a (Z.shiftr a 2)
     :: Encode.table_b2a (Z.lor (Z.shiftl (Z.land a 3) 4) (Z.shiftr b 4))
     :: Encode.table_b2a (Z.lor (Z.shiftl (Z.land b 15) 2) (Z.shiftr c 6))
     :: Encode.table_b2a (Z.land c 63) :: rest) 0 0 0 bin
  = Base64.a2b_loop rest 0 0 0 (bin ++ [a; b; c]).
Proof.
  intros Ha Hb Hc.
  destruct (sextets a b Ha Hb)
    as (R1 & R2 & _ & _ & _ & _ & E1 & _ & E2 & _ & _ & E3 & _).
  destruct (sextets b c Hb Hc)
    as (_ & _ & R3 & _ & _ & _ & _ & _ & _ & E4 & _ & E5 & E6 & _).
  destruct (sextets c c Hc Hc)
    as (_ & _ & _ & R4 & _ & _ & _ & _ & _ & _ & _ & _ & _ & E7).
  rewrite (a2b_loop_char _ _ 0 _ _ _ R1). cbv beta iota delta [Z.eqb].
  rewrite (a2b_loop_char _ _ 1 _ _ _ R2). cbv beta iota delta [Z.eqb Pos.eqb].
  rewrite E1, E2.
  rewrite (a2b_loop_char _ _ 2 _ _ _ R3). cbv beta iota delta [Z.eqb Pos.eqb].
  rewrite E4, E5, E6.
  rewrite (a2b_loop_char _ _ 3 _ _ _ R4). cbv beta iota delta [Z.eqb Pos.eqb].
  rewrite E7. now rewrite <- !app_assoc.
Qed.

(** The decoding loop on an encoded text. *)
Lemma a2b_loop_encoded (content : list Z) :
  forallb Encode.is_byte content = true ->
  forall bin,
    match Base64.a2b_loop (Encode.b2a_base64 content) 0 0 0 bin with
    | inl decoded => decoded = bin ++ content
    | inr (quad_pos, decoded) => quad_pos = 0 /\ decoded = bin ++ content
    end.
Proof.
  induction content as [|a|a b|a b c rest IH] using list_ind3;
    intros Hbytes bin.
  - cbn. now rewrite app_nil_r.
  - cbn [forallb] in Hbytes. apply andb_true_iff in Hbytes.
    destruct Hbytes as [Ha _].
    destruct (sextets a a Ha Ha)
      as (R1 & _ & _ & _ & R2 & _ & _ & E1 & _).
    cbn [Encode.b2a_base64].
    rewrite (a2b_loop_char _ _ 0 _ _ _ R1). cbv beta iota delta [Z.eqb].
    rewrite (a2b_loop_char _ _ 1 _ _ _ R2).
    cbv beta iota delta [Z.eqb Pos.eqb]. rewrite E1. reflexivity.
  - cbn [forallb] in Hbytes. apply andb_true_iff in Hbytes.
    destruct Hbytes as [Ha Hbytes]. apply andb_true_iff in Hbytes.
    destruct Hbytes as [Hb _].
    destruct (sextets a b Ha Hb)
      as (R1 & R2 & _ & _ & _ & _ & E1 & _ & E2 & _).
    destruct (sextets b b Hb Hb)
      as (_ & _ & _ & _ & _ & R3 & _ & _ & _ & _ & E3 & E4 & _).
    cbn [Encode.b2a_base64].
    rewrite (a2b_loop_char _ _ 0 _ _ _ R1). cbv beta iota delta [Z.eqb].
    rewrite (a2b_loop_char _ _ 1 _ _ _ R2).
    cbv beta iota delta [Z.eqb Pos.eqb]. rewrite E1, E2.
    rewrite (a2b_loop_char _ _ 2 _ _ _ R3).
    cbv beta iota delta [Z.eqb Pos.eqb]. rewrite E3, E4.
    cbn. now rewrite <- app_assoc.
  - cbn [forallb] in Hbytes. apply andb_true_iff in Hbytes.
    destruct Hbytes as [Ha Hbytes]. apply andb_true_iff in Hbytes.
    destruct Hbytes as [Hb Hbytes]. apply andb_true_iff in Hbytes.
    destruct Hbytes as [Hc Hrest].
    cbn [Encode.b2a_base64]. rewrite (a2b_loop_group a b c _ _ Ha Hb Hc).
    specialize (IH Hrest (bin ++ [a; b; c])).
    rewrite <- app_assoc in IH. exact IH.
Qed.

Lemma b2a_base64_ascii (content : list Z) :
  forallb Encode.is_byte content = true ->
  Forall (fun ch => 0 <= ch <= 127) (Encode.b2a_base64 content).
Proof.
  assert (Hpad : 0 <= Base64.BASE64_PAD <= 127)
    by (unfold Base64.BASE64_PAD; lia).
  induction content as [|a|a b|a b c rest IH] using list_ind3; intros Hbytes;
    cbn [forallb] in Hbytes; cbn [Encode.b2a_base64].
  - constructor.
  - apply andb_true_iff in Hbytes. destruct Hbytes as [Ha _].
    destruct (sextets a a Ha Ha) as (R1 & _ & _ & _ & R2 & _).
    repeat constructor; try (apply table_round_trip; assumption); lia.
  - apply andb_true_iff in Hbytes. destruct Hbytes as [Ha Hbytes].
    apply andb_true_iff in Hbytes. destruct Hbytes as [Hb _].
    destruct (sextets a b Ha Hb) as (R1 & R2 & _).
    destruct (sextets b b Hb Hb) as (_ & _ & _ & _ & _ & R3 & _).
    repeat constructor; try (apply table_round_trip; assumption); lia.
  - apply andb_true_iff in Hbytes. destruct Hbytes as [Ha Hbytes].
    apply andb_true_iff in Hbytes. destruct Hbytes as [Hb Hbytes].
    apply andb_true_iff in Hbytes. destruct Hbytes as [Hc Hrest].
    destruct (sextets a b Ha Hb) as (R1 & R2 & _).
    destruct (sextets b c Hb Hc) as (_ & _ & R3 & _).
    destruct (sextets c c Hc Hc) as (_ & _ & _ & R4 & _).
    repeat (constructor; [apply table_round_trip; assumption|]).
    exact (IH Hrest).
Qed.

Lemma codes_chars (data : list Z) :
  Forall (fun ch => 0 <= ch <= 127) data ->
  Base64.codes (Encode.chars data) = data
  /\ forallb (fun ch => ch <=? 127) data = true.
Proof.
  induction 1 as [|ch data Hch _ [IHc IHf]]; [split; reflexivity|].
  cbn [Encode.chars Base64.codes forallb]. rewrite IHc, IHf.
  unfold Base64.code. rewrite N_ascii_embedding by lia.
  rewrite Z2N.id by lia. split; [reflexivity|].
  apply andb_true_iff. split; [lia | reflexivity].
Qed.

Lemma b64decode_encoded (content : list Z) :
  forallb Encode.is_byte content = true ->
  Base64.b64decode (Encode.encode_image content) = ret content.
Proof.
  intros Hbytes. unfold Base64.b64decode, Encode.encode_image. cbv zeta.
  destruct (codes_chars _ (b2a_base64_ascii content Hbytes)) as [-> ->].
  unfold Base64.a2b_base64.
  pose proof (a2b_loop_encoded content Hbytes []) as H.
  destruct (Base64.a2b_loop (Encode.b2a_base64 content) 0 0 0 [])
    as [decoded|[quad_pos decoded]].
  - now subst.
  - destruct H as [-> ->]. reflexivity.
Qed.

Lemma take_chars (n : nat) (data : list Z) :
  Py.take n (Encode.chars data) = Encode.chars (firstn n data).
Proof.
  unfold Py.take. revert n.
  induction data as [|ch data IH]; intros [|n]; cbn [Encode.chars firstn];
    try reflexivity.
  cbn [substring]. now rewrite IH.
Qed.

Lemma b2a_base64_firstn (k : nat) :
  forall content,
    firstn (4 * k) (Encode.b2a_base64 content)
    = Encode.b2a_base64 (firstn (3 * k) content).
Proof.
  induction k as [|k IH]; intros content.
  - now destruct content.
  - replace (4 * S k)%nat with (S (S (S (S (4 * k))))) by lia.
    replace (3 * S k)%nat with (S (S (S (3 * k)))) by lia.
    destruct content as [|a [|b [|c rest]]].
    + reflexivity.
    + cbn [Encode.b2a_base64 firstn]. now rewrite firstn_nil.
    + cbn [Encode.b2a_base64 firstn]. now rewrite firstn_nil.
    + cbn [Encode.b2a_base64 firstn]. now rewrite IH.
Qed.

Lemma forallb_firstn {A} (f : A -> bool) (n : nat) (l : list A) :
  forallb f l = true -> forallb f (firstn n l) = true.
Proof.
  revert n. induction l as [|a l IH]; intros [|n] H; try reflexivity.
  cbn [forallb firstn] in *. apply andb_true_iff in H. destruct H as [-> H].
  now rewrite (IH n H).
Qed.

Lemma detect_image_mime_encoded (content : list Z) :
  forallb Encode.is_byte content = true ->
  detect_image_mime (Encode.encode_image content)
  = header_mime (firstn 24 content).
Proof.
  intros Hbytes. unfold detect_image_mime, detect_image_mime_try.
  unfold Encode.encode_image at 1. rewrite take_chars.
  change 32%nat with (4 * 8)%nat. rewrite b2a_base64_firstn.
  change (3 * 8)%nat with 24%nat.
  fold (Encode.encode_image (firstn 24 content)).
  rewrite (b64decode_encoded _ (forallb_firstn _ 24 _ Hbytes)).
  cbv beta iota delta [bind ret]. unfold header_mime.
  destruct (bytes_startswith _ PNG_MAGIC); [reflexivity|].
  destruct (bytes_startswith _ JPEG_MAGIC); [reflexivity|].
  destruct (bytes_startswith _ GIF_MAGIC); [reflexivity|].
  destruct (bytes_startswith _ RIFF_MAGIC && _); reflexivity.
Qed.

(** X14.  A file encoded by [encode_image] is sniffed by its own first
    bytes.  For every content of a file, decoding the encoded text gives
    the content back, and [detect_image_mime] of the encoded text is what
    the magic numbers say about the first 24 bytes of the file, which is
    all that the first 32 characters hold.  Unless the text begins with
    the letters of [http], which needs a first byte from 132 to 135, the
    slot of the request holds the data URI with that media type. *)
Theorem encoded_file_is_sniffed (content : list Z) :
  forallb Encode.is_byte content = true ->
  Base64.b64decode (Encode.encode_image content) = ret content
  /\ detect_image_mime (Encode.encode_image content)
     = header_mime (firstn 24 content)
  /\ (Py.startswith (Encode.encode_image content) "http" = false ->
      Tools.slot_value (Encode.encode_image content)
      = ("data:" ++ header_mime (firstn 24 content) ++ ";base64,"
         ++ Encode.encode_image content)%string)
  /\ (forall a rest,
        content = a :: rest ->
        Z.shiftr a 2 <> 33 ->
        Py.startswith (Encode.encode_image content) "http" = false).
Proof.
  intros Hbytes.
  pose proof (detect_image_mime_encoded content Hbytes) as Hmime.
  split; [exact (b64decode_encoded content Hbytes)|].
  split; [exact Hmime|]. split.
  - intros Hhttp. unfold Tools.slot_value. rewrite Hhttp. cbv zeta.
    now rewrite Hmime.
  - intros a rest -> Hfirst.
    cbn [forallb] in Hbytes. apply andb_true_iff in Hbytes.
    destruct Hbytes as [Ha _].
    destruct (sextets a a Ha Ha) as (R1 & _).
    destruct (table_round_trip _ R1) as (_ & Htab & Hrange).
    assert (Hch : exists tail,
              Encode.encode_image (a :: rest)
              = String (ascii_of_N (Z.to_N (Encode.table_b2a (Z.shiftr a 2))))
                  tail).
    { unfold Encode.encode_image.
      destruct rest as [|b [|c rest]]; cbn [Encode.b2a_base64 Encode.chars];
        eexists; reflexivity. }
    destruct Hch as [tail ->]. unfold Py.startswith. cbn [String.prefix].
    destruct (ascii_dec "h" _) as [Heq|]; [|reflexivity].
    exfalso. apply Hfirst.
    apply (f_equal Base64.code) in Heq. unfold Base64.code in Heq.
    rewrite N_ascii_embedding in Heq by lia. rewrite Z2N.id in Heq by lia.
    rewrite <- Htab, <- Heq. reflexivity.
Qed.

Lemma encoded_file_is_sniffed_witness :
  detect_image_mime
    (Encode.encode_image [255; 216; 255; 224; 0; 16; 74; 70; 73; 70])
  = "image/jpeg"
  /\ Encode.encode_image [255; 216; 255; 224; 0; 16; 74; 70; 73; 70]
     = "/9j/4AAQSkZJRg==".
Proof.
  split; [|reflexivity].
  exact (proj1 (proj2 (encoded_file_is_sniffed
                         [255; 216; 255; 224; 0; 16; 74; 70; 73; 70]
                         eq_refl))).
Defined.

(** ** The request of the harness *)





Lemma harness_input_slots (input_data : dict)
    (images : list (string * list Z)) :
  (List.length images <= 3)%nat ->
  (forall key, In key Tools.image_keys -> Py.lookup input_data key = None) ->
  exists request,
    HarnessInput.add_images 0 images input_data = ret request
    /\ map fst request
       = map fst input_data ++ firstn (List.length images) Tools.image_keys
    /\ (forall key,
          ~ In key Tools.image_keys ->
          Py.get request key = Py.get input_data key)
    /\ forall i image,
         nth_error images i = Some image ->
         exists key,
           nth_error Tools.image_keys i = Some key
           /\ Py.get request key
              = PList [PStr (HarnessInput.data_uri image)].
Proof.
  intros Hlen Hfree.
  assert (Hset : forall (d : dict) k v,
            Py.lookup d k = None ->
            Py.set d k v = d ++ [(k, v)]).
  { induction d as [|[k' v'] d IH]; intros k v H; [reflexivity|].
    cbn [Py.lookup] in H. cbn [Py.set].
    destruct (String.eqb k' k); [discriminate H|].
    cbn [app]. now rewrite (IH _ _ H). }
  assert (Hget : forall (d : dict) k k' v,
            Py.lookup d k = None ->
            Py.get (d ++ [(k, v)]) k'
            = if String.eqb k k' then
                match Py.lookup d k' with Some x => x | None => v end
              else Py.get d k').
  { unfold Py.get. induction d as [|[k0 v0] d IH]; intros k k' v H.
    - cbn [app Py.lookup]. now destruct (String.eqb k k').
    - cbn [Py.lookup] in H. cbn [app Py.lookup].
      destruct (String.eqb k0 k) eqn:H0; [discriminate H|].
      destruct (String.eqb k0 k') eqn:H1.
      + now destruct (String.eqb k k').
      + exact (IH _ _ _ H). }
  assert (Hlook : forall (d : dict) k k' v,
            String.eqb k k' = false ->
            Py.lookup (d ++ [(k, v)]) k' = Py.lookup d k').
  { induction d as [|[k0 v0] d IH]; intros k k' v H.
    - cbn [app Py.lookup]. now rewrite H.
    - cbn [app Py.lookup]. destruct (String.eqb k0 k'); [reflexivity|].
      exact (IH _ _ _ H). }
  pose proof (Hfree "image" ltac:(cbn; tauto)) as F1.
  pose proof (Hfree "image_2" ltac:(cbn; tauto)) as F2.
  pose proof (Hfree "image_3" ltac:(cbn; tauto)) as F3.
  assert (Hother : forall key,
            ~ In key Tools.image_keys ->
            String.eqb "image" key = false
            /\ String.eqb "image_2" key = false
            /\ String.eqb "image_3" key = false).
  { intros key Hk. cbn [Tools.image_keys In] in Hk.
    repeat split; apply String.eqb_neq; intros <-; tauto. }
  destruct images as [|a [|b [|c [|d images]]]];
    try (cbn [List.length] in Hlen; lia);
    cbn [HarnessInput.add_images nth_error Tools.image_keys List.length
         firstn].
  - exists input_data. split; [reflexivity|]. split; [now rewrite app_nil_r|].
    split; [reflexivity|]. intros [|i] image Hi; discriminate Hi.
  - rewrite (Hset _ _ _ F1). eexists. split; [reflexivity|].
    split; [now rewrite map_app|]. split.
    + intros key Hk. destruct (Hother key Hk) as (E1 & _).
      now rewrite (Hget _ _ _ _ F1), E1.
    + intros [|[|i]] image Hi; inversion Hi; subst.
      eexists. split; [reflexivity|].
      rewrite (Hget _ _ _ _ F1), String.eqb_refl, F1. reflexivity.
  - rewrite (Hset _ _ _ F1).
    assert (G2 : Py.lookup
                   (input_data
                    ++ [("image", PList [PStr (HarnessInput.data_uri a)])])
                   "image_2" = None)
      by (rewrite Hlook; [exact F2 | reflexivity]).
    rewrite (Hset _ _ _ G2). eexists. split; [reflexivity|].
    split; [now rewrite !map_app, <- app_assoc|]. split.
    + intros key Hk. destruct (Hother key Hk) as (E1 & E2 & _).
      now rewrite (Hget _ _ _ _ G2), E2, (Hget _ _ _ _ F1), E1.
    + intros [|[|[|i]]] image Hi; inversion Hi; subst;
        eexists; (split; [reflexivity|]).
      * rewrite (Hget _ _ _ _ G2). cbn [String.eqb Ascii.eqb Bool.eqb].
        rewrite (Hget _ _ _ _ F1), String.eqb_refl, F1. reflexivity.
      * rewrite (Hget _ _ _ _ G2), String.eqb_refl, G2. reflexivity.
  - rewrite (Hset _ _ _ F1).
    assert (G2 : Py.lookup
                   (input_data
                    ++ [("image", PList [PStr (HarnessInput.data_uri a)])])
                   "image_2" = None)
      by (rewrite Hlook; [exact F2 | reflexivity]).
    rewrite (Hset _ _ _ G2).
    assert (G3 : Py.lookup
                   ((input_data
                     ++ [("image", PList [PStr (HarnessInput.data_uri a)])])
                    ++ [("image_2", PList [PStr (HarnessInput.data_uri b)])])
                   "image_3" = None)
      by (rewrite !Hlook; [exact F3 | reflexivity | reflexivity]).
    rewrite (Hset _ _ _ G3). eexists. split; [reflexivity|].
    split; [now rewrite !map_app, <- !app_assoc|]. split.
    + intros key Hk. destruct (Hother key Hk) as (E1 & E2 & E3).
      now rewrite (Hget _ _ _ _ G3), E3, (Hget _ _ _ _ G2), E2,
        (Hget _ _ _ _ F1), E1.
    + intros [|[|[|[|i]]]] image Hi; inversion Hi; subst;
        eexists; (split; [reflexivity|]).
      * rewrite (Hget _ _ _ _ G3). cbn [String.eqb Ascii.eqb Bool.eqb].
        rewrite (Hget _ _ _ _ G2). cbn [String.eqb Ascii.eqb Bool.eqb].
        rewrite (Hget _ _ _ _ F1), String.eqb_refl, F1. reflexivity.
      * rewrite (Hget _ _ _ _ G3). cbn [String.eqb Ascii.eqb Bool.eqb].
        rewrite (Hget _ _ _ _ G2), String.eqb_refl, G2. reflexivity.
      * rewrite (Hget _ _ _ _ G3), String.eqb_refl, G3. reflexivity.
Qed.

Lemma nth_error_firstn_lt {A} (n i : nat) (l : list A) :
  (i < n)%nat -> nth_error (firstn n l) i = nth_error l i.
Proof.
  revert i l. induction n as [|n IH]; intros i l Hi; [lia|].
  destruct l as [|a l]; [now destruct i|].
  destruct i as [|i]; [reflexivity|]. cbn [firstn nth_error].
  apply IH. lia.
Qed.

Lemma image_keys_firstn (n : nat) :
  firstn (Nat.min 3 n) Tools.image_keys = firstn n Tools.image_keys.
Proof. destruct n as [|[|[|[|n]]]]; reflexivity. Qed.

(** X15.  The request of the harness is built without an error from any
    list of image files: the five fixed parameters come first, then the
    seed when one is given, then one slot per image for the first three
    images and none for the others.  Each slot holds a list of one data
    URI, made of the media type of the file name and the encoded content
    of the file. *)
Theorem harness_request (prompt : string) (images : list (string * list Z))
    (go_fast : bool) (seed : option Z) :
  exists request,
    HarnessInput.build_input prompt images go_fast seed = ret request
    /\ map fst request
       = [ "prompt"; "go_fast"; "aspect_ratio"; "output_format";
           "output_quality" ]
         ++ match seed with Some _ => ["seed"] | None => [] end
         ++ firstn (List.length images) Tools.image_keys
    /\ Py.get request "prompt" = PStr prompt
    /\ Py.get request "seed"
       = match seed with Some n => PInt n | None => PNone end
    /\ forall i image,
         (i < 3)%nat ->
         nth_error images i = Some image ->
         exists key,
           nth_error Tools.image_keys i = Some key
           /\ Py.get request key
              = PList [PStr ("data:" ++ HarnessInput.get_mime_type (fst image)
                             ++ ";base64,"
                             ++ Encode.encode_image (snd image))].
Proof.
  unfold HarnessInput.build_input. cbv zeta.
  set (base := match seed with
               | Some n => Py.set _ "seed" (PInt n)
               | None => _
               end).
  assert (Hbase : map fst base
                  = [ "prompt"; "go_fast"; "aspect_ratio"; "output_format";
                      "output_quality" ]
                    ++ match seed with Some _ => ["seed"] | None => [] end
                  /\ Py.get base "prompt" = PStr prompt
                  /\ Py.get base "seed"
                     = match seed with Some n => PInt n | None => PNone end
                  /\ (forall key, In key Tools.image_keys ->
                                  Py.lookup base key = None)).
  { subst base. destruct seed as [n|];
      (split; [reflexivity|]); (split; [reflexivity|]);
      (split; [reflexivity|]);
      intros key [<-|[<-|[<-|[]]]]; reflexivity. }
  destruct Hbase as (Hkeys & Hprompt & Hseed & Hfree).
  destruct (harness_input_slots base (firstn 3 images)) as
    (request & Hrequest & Hmap & Hkeep & Hslots).
  { rewrite length_firstn. lia. }
  { exact Hfree. }
  exists request. split; [exact Hrequest|]. split.
  { rewrite Hmap, Hkeys, length_firstn, image_keys_firstn.
    now rewrite <- app_assoc. }
  split.
  { rewrite Hkeep; [exact Hprompt|]. cbn. intuition discriminate. }
  split.
  { rewrite Hkeep; [exact Hseed|]. cbn. intuition discriminate. }
  intros i image Hlt Hi.
  rewrite <- (nth_error_firstn_lt 3 i images Hlt) in Hi.
  exact (Hslots i image Hi).
Qed.

Lemma harness_request_witness :
  exists request,
    HarnessInput.build_input "make the sofa blue"
      [("living_room.jpg", [255; 216; 255; 224; 0; 16; 74; 70; 73; 70])]
      true None = ret request
    /\ Py.get request "image"
       = PList [PStr "data:image/jpeg;base64,/9j/4AAQSkZJRg=="].
Proof.
  destruct (harness_request "make the sofa blue"
              [("living_room.jpg", [255; 216; 255; 224; 0; 16; 74; 70; 73; 70])]
              true None) as (request & Hb & _ & _ & _ & Hs).
  exists request. split; [exact Hb|].
  destruct (Hs 0%nat _ ltac:(lia) eq_refl) as (key & Hk & Hg).
  inversion Hk; subst. exact Hg.
Defined.

(** ** Media types by file name *)




(** ** Loops that do not end *)

(** X17.  Two loops have no way out against a service that keeps answering
    without a terminal state.  The loop of the tool needs a positive
    polling interval: with an interval of zero or below and a positive
    deadline its clock never reaches the deadline, and the call does not
    return, however long it runs.  The loop of the quick test has no
    deadline at all. *)
Theorem loops_without_end :
  (forall valves emitter w prompt h log0,
     (Tools.polling_interval valves <= 0)%Q ->
     0 < Tools.max_wait_time valves ->
     is_terminal (Tools.initial_status h) = false ->
     (forall k, reply_pending (poll_reply w k) = true) ->
     forall fuel,
       Tools.poll_for_completion fuel valves emitter w prompt h log0 = None)
  /\ (forall w,
        (forall k, reply_unfinished (poll_reply w k) = true) ->
        forall fuel polls, QuickTest.run_edit_poll fuel w polls = None).
Proof.
  split.
  - intros valves emitter w prompt h log0 Hi Hm Hh Hw fuel.
    unfold Tools.poll_for_completion.
    enough (H : forall s,
               is_terminal (Tools.status s) = false ->
               (Tools.elapsed s <= 0)%Q ->
               Tools.poll_loop fuel valves emitter w (Tools.prediction_url h) s
               = None).
    { rewrite H; [reflexivity | exact Hh |].
      cbn [Tools.start Tools.elapsed]. apply Qle_refl. }
    assert (Hmax : (0 < inject_Z (Tools.max_wait_time valves))%Q).
    { change 0%Q with (inject_Z 0). now rewrite <- Zlt_Qlt. }
    induction fuel as [|fuel IH]; intros s Hs He; [reflexivity|].
    destruct (poll_step_pending valves emitter w (Tools.prediction_url h) s Hs)
      as (s1 & Hstep & Hs1 & He1 & _).
    + apply (Qle_lt_trans _ 0); assumption.
    + apply Hw.
    + rewrite poll_loop_S, Hstep. apply IH; [exact Hs1|].
      rewrite He1.
      apply (Qle_trans _ (0 + 0)); [|apply Qle_refl].
      apply Qplus_le_compat; assumption.
  - intros w Hw fuel. induction fuel as [|fuel IH]; intros polls;
      [reflexivity|].
    cbn [QuickTest.run_edit_poll]. specialize (Hw polls).
    destruct (poll_reply w polls) as [|code text [[| | | | |d]|]];
      try discriminate Hw.
    cbn [reply_unfinished] in Hw. apply negb_true_iff in Hw.
    unfold is_terminal in Hw. apply orb_false_iff in Hw.
    destruct Hw as [Hw Hc]. apply orb_false_iff in Hw. destruct Hw as [Hs Hf].
    cbv zeta. rewrite Hs, Hf, Hc. cbn [orb]. apply IH.
Qed.

Lemma loops_without_end_witness :
  Tools.poll_for_completion 1000 (Sample.valves 5 0) true Sample.never_done
    "make the sofa blue" Sample.handle_p1 [] = None
  /\ QuickTest.run_edit_poll 1000 Sample.never_done 0 = None.
Proof.
  split.
  - apply (proj1 loops_without_end (Sample.valves 5 0) true Sample.never_done
             "make the sofa blue" Sample.handle_p1 []).
    + discriminate.
    + reflexivity.
    + reflexivity.
    + reflexivity.
  - apply (proj2 loops_without_end Sample.never_done). reflexivity.
Defined.

(** ** Where a returned image comes from *)

Lemma sourced_step (valves : Tools.Valves) (emitter : bool) (w : World)
    (url : locator) (h : Tools.handle) (s : Tools.poll_state) :
  sourced w h s ->
  match Tools.poll_step valves emitter w url s with
  | Tools.Next s' | Tools.Exit _ s' => sourced w h s'
  end.
Proof.
  intros (Hstatus & Hresult).
  assert (Hkeep : forall elapsed' last' log',
            sourced w h
              {| Tools.status := Tools.status s;
                 Tools.result := Tools.result s;
                 Tools.elapsed := elapsed';
                 Tools.last_status_update := last';
                 Tools.polls := S (Tools.polls s); Tools.log := log' |}).
  { intros elapsed' last' log'. split; [exact Hstatus|].
    cbn [Tools.result Tools.polls].
    destruct Hresult as [Hr|(k & text & Hk & Hreply)]; [now left|].
    right. exists k, text. split; [lia | exact Hreply]. }
  assert (Hold : sourced w h s) by (split; assumption).
  unfold Tools.poll_step.
  destruct (is_terminal (Tools.status s)); [exact Hold|].
  destruct (Qle_bool _ _); [exact Hold|]. cbv zeta.
  destruct (poll_reply w (Tools.polls s)) as [|code text json] eqn:Hreply;
    [apply Hkeep|].
  destruct (Z.eqb_spec code 200) as [->|_]; [|apply Hkeep].
  destruct json as [[| | | | |d]|]; try apply Hkeep.
  assert (Hnew : forall elapsed' last' log',
            sourced w h
              {| Tools.status := Py.get d "status"; Tools.result := d;
                 Tools.elapsed := elapsed';
                 Tools.last_status_update := last';
                 Tools.polls := S (Tools.polls s); Tools.log := log' |}).
  { intros elapsed' last' log'. split; [reflexivity|]. right.
    exists (Tools.polls s), text. cbn [Tools.polls Tools.result].
    split; [lia | exact Hreply]. }
  destruct (emitter && _); apply Hnew.
Qed.

Lemma sourced_loop (valves : Tools.Valves) (emitter : bool) (w : World)
    (url : locator) (h : Tools.handle) (fuel : nat) :
  forall s x s',
    sourced w h s ->
    Tools.poll_loop fuel valves emitter w url s = Some (x, s') ->
    sourced w h s'.
Proof.
  induction fuel as [|fuel IH]; intros s x s' Hs H; [discriminate|].
  rewrite poll_loop_S in H.
  pose proof (sourced_step valves emitter w url h s Hs) as Hstep.
  destruct (Tools.poll_step valves emitter w url s) as [s1|x1 s1].
  - exact (IH _ _ _ Hstep H).
  - now inversion H; subst.
Qed.

Lemma poll_loop_finished (valves : Tools.Valves) (emitter : bool) (w : World)
    (url : locator) (fuel : nat) :
  forall s s',
    Tools.poll_loop fuel valves emitter w url s = Some (Tools.Finished, s') ->
    is_terminal (Tools.status s') = true.
Proof.
  induction fuel as [|fuel IH]; intros s s' H; [discriminate|].
  rewrite poll_loop_S in H.
  pose proof (poll_step_cases valves emitter w url s) as Hc.
  destruct (Tools.poll_step valves emitter w url s) as [s1|x1 s1].
  - exact (IH _ _ H).
  - inversion H; subst. now destruct Hc as [-> Ht].
Qed.

Lemma submit_prediction_handle (valves : Tools.Valves) (w : World)
    (replicate_input : dict) (h : Tools.handle) :
  snd (Tools.submit_prediction valves w replicate_input) = ret (inr h) ->
  exists code text d,
    create_reply w = Reply code text (Some (PDict d))
    /\ Tools.initial_result h = d
    /\ Tools.initial_status h = Py.get d "status".
Proof.
  unfold Tools.submit_prediction. cbn [snd].
  destruct (create_reply w) as [|code text json]; [discriminate|].
  destruct (negb _); [discriminate|].
  destruct json as [[| | | | |d]|]; try discriminate.
  unfold Tools.read_handle.
  destruct (Py.get_default d "urls" (PDict [])); try discriminate.
  cbv beta iota delta [bind ret]. intros H. inversion H; subst.
  exists code, text, d. repeat split.
Qed.

(** X18.  An image is returned only for a job that the provider reported
    as succeeded.  Whenever a call of the tool returns an image, the
    creation response or a status check of this run that was answered
    with 200 carried the status [succeeded] and an output, and the image
    returned is the first address of that output (or the copy of it that
    Open WebUI stored). *)
Theorem image_only_after_success (fuel : nat) (valves : Tools.Valves)
    (prompt : string) (aspect_ratio : option string)
    (high_fidelity : option bool) (emitter : bool)
    (messages : option (list dict)) (w : World) (r : Tools.edit_result)
    (l : list effect) :
  Tools.edit_image fuel valves prompt aspect_ratio high_fidelity emitter
    messages w = Some (r, l) ->
  Tools.artifacts r <> [] ->
  exists d image_url,
    ((exists code text, create_reply w = Reply code text (Some (PDict d)))
     \/ (exists k text,
           (k < count is_get l)%nat
           /\ poll_reply w k = Reply 200 text (Some (PDict d))))
    /\ Py.eq_str (Py.get d "status") "succeeded" = true
    /\ first_output (Py.get d "output") = ret image_url
    /\ Tools.artifacts r = [Tools.final_url w image_url].
Proof.
  intros H Hart.
  destruct (edit_image_inv _ _ _ _ _ _ _ _ _ _ H) as (l0 & r0 & Htry & Hr).
  destruct r0 as [e|r'];
    [destruct Hr as [[-> | ->] _]; now destruct Hart|].
  destruct Hr as [-> ->].
  destruct (edit_image_try_inv _ _ _ _ _ _ _ _ _ _ Htry)
    as [(_ & [(Hx & _)|[(Hx & _)|(Hx & _)]])
       |(msgs & input & log0 & _ & _ & _ & Hlog0 & Hrun)];
    try (inversion Hx; subst; now destruct Hart).
  set (posted := [HttpPost (Tools.create_url valves) input]) in *.
  destruct (snd (Tools.submit_prediction valves w input))
    as [e|[early|h]] eqn:Hsub.
  - destruct Hrun as [_ Hx]. discriminate Hx.
  - destruct Hrun as [_ Hx]. inversion Hx; subst.
    destruct (submit_prediction_early _ _ _ _ Hsub) as (code & text & ->).
    now destruct Hart.
  - destruct (submit_prediction_handle _ _ _ _ Hsub)
      as (code & text & d0 & Hcreate & Hd0 & Hs0).
    destruct (poll_for_completion_inv _ _ _ _ _ _ _ _ _ Hrun)
      as (x & s & Hloop & Hx).
    destruct x as [| |e];
      [|destruct Hx as [_ Hx]; inversion Hx; subst; now destruct Hart
       |destruct Hx as [_ Hx]; discriminate Hx].
    assert (Hsrc : sourced w h s).
    { refine (sourced_loop valves emitter w _ h fuel _ _ _ _ Hloop).
      split; [|now left]. cbn [Tools.start Tools.status Tools.result].
      now rewrite Hs0, Hd0. }
    pose proof (poll_loop_finished _ _ _ _ _ _ _ Hloop) as Hterm.
    pose proof (accounted_loop valves emitter w _ _ fuel _ _ _
                  (accounted_start valves h (log0 ++ posted)) Hloop)
      as (_ & Hgets & _).
    destruct (handle_result_artifacts _ _ _ _ _ _ _ Hx Hart)
      as (Hf & Hc & _ & image_url & Hout & Himg).
    destruct Hsrc as (Hstatus & Hfrom).
    exists (Tools.result s), image_url. split; [|split; [|split]].
    + destruct Hfrom as [Hr|(k & text' & Hk & Hreply)].
      * left. exists code, text. now rewrite Hr, Hd0.
      * right. exists k, text'. split; [|exact Hreply].
        assert (Hl : count is_get l0 = count is_get (Tools.log s)).
        { destruct (handle_result_log _ _ _ _ _ _ _ Hx)
            as [(-> & _)|(_ & -> & _)]; [reflexivity|].
          rewrite count_snoc. cbn [is_get]. lia. }
        rewrite Hl, Hgets. lia.
    + rewrite <- Hstatus. unfold is_terminal in Hterm.
      rewrite Hf, Hc, !orb_false_r in Hterm. exact Hterm.
    + exact Hout.
    + exact Himg.
Qed.

Lemma image_only_after_success_witness :
  exists d image_url,
    Py.eq_str (Py.get d "status") "succeeded" = true
    /\ first_output (Py.get d "output") = ret image_url
    /\ image_url = PStr "https://x/a.png".
Proof.
  destruct (image_only_after_success 1 (Sample.valves 0 0)
              "make the sofa blue" None None true (Some Sample.transcript)
              finished_at_creation
              (Tools.HtmlImage (PStr "https://x/a.png") None) _
              ltac:(vm_compute; reflexivity) ltac:(discriminate))
    as (d & image_url & _ & Hs & Ho & Ha).
  exists d, image_url. split; [exact Hs|]. split; [exact Ho|].
  cbn [Tools.artifacts] in Ha. inversion Ha as [Hu].
  unfold Tools.final_url in Hu. cbn in Hu. now subst.
Defined.

(** ** The outcomes of the harness *)

Lemma call_replicate_poll_outcome (w : World) (prediction_id : pyval) :
  forall (fuel polls : nat) (log l : list effect) (res : dict),
    (polls <= 150)%nat ->
    count is_get log = polls ->
    count is_sleep log = polls ->
    Harness.call_replicate_poll fuel w prediction_id (2 * Z.of_nat polls)
      polls log = Some (l, ret res) ->
    count is_post l = count is_post log
    /\ ((exists k code text d,
           poll_reply w k = Reply code text (Some (PDict d))
           /\ count is_get l = S k /\ count is_sleep l = k /\ (k < 150)%nat
           /\ (Py.eq_str (Py.get d "status") "succeeded" = true
               /\ res = [ ("success", PBool true);
                          ("output", Py.get d "output");
                          ("metrics", Py.get_default d "metrics" (PDict []));
                          ("prediction_id", prediction_id) ]
               \/ Py.eq_str (Py.get d "status") "failed"
                  || Py.eq_str (Py.get d "status") "canceled" = true
                  /\ res = [ ("success", PBool false);
                             ("error",
                              Py.get_default d "error" (PStr "Unknown error"));
                             ("prediction_id", prediction_id) ]))
        \/ (res = [ ("success", PBool false); ("error", PStr "Timeout");
                    ("prediction_id", prediction_id) ]
            /\ count is_get l = 150%nat /\ count is_sleep l = 150%nat)).
Proof.
  induction fuel as [|fuel IH]; intros polls log l res Hp Hg Hs H;
    [discriminate|].
  cbn [Harness.call_replicate_poll] in H. unfold Harness.max_wait in H.
  destruct (Z.ltb_spec (2 * Z.of_nat polls) 300) as [Hlt|Hge].
  - cbv zeta in H.
    destruct (poll_reply w polls) as [|code text [[| | | | |d]|]] eqn:Hreply;
      try discriminate H.
    destruct (Py.eq_str (Py.get d "status") "succeeded") eqn:Hok.
    + inversion H; subst. rewrite !count_snoc. cbn [is_post is_get is_sleep].
      split; [lia|]. left. exists (count is_get log), code, text, d.
      split; [exact Hreply|]. split; [lia|]. split; [lia|]. split; [lia|].
      left. split; [exact Hok | reflexivity].
    + destruct (Py.eq_str (Py.get d "status") "failed"
                || Py.eq_str (Py.get d "status") "canceled") eqn:Hbad.
      * inversion H; subst. rewrite !count_snoc.
        cbn [is_post is_get is_sleep].
        split; [lia|]. left. exists (count is_get log), code, text, d.
        split; [exact Hreply|]. split; [lia|]. split; [lia|]. split; [lia|].
        right. split; [exact Hbad | reflexivity].
      * replace (2 * Z.of_nat polls + 2) with (2 * Z.of_nat (S polls)) in H
          by lia.
        assert (Hg' : count is_get
                        ((log ++ [HttpGet (PredictionUrl prediction_id)])
                         ++ [Sleep 2]) = S polls)
          by (rewrite !count_snoc; cbn [is_get]; lia).
        assert (Hs' : count is_sleep
                        ((log ++ [HttpGet (PredictionUrl prediction_id)])
                         ++ [Sleep 2]) = S polls)
          by (rewrite !count_snoc; cbn [is_sleep]; lia).
        destruct (IH (S polls) _ l res ltac:(lia) Hg' Hs' H)
          as [Hposts Hkinds].
        rewrite !count_snoc in Hposts. cbn [is_post] in Hposts.
        split; [lia | exact Hkinds].
  - inversion H; subst. split; [reflexivity|]. right.
    split; [reflexivity|]. split; lia.
Qed.

(** X19.  Every result that [call_replicate] returns is one of three
    kinds.  Either the creation call was rejected, and the result holds
    the API error and no [success] field; or some status check, the
    [k]-th, was answered with a JSON object in a terminal state, whatever
    its status code, after [k] pauses, and the result is a success with
    the output of that answer for [succeeded] and a failure with its error
    for [failed] and [canceled]; or the result is the timeout, after
    exactly 150 status checks and 150 pauses of two seconds. *)
Theorem call_replicate_outcomes (fuel : nat) (input_data : dict) (w : World)
    (l : list effect) (res : dict) :
  Harness.call_replicate fuel input_data w = Some (l, ret res) ->
  count is_post l = 1%nat
  /\ ((exists code text json,
         create_reply w = Reply code text json
         /\ (code =? 200) || (code =? 201) = false
         /\ res = [ ("error",
                     PStr ("API error: " ++ Harness.str_int code)%string);
                    ("detail", PStr text) ]
         /\ count is_get l = 0%nat)
      \/ (exists k code text d,
            poll_reply w k = Reply code text (Some (PDict d))
            /\ count is_get l = S k /\ count is_sleep l = k /\ (k < 150)%nat
            /\ (Py.eq_str (Py.get d "status") "succeeded" = true
                /\ Py.get res "success" = PBool true
                /\ Py.get res "output" = Py.get d "output"
                \/ Py.eq_str (Py.get d "status") "failed"
                   || Py.eq_str (Py.get d "status") "canceled" = true
                   /\ Py.get res "success" = PBool false
                   /\ Py.get res "error"
                      = Py.get_default d "error" (PStr "Unknown error")))
      \/ (Py.get res "success" = PBool false
          /\ Py.get res "error" = PStr "Timeout"
          /\ count is_get l = 150%nat /\ count is_sleep l = 150%nat)).
Proof.
  unfold Harness.call_replicate.
  set (posted := [HttpPost _ input_data]).
  destruct (create_reply w) as [|code text json] eqn:Hcreate;
    [discriminate|].
  destruct ((code =? 200) || (code =? 201)) eqn:Hcode; cbn [negb].
  - destruct json as [[| | | | |result]|]; try discriminate.
    intros H.
    destruct (call_replicate_poll_outcome w (Py.get result "id") fuel 0 posted
                l res ltac:(lia) eq_refl eq_refl H)
      as [Hposts [(k & code' & text' & d & Hreply & Hg & Hs & Hk & Hkind)
                 |(-> & Hg & Hs)]].
    + split; [exact Hposts|]. right. left. exists k, code', text', d.
      repeat (split; [assumption|]).
      destruct Hkind as [(Hok & ->)|(Hbad & ->)]; [left | right];
        repeat split; assumption.
    + split; [exact Hposts|]. right. right. repeat split; assumption.
  - intros H. inversion H; subst. split; [reflexivity|]. left.
    exists code, text, json.
    split; [reflexivity|]. split; [exact Hcode|]. split; reflexivity.
Qed.

Lemma call_replicate_outcomes_witness :
  exists l res,
    Harness.call_replicate 151 Sample.input_data Sample.never_done
    = Some (l, ret res)
    /\ Py.get res "error" = PStr "Timeout"
    /\ count is_sleep l = 150%nat.
Proof.
  eexists. eexists. split; [vm_compute; reflexivity|].
  split; [reflexivity|].
  destruct (call_replicate_outcomes 151 Sample.input_data Sample.never_done
              _ _ ltac:(vm_compute; reflexivity))
    as [_ [(code & text & json & Hc & Hcode & _)
          |[(k & code & text & d & Hreply & _ & _ & _ & Hkind)
           |(_ & _ & _ & Hs)]]].
  - inversion Hc; subst. discriminate Hcode.
  - inversion Hreply; subst.
    destruct Hkind as [(Hok & _)|(Hbad & _)]; discriminate.
  - exact Hs.
Defined.

(** * The loop on a clock *)

Section OnAnyClock.

Variable time : Type.
Variable C : clock time.
Variables (valves : Tools.Valves) (emitter : bool) (w : World).
Variable url : locator.

Lemma timed_loop_S (fuel : nat) (s : Timed.poll_state time) :
  Timed.poll_loop C (S fuel) valves emitter w url s =
  match Timed.poll_step C valves emitter w url s with
  | Timed.Exit x s' => Some (x, s')
  | Timed.Next s' => Timed.poll_loop C fuel valves emitter w url s'
  end.
Proof. reflexivity. Qed.

Lemma timed_steps_S (n : nat) (s : Timed.poll_state time) :
  Timed.poll_steps C (S n) valves emitter w url s =
  match Timed.poll_step C valves emitter w url s with
  | Timed.Exit x s' => Timed.Exit x s'
  | Timed.Next s' => Timed.poll_steps C n valves emitter w url s'
  end.
Proof. reflexivity. Qed.

(** What one pass does to the state: nothing when it leaves the loop at the
    [while] condition or at the deadline; otherwise one pause, one tick of
    the clock and one status check, and at most one report after them. *)
Lemma timed_step_cases (s : Timed.poll_state time) :
  match Timed.poll_step C valves emitter w url s with
  | Timed.Next s' =>
      is_terminal (Timed.status s) = false
      /\ reached C (Tools.max_wait_time valves) (Timed.elapsed s) = false
      /\ Timed.elapsed s' = tick C (Timed.elapsed s)
      /\ Timed.polls s' = S (Timed.polls s)
      /\ (Timed.log s' = Timed.log s ++ [Sleep (pause C); HttpGet url]
          /\ Timed.last_status_update s' = Timed.last_status_update s
          \/ exists shown,
               emitter = true
               /\ due C (tick C (Timed.elapsed s))
                    (Timed.last_status_update s) = true
               /\ seconds C (tick C (Timed.elapsed s)) = inr shown
               /\ answered w (S (Timed.polls s))
               /\ Timed.log s'
                  = (Timed.log s ++ [Sleep (pause C); HttpGet url])
                    ++ [Emit (Processing shown)]
               /\ Timed.last_status_update s' = tick C (Timed.elapsed s))
  | Timed.Exit x s' =>
      s' = s
      /\ (x = Tools.Finished /\ is_terminal (Timed.status s) = true
          \/ x = Tools.TimedOut
             /\ is_terminal (Timed.status s) = false
             /\ reached C (Tools.max_wait_time valves) (Timed.elapsed s)
                = true)
      \/ (exists e, x = Tools.Raised e)
         /\ is_terminal (Timed.status s) = false
         /\ reached C (Tools.max_wait_time valves) (Timed.elapsed s) = false
         /\ Timed.elapsed s' = tick C (Timed.elapsed s)
         /\ Timed.polls s' = S (Timed.polls s)
         /\ Timed.log s' = Timed.log s ++ [Sleep (pause C); HttpGet url]
         /\ Timed.last_status_update s' = Timed.last_status_update s
  end.
Proof.
  unfold Timed.poll_step.
  destruct (is_terminal (Timed.status s)) eqn:Ht; [left; auto|].
  destruct (reached C _ _) eqn:Hr; [left; auto 6|].
  destruct (poll_reply w (Timed.polls s)) as [|code text json] eqn:Hreply.
  { right. cbn. eauto 10. }
  destruct (code =? 200) eqn:Hcode; [|cbn; auto 10].
  apply Z.eqb_eq in Hcode. subst code.
  destruct json as [[| | | | |d]|]; try (right; cbn; eauto 10).
  destruct emitter eqn:He; cbn [andb]; [|cbn; auto 10].
  destruct (due C _ _) eqn:Hd; [|cbn; auto 10].
  destruct (seconds C _) as [e|shown] eqn:Hs.
  - right. cbn. eauto 10.
  - cbn. repeat split; try reflexivity. right. exists shown.
    repeat split; try assumption. exists text, d. exact Hreply.
Qed.

(** The account of the clock is kept by every pass. *)
Lemma tracked_step (log0 : list effect) (s : Timed.poll_state time) :
  tracked C log0 s ->
  match Timed.poll_step C valves emitter w url s with
  | Timed.Next s' => tracked C log0 s'
  | Timed.Exit _ s' => tracked C log0 s'
  end.
Proof.
  intros (He & Hg & Hs).
  assert (Hmore : forall (s' : Timed.poll_state time) (tail : list effect),
            filter is_get tail = [] -> filter is_sleep tail = [] ->
            Timed.elapsed s' = tick C (Timed.elapsed s) ->
            Timed.polls s' = S (Timed.polls s) ->
            Timed.log s'
            = (Timed.log s ++ [Sleep (pause C); HttpGet url]) ++ tail ->
            tracked C log0 s').
  { intros s' tail Htg Hts He' Hp' Hl'. unfold tracked.
    rewrite He', Hp', Hl', He. split; [reflexivity|]. split.
    - unfold count in *. rewrite !filter_app, !length_app, Htg.
      cbn. lia.
    - rewrite !filter_app, Hts, Hs. cbn [filter is_sleep].
      rewrite app_nil_r, <- app_assoc. f_equal.
      change (repeat (Sleep (pause C)) (S (Timed.polls s)))
        with (Sleep (pause C) :: repeat (Sleep (pause C)) (Timed.polls s)).
      now rewrite repeat_cons. }
  pose proof (timed_step_cases s) as Hc.
  destruct (Timed.poll_step C valves emitter w url s) as [s'|x s'].
  - destruct Hc as (_ & _ & He' & Hp' & [[Hl _]|(shown & _ & _ & _ & _ & Hl & _)]).
    + apply (Hmore s' []); try reflexivity; try assumption.
      now rewrite app_nil_r.
    + now apply (Hmore s' [Emit (Processing shown)]).
  - destruct Hc as [[-> _]|(_ & _ & _ & He' & Hp' & Hl & _)].
    + now repeat split.
    + apply (Hmore s' []); try reflexivity; try assumption.
      now rewrite app_nil_r.
Qed.

Lemma tracked_start (h : Tools.handle) (log0 : list effect) :
  tracked C log0 (Timed.start C h log0).
Proof.
  unfold tracked, Timed.start.
  cbn [Timed.elapsed Timed.polls Timed.log clock_after repeat].
  split; [reflexivity|]. split; [now rewrite Nat.add_0_r|].
  now rewrite app_nil_r.
Qed.



End OnAnyClock.

(** ** The clock counts the pauses *)



(** On the exact clock the same sum is the product. *)
Lemma exact_clock_after (interval : Q) (n : nat) :
  (clock_after (exact_clock interval) n
   == inject_Z (Z.of_nat n) * interval)%Q.
Proof.
  induction n as [|n IH].
  - change (0 == 0 * interval)%Q. ring.
  - cbn [clock_after]. change (tick (exact_clock interval)
                                 (clock_after (exact_clock interval) n))
      with (clock_after (exact_clock interval) n + interval)%Q.
    rewrite IH, Nat2Z.inj_succ. unfold Z.succ. rewrite inject_Z_plus.
    change (inject_Z 1) with 1%Q. lra.
Qed.

(** ** The call returns *)






(** ** The deadline *)

Section Deadline.

Variable time : Type.
Variable C : clock time.
Variables (valves : Tools.Valves) (emitter : bool) (w : World).
Variable url : locator.

(** While the service answers without reporting a terminal state, and the
    report that may be due can be written, a pass before the deadline goes
    on to the next. *)
Lemma timed_step_pending (s : Timed.poll_state time) :
  is_terminal (Timed.status s) = false ->
  reached C (Tools.max_wait_time valves) (Timed.elapsed s) = false ->
  reply_pending (poll_reply w (Timed.polls s)) = true ->
  (emitter = true ->
   due C (tick C (Timed.elapsed s)) (Timed.last_status_update s) = true ->
   exists shown, seconds C (tick C (Timed.elapsed s)) = inr shown) ->
  exists s',
    Timed.poll_step C valves emitter w url s = Timed.Next s'
    /\ is_terminal (Timed.status s') = false.
Proof.
  intros Ht Hr Hp Hshow. unfold Timed.poll_step. rewrite Ht, Hr.
  destruct (reply_pending_cases _ Hp) as [Hn|(text & d & -> & Hd)].
  - destruct (poll_reply w (Timed.polls s)) as [|code text json];
      [discriminate|].
    cbn in Hn. apply negb_true_iff in Hn. rewrite Hn.
    eexists. split; [reflexivity | exact Ht].
  - change (200 =? 200) with true. cbv iota.
    destruct emitter; cbn [andb].
    + destruct (due C _ _).
      * destruct (Hshow eq_refl eq_refl) as [shown ->].
        eexists. split; [reflexivity | exact Hd].
      * eexists. split; [reflexivity | exact Hd].
    + eexists. split; [reflexivity | exact Hd].
Qed.

Lemma timed_loop_times_out (log0 : list effect) (n : nat) :
  (forall k, (k < n)%nat -> reply_pending (poll_reply w k) = true) ->
  (forall k, (k < n)%nat ->
     reached C (Tools.max_wait_time valves) (clock_after C k) = false) ->
  reached C (Tools.max_wait_time valves) (clock_after C n) = true ->
  (emitter = true ->
   forall k, (k <= n)%nat ->
     exists shown, seconds C (clock_after C k) = inr shown) ->
  forall (d : nat) (s : Timed.poll_state time),
    tracked C log0 s ->
    (Timed.polls s + d = n)%nat ->
    is_terminal (Timed.status s) = false ->
    exists s',
      (forall fuel, (d < fuel)%nat ->
         Timed.poll_loop C fuel valves emitter w url s
         = Some (Tools.TimedOut, s'))
      /\ tracked C log0 s'
      /\ Timed.polls s' = n.
Proof.
  intros Hw Hbefore Hn Hshow.
  induction d as [|d IH]; intros s Hs Hd Ht.
  - exists s. split; [|split; [exact Hs | lia]].
    intros [|fuel] Hf; [lia|].
    rewrite timed_loop_S. unfold Timed.poll_step. rewrite Ht.
    destruct Hs as (-> & _). replace (Timed.polls s) with n by lia.
    now rewrite Hn.
  - pose proof (tracked_step _ C valves emitter w url log0 s Hs) as Hs1.
    pose proof (timed_step_cases _ C valves emitter w url s) as Hc.
    destruct (timed_step_pending s Ht) as (s1 & Hstep & Ht1).
    + destruct Hs as (-> & _). apply Hbefore. lia.
    + apply Hw. lia.
    + intros He _. destruct Hs as (-> & _).
      apply (Hshow He (S (Timed.polls s))). lia.
    + rewrite Hstep in Hs1, Hc. destruct Hc as (_ & _ & _ & Hp & _).
      destruct (IH s1 Hs1 ltac:(lia) Ht1) as (s' & Hloop & Hs' & Hp').
      exists s'. split; [|split; assumption].
      intros [|fuel] Hf; [lia|].
      rewrite timed_loop_S, Hstep. apply Hloop. lia.
Qed.

(** A clock that stands still never reaches a deadline it has not
    reached at the start: against a service that never reports a terminal
    state the loop does not end. *)
Lemma timed_loop_stands_still :
  tick C (zero C) = zero C ->
  reached C (Tools.max_wait_time valves) (zero C) = false ->
  due C (zero C) (zero C) = false ->
  (forall k, reply_pending (poll_reply w k) = true) ->
  forall (fuel : nat) (s : Timed.poll_state time),
    is_terminal (Timed.status s) = false ->
    Timed.elapsed s = zero C ->
    Timed.last_status_update s = zero C ->
    Timed.poll_loop C fuel valves emitter w url s = None.
Proof.
  intros Htick Hr Hdue Hw.
  induction fuel as [|fuel IH]; intros s Ht He Hl; [reflexivity|].
  rewrite timed_loop_S.
  pose proof (timed_step_cases _ C valves emitter w url s) as Hc.
  destruct (timed_step_pending s Ht) as (s1 & Hstep & Ht1).
  - now rewrite He.
  - apply Hw.
  - intros _ Hd. rewrite He, Htick, Hl, Hdue in Hd. discriminate.
  - rewrite Hstep in *. destruct Hc as (_ & _ & He1 & _ & Hlast).
    apply (IH s1 Ht1).
    + now rewrite He1, He.
    + destruct Hlast as [[_ ->]|(shown & _ & Hd & _)]; [exact Hl|].
      rewrite He, Htick, Hl, Hdue in Hd. discriminate.
Qed.

End Deadline.

(** C1.  On the clock of the machine as on any other.  Take a handle whose
    status is not terminal, a service that answers the first [n] status
    checks without reporting a terminal state, and a clock that reaches
    the deadline after [n] pauses and not before (with an emitter, whose
    value after each of them [int] can show).  Then the loop ends at the
    deadline: the call returns the timeout message with the deadline and
    the identifier of the handle, after exactly [n] status checks and [n]
    pauses of the interval.  The clock at that point is the first value
    with the interval added [n] times: it has reached the deadline, and
    one pause earlier it had not. *)
Theorem timeout_on_the_clock {time : Type} (C : clock time)
    (valves : Tools.Valves) (emitter : bool) (w : World) (prompt : string)
    (h : Tools.handle) (log0 : list effect) (n : nat) :
  is_terminal (Tools.initial_status h) = false ->
  (forall k, (k < n)%nat -> reply_pending (poll_reply w k) = true) ->
  (forall k, (k < n)%nat ->
     reached C (Tools.max_wait_time valves) (clock_after C k) = false) ->
  reached C (Tools.max_wait_time valves) (clock_after C n) = true ->
  (emitter = true ->
   forall k, (k <= n)%nat ->
     exists shown, seconds C (clock_after C k) = inr shown) ->
  exists s : Timed.poll_state time,
    (forall fuel, (n < fuel)%nat ->
       Timed.poll_loop C fuel valves emitter w (Tools.prediction_url h)
         (Timed.start C h log0) = Some (Tools.TimedOut, s)
       /\ Timed.poll_for_completion C fuel valves emitter w prompt h log0
          = Some (Timed.log s,
                  ret (Tools.Timeout (Tools.max_wait_time valves)
                         (Tools.prediction_id h))))
    /\ Timed.polls s = n
    /\ Timed.elapsed s = clock_after C n
    /\ reached C (Tools.max_wait_time valves) (Timed.elapsed s) = true
    /\ (forall m, n = S m ->
          Timed.elapsed s = tick C (clock_after C m)
          /\ reached C (Tools.max_wait_time valves) (clock_after C m)
             = false)
    /\ count is_get (Timed.log s) = (count is_get log0 + n)%nat
    /\ filter is_sleep (Timed.log s)
       = filter is_sleep log0 ++ repeat (Sleep (pause C)) n.
Proof.
  intros Ht Hw Hbefore Hn Hshow.
  destruct (timed_loop_times_out _ C valves emitter w (Tools.prediction_url h)
              log0 n Hw Hbefore Hn Hshow n (Timed.start C h log0)
              (tracked_start _ C h log0) eq_refl Ht)
    as (s & Hloop & (He & Hg & Hs) & Hp).
  rewrite Hp in He, Hg, Hs.
  exists s. split; [|split; [exact Hp|split; [exact He|]]].
  - intros fuel Hf. pose proof (Hloop fuel Hf) as Hl.
    split; [exact Hl|]. unfold Timed.poll_for_completion. now rewrite Hl.
  - split; [now rewrite He|]. split; [|split; assumption].
    intros m ->. split; [exact He|]. apply Hbefore. lia.
Qed.

(** The instance of the specification on the machine: with an interval of
    1 and a deadline of 5 the loop times out after 5 status checks, with a
    clock of 5, which is at least 5 and less than 6. *)
Lemma timeout_on_the_clock_witness :
  exists s : Timed.poll_state float,
    (forall fuel, (5 < fuel)%nat ->
       Timed.poll_loop (binary64_clock one) fuel (Sample.valves 5 1) true
         Sample.never_done (PredictionUrl (PStr "p1"))
         (Timed.start (binary64_clock one) Sample.handle_p1 [])
       = Some (Tools.TimedOut, s)
       /\ Timed.poll_for_completion (binary64_clock one) fuel
            (Sample.valves 5 1) true Sample.never_done "make the sofa blue"
            Sample.handle_p1 []
          = Some (Timed.log s, ret (Tools.Timeout 5 (PStr "p1"))))
    /\ Timed.polls s = 5%nat
    /\ Timed.elapsed s = 5%float
    /\ (5 <= float_value (Timed.elapsed s) < 5 + 1)%Q
    /\ count is_get (Timed.log s) = 5%nat
    /\ filter is_sleep (Timed.log s) = repeat (Sleep (float_value one)) 5.
Proof.
  destruct (timeout_on_the_clock (binary64_clock one) (Sample.valves 5 1)
              true Sample.never_done "make the sofa blue" Sample.handle_p1
              [] 5)
    as (s & Hrun & Hp & He & _ & _ & Hg & Hs).
  - reflexivity.
  - intros k _. reflexivity.
  - intros k Hk.
    do 5 (destruct k as [|k]; [vm_compute; reflexivity|]). lia.
  - vm_compute. reflexivity.
  - intros _ k Hk.
    do 6 (destruct k as [|k]; [eexists; vm_compute; reflexivity|]). lia.
  - exists s. split; [exact Hrun|]. split; [exact Hp|].
    split; [exact He|]. split; [rewrite He; vm_compute; split; [discriminate | reflexivity]|].
    split; [exact Hg | exact Hs].
Defined.

(** C1, as stated, fails for a service that never reports a terminal
    state and whose status check cannot be reached: the call returns the
    network-error message after one status check, 1 second into a
    deadline of 5.  It fails as well for an interval of 0: the clock
    stands still and the loop does not end. *)
Lemma unreachable_service_is_no_timeout :
  (exists (l : list effect) (s : Timed.poll_state float),
     Timed.edit_image (binary64_clock one) 100 (Sample.valves 5 1)
       "make the sofa blue" None None true (Some Sample.transcript)
       Sample.unreachable = Some (Tools.NetworkError, l)
     /\ count is_get l = 1%nat
     /\ Timed.poll_loop (binary64_clock one) 100 (Sample.valves 5 1) true
          Sample.unreachable (PredictionUrl (PStr "p1"))
          (Timed.start (binary64_clock one) Sample.handle_p1 [])
        = Some (Tools.Raised ClientError, s)
     /\ Timed.elapsed s = 1%float)
  /\ (forall fuel,
        Timed.poll_loop (binary64_clock 0%float) fuel (Sample.valves 5 0)
          true Sample.never_done (PredictionUrl (PStr "p1"))
          (Timed.start (binary64_clock 0%float) Sample.handle_p1 [])
        = None).
Proof.
  split.
  - eexists. eexists. split; [vm_compute; reflexivity|].
    split; [reflexivity|]. split; [vm_compute; reflexivity|]. reflexivity.
  - intros fuel.
    apply (timed_loop_stands_still _ (binary64_clock 0%float));
      reflexivity.
Qed.

(** ** The cadence of the progress reports *)

Section Cadence.

Variable time : Type.
Variable C : clock time.
Variables (valves : Tools.Valves) (emitter : bool) (w : World).
Variable url : locator.

Lemma paced_start (h : Tools.handle) (log0 : list effect) :
  paced C emitter w log0 (Timed.start C h log0) [].
Proof.
  unfold paced, Timed.start.
  cbn [Timed.polls Timed.log Timed.last_status_update spaced hd
       List.length clock_after].
  split; [exact I|]. split; [constructor|].
  split; [now rewrite Nat.add_0_r|]. split; reflexivity.
Qed.

Lemma paced_latest (log0 : list effect) (s : Timed.poll_state time)
    (js : list nat) :
  paced C emitter w log0 s js -> (hd 0%nat js <= Timed.polls s)%nat.
Proof.
  intros (_ & Hall & _). destruct js as [|j js]; cbn [hd]; [lia|].
  inversion Hall as [|? ? [Hj _] _]. exact Hj.
Qed.

(** A pass keeps the reports paced: it adds none, or the one of this
    pass. *)
Lemma paced_step (log0 : list effect) (s : Timed.poll_state time)
    (js : list nat) :
  tracked C log0 s ->
  paced C emitter w log0 s js ->
  match Timed.poll_step C valves emitter w url s with
  | Timed.Next s' =>
      paced C emitter w log0 s' js
      \/ paced C emitter w log0 s' (S (Timed.polls s) :: js)
  | Timed.Exit _ s' => paced C emitter w log0 s' js
  end.
Proof.
  intros (He & _) Hpaced.
  pose proof (paced_latest log0 s js Hpaced) as Hlatest.
  destruct Hpaced as (Hsp & Hall & Hcount & Hlast & Hoff).
  assert (Hquiet : forall s' : Timed.poll_state time,
            Timed.polls s' = S (Timed.polls s) ->
            Timed.log s' = Timed.log s ++ [Sleep (pause C); HttpGet url] ->
            Timed.last_status_update s' = Timed.last_status_update s ->
            paced C emitter w log0 s' js).
  { intros s' Hp Hl Hu. unfold paced. rewrite Hp, Hl, Hu.
    split; [exact Hsp|]. split.
    - eapply Forall_impl; [|exact Hall]. intros j [Hj Ha]. split; [lia|exact Ha].
    - split; [|split; assumption].
      rewrite count_app, Hcount. cbn. lia. }
  pose proof (timed_step_cases _ C valves emitter w url s) as Hc.
  destruct (Timed.poll_step C valves emitter w url s) as [s'|x s'].
  - destruct Hc as (_ & _ & _ & Hp
                    & [[Hl Hu]|(shown & Hon & Hd & _ & Ha & Hl & Hu)]).
    + left. now apply Hquiet.
    + right. unfold paced. rewrite Hp, Hl, Hu, He.
      cbn [spaced hd List.length]. rewrite He, Hlast in Hd.
      split; [split; [lia|split; [exact Hd | exact Hsp]]|]. split.
      * constructor; [split; [lia | exact Ha]|].
        eapply Forall_impl; [|exact Hall].
        intros j [Hj Ha']. split; [lia | exact Ha'].
      * split; [|split; [reflexivity | intros Hf; congruence]].
        rewrite !count_app, Hcount. cbn. lia.
  - destruct Hc as [[-> _]|(_ & _ & _ & _ & Hp & Hl & Hu)].
    + unfold paced. auto.
    + now apply Hquiet.
Qed.

Lemma paced_steps (log0 : list effect) (n : nat) :
  forall (s s' : Timed.poll_state time) (js : list nat),
    tracked C log0 s ->
    paced C emitter w log0 s js ->
    Timed.poll_steps C n valves emitter w url s = Timed.Next s' ->
    tracked C log0 s' /\ exists js', paced C emitter w log0 s' js'.
Proof.
  induction n as [|n IH]; intros s s' js Hs Hp H.
  - inversion H; subst. split; [exact Hs | now exists js].
  - rewrite timed_steps_S in H.
    pose proof (tracked_step _ C valves emitter w url log0 s Hs) as Hs1.
    pose proof (paced_step log0 s js Hs Hp) as Hp1.
    destruct (Timed.poll_step C valves emitter w url s) as [s1|x s1];
      [|discriminate].
    destruct Hp1 as [Hp1|Hp1]; exact (IH s1 s' _ Hs1 Hp1 H).
Qed.

Lemma paced_loop (log0 : list effect) (fuel : nat) :
  forall (s s' : Timed.poll_state time) (x : Tools.loop_exit)
         (js : list nat),
    tracked C log0 s ->
    paced C emitter w log0 s js ->
    Timed.poll_loop C fuel valves emitter w url s = Some (x, s') ->
    exists js', paced C emitter w log0 s' js'.
Proof.
  induction fuel as [|fuel IH]; intros s s' x js Hs Hp H; [discriminate|].
  rewrite timed_loop_S in H.
  pose proof (tracked_step _ C valves emitter w url log0 s Hs) as Hs1.
  pose proof (paced_step log0 s js Hs Hp) as Hp1.
  destruct (Timed.poll_step C valves emitter w url s) as [s1|x1 s1].
  - destruct Hp1 as [Hp1|Hp1]; exact (IH s1 s' x _ Hs1 Hp1 H).
  - inversion H; subst. now exists js.
Qed.

(** Against a service that answers the status checks with 200 and a state
    that is not terminal, the passes of the loop are the passes of
    [running_passes]: the clock alone decides when a report is made. *)
Lemma timed_steps_running (n : nat) :
  forall (s : Timed.poll_state time) (reports : nat) (e l : time) (c : nat),
    is_terminal (Timed.status s) = false ->
    (forall k, (k < n)%nat ->
       reply_running (poll_reply w (Timed.polls s + k)) = true) ->
    Timed.running_passes C (Tools.max_wait_time valves) emitter n
      (Timed.elapsed s) (Timed.last_status_update s) reports
    = Some (e, l, c) ->
    exists s',
      Timed.poll_steps C n valves emitter w url s = Timed.Next s'
      /\ Timed.elapsed s' = e
      /\ Timed.last_status_update s' = l
      /\ Timed.polls s' = (Timed.polls s + n)%nat
      /\ (count is_progress (Timed.log s') + reports
          = count is_progress (Timed.log s) + c)%nat.
Proof.
  induction n as [|n IH]; intros s reports e l c Ht Hw H.
  - cbn in H. inversion H; subst. exists s.
    split; [reflexivity|]. repeat split; lia.
  - cbn [Timed.running_passes] in H.
    destruct (reached C _ _) eqn:Hr; [discriminate|].
    assert (Hrun := Hw 0%nat ltac:(lia)). rewrite Nat.add_0_r in Hrun.
    destruct (poll_reply w (Timed.polls s)) as [|code text [[| | | | |d]|]]
      eqn:Hreply; try discriminate.
    cbn in Hrun. apply andb_true_iff in Hrun as [Hcode Hd].
    apply negb_true_iff in Hd.
    assert (Hnext : forall (s1 : Timed.poll_state time) (reports1 : nat),
              Timed.poll_step C valves emitter w url s = Timed.Next s1 ->
              is_terminal (Timed.status s1) = false ->
              Timed.polls s1 = S (Timed.polls s) ->
              (count is_progress (Timed.log s1) + reports
               = count is_progress (Timed.log s) + reports1)%nat ->
              Timed.running_passes C (Tools.max_wait_time valves) emitter n
                (Timed.elapsed s1) (Timed.last_status_update s1) reports1
              = Some (e, l, c) ->
              exists s',
                Timed.poll_steps C (S n) valves emitter w url s
                = Timed.Next s'
                /\ Timed.elapsed s' = e
                /\ Timed.last_status_update s' = l
                /\ Timed.polls s' = (Timed.polls s + S n)%nat
                /\ (count is_progress (Timed.log s') + reports
                    = count is_progress (Timed.log s) + c)%nat).
    { intros s1 reports1 Hstep Ht1 Hp1 Hc1 Hrest.
      destruct (IH s1 reports1 e l c Ht1) as (s' & Hsteps & He & Hl & Hp & Hc).
      - intros k Hk. rewrite Hp1.
        replace (S (Timed.polls s) + k)%nat
          with (Timed.polls s + S k)%nat by lia.
        apply Hw. lia.
      - exact Hrest.
      - exists s'. rewrite timed_steps_S, Hstep.
        split; [exact Hsteps|]. repeat split; try assumption; lia. }
    assert (Hstep : Timed.poll_step C valves emitter w url s
                    = if emitter
                         && due C (tick C (Timed.elapsed s))
                              (Timed.last_status_update s)
                      then
                        match seconds C (tick C (Timed.elapsed s)) with
                        | inl err =>
                            Timed.Exit (Tools.Raised err)
                              {| Timed.status := Py.get d "status";
                                 Timed.result := d;
                                 Timed.elapsed := tick C (Timed.elapsed s);
                                 Timed.last_status_update :=
                                   Timed.last_status_update s;
                                 Timed.polls := S (Timed.polls s);
                                 Timed.log :=
                                   Timed.log s
                                   ++ [Sleep (pause C); HttpGet url] |}
                        | inr shown =>
                            Timed.Next
                              {| Timed.status := Py.get d "status";
                                 Timed.result := d;
                                 Timed.elapsed := tick C (Timed.elapsed s);
                                 Timed.last_status_update :=
                                   tick C (Timed.elapsed s);
                                 Timed.polls := S (Timed.polls s);
                                 Timed.log :=
                                   (Timed.log s
                                    ++ [Sleep (pause C); HttpGet url])
                                   ++ [Emit (Processing shown)] |}
                        end
                      else
                        Timed.Next
                          {| Timed.status := Py.get d "status";
                             Timed.result := d;
                             Timed.elapsed := tick C (Timed.elapsed s);
                             Timed.last_status_update :=
                               Timed.last_status_update s;
                             Timed.polls := S (Timed.polls s);
                             Timed.log :=
                               Timed.log s
                               ++ [Sleep (pause C); HttpGet url] |}).
    { unfold Timed.poll_step. now rewrite Ht, Hr, Hreply, Hcode. }
    destruct (emitter && due C _ _).
    + destruct (seconds C _) as [err|shown]; [discriminate|].
      apply (Hnext _ (S reports) Hstep Hd eq_refl); [|exact H].
      cbn [Timed.log]. rewrite !count_app. cbn. lia.
    + apply (Hnext _ reports Hstep Hd eq_refl); [|exact H].
      cbn [Timed.log]. rewrite !count_app. cbn. lia.
Qed.

End Cadence.

(** C7.  On the clock of the machine as on any other, for every service
    and every interval.  In every run of the polling loop, stopped after
    some passes or ended, the progress reports were made at passes spaced
    by the clock: at each the clock found itself 5 or more past its value
    at the report before (or at the start), each followed a status check
    answered with 200 and a JSON object, and without an emitter there is
    none.  And while the service answers with 200 and a state that is not
    terminal, the number of reports is the one [running_passes] counts on
    the clock alone. *)
Theorem progress_cadence {time : Type} (C : clock time)
    (valves : Tools.Valves) (emitter : bool) (w : World) (h : Tools.handle)
    (log0 : list effect) (n : nat) :
  (forall (x : Tools.loop_exit) (s : Timed.poll_state time),
     Timed.poll_steps C n valves emitter w (Tools.prediction_url h)
       (Timed.start C h log0) = Timed.Next s
     \/ Timed.poll_loop C n valves emitter w (Tools.prediction_url h)
          (Timed.start C h log0) = Some (x, s) ->
     exists js : list nat,
       spaced C js
       /\ Forall (fun j => (j <= Timed.polls s)%nat /\ answered w j) js
       /\ count is_progress (Timed.log s)
          = (count is_progress log0 + List.length js)%nat
       /\ Timed.last_status_update s = clock_after C (hd 0%nat js)
       /\ (emitter = false -> js = []))
  /\ (forall (e l : time) (c : nat),
        is_terminal (Tools.initial_status h) = false ->
        (forall k, (k < n)%nat -> reply_running (poll_reply w k) = true) ->
        Timed.running_passes C (Tools.max_wait_time valves) emitter n
          (zero C) (zero C) 0 = Some (e, l, c) ->
        exists s : Timed.poll_state time,
          Timed.poll_steps C n valves emitter w (Tools.prediction_url h)
            (Timed.start C h log0) = Timed.Next s
          /\ Timed.elapsed s = e
          /\ Timed.last_status_update s = l
          /\ Timed.polls s = n
          /\ count is_progress (Timed.log s)
             = (count is_progress log0 + c)%nat).
Proof.
  split.
  - intros x s [H|H].
    + exact (proj2 (paced_steps _ C valves emitter w _ log0 n _ _ _
                      (tracked_start _ C h log0)
                      (paced_start _ C emitter w h log0) H)).
    + exact (paced_loop _ C valves emitter w _ log0 n _ _ _ _
               (tracked_start _ C h log0)
               (paced_start _ C emitter w h log0) H).
  - intros e l c Ht Hw H.
    destruct (timed_steps_running _ C valves emitter w
                (Tools.prediction_url h) n (Timed.start C h log0) 0 e l c
                Ht Hw H) as (s & Hsteps & He & Hl & Hp & Hc).
    exists s. split; [exact Hsteps|]. repeat split; try assumption.
    cbn [Timed.start Timed.log] in Hc. lia.
Qed.

(** The instance of the specification on the machine: with an interval of
    1, a run that stays non-terminal through 20 status checks, 20 units of
    the clock, makes 4 progress reports, at the passes 5, 10, 15 and
    20. *)
Lemma progress_cadence_witness :
  exists s : Timed.poll_state float,
    Timed.poll_steps (binary64_clock one) 20 (Sample.valves 300 1) true
      Sample.never_done (PredictionUrl (PStr "p1"))
      (Timed.start (binary64_clock one) Sample.handle_p1 [])
    = Timed.Next s
    /\ Timed.elapsed s = 20%float
    /\ Timed.polls s = 20%nat
    /\ count is_progress (Timed.log s) = 4%nat
    /\ exists js : list nat,
         spaced (binary64_clock one) js
         /\ List.length js = 4%nat
         /\ Timed.last_status_update s
            = clock_after (binary64_clock one) (hd 0%nat js).
Proof.
  destruct (progress_cadence (binary64_clock one) (Sample.valves 300 1) true
              Sample.never_done Sample.handle_p1 [] 20) as [Hany Hrun].
  destruct (Hrun 20%float 20%float 4%nat) as (s & Hsteps & He & _ & Hp & Hc).
  - reflexivity.
  - intros k _. reflexivity.
  - vm_compute. reflexivity.
  - exists s. split; [exact Hsteps|]. split; [exact He|].
    split; [exact Hp|]. split; [exact Hc|].
    destruct (Hany Tools.Finished s (or_introl Hsteps))
      as (js & Hsp & _ & Hn & Hl & _).
    exists js. split; [exact Hsp|]. split; [|exact Hl].
    rewrite Hc in Hn. cbn in Hn. lia.
Defined.

(** C7, as stated, fails.  With an interval of 5 a run of 20 units makes
    4 status checks and 4 reports, one at every poll; against a service
    that answers every status check with 503, a run of 20 units with an
    interval of 1 makes 20 status checks and no report; and the loop of
    the earlier tool makes 20 reports in 20 units at an interval of 1. *)
Lemma progress_follows_polls_and_replies :
  (exists s : Timed.poll_state float,
     Timed.poll_steps (binary64_clock five) 4 (Sample.valves 300 5) true
       Sample.never_done (PredictionUrl (PStr "p1"))
       (Timed.start (binary64_clock five) Sample.handle_p1 [])
     = Timed.Next s
     /\ Timed.elapsed s = 20%float
     /\ Timed.polls s = 4%nat
     /\ count is_progress (Timed.log s) = 4%nat)
  /\ (exists s : Timed.poll_state float,
        Timed.poll_steps (binary64_clock one) 20 (Sample.valves 300 1) true
          Sample.overloaded (PredictionUrl (PStr "p1"))
          (Timed.start (binary64_clock one) Sample.handle_p1 [])
        = Timed.Next s
        /\ Timed.elapsed s = 20%float
        /\ Timed.polls s = 20%nat
        /\ count is_progress (Timed.log s) = 0%nat)
  /\ (exists s : Tools.poll_state,
        Qwen.poll_steps 20 (Sample.valves 300 1) true Sample.never_done
          (PredictionUrl (PStr "p1")) (Tools.start Sample.handle_p1 [])
        = Tools.Next s
        /\ Tools.polls s = 20%nat
        /\ count is_progress (Tools.log s) = 20%nat).
Proof.
  split; [|split]; eexists; (split; [vm_compute; reflexivity|]);
    repeat split; reflexivity.
Qed.

(** ** The exact clock and the clock of the machine *)

(** On the exact clock of the interval of the valves, the loop is the loop
    of [Tools]. *)
Lemma exact_clock_step (valves : Tools.Valves) (emitter : bool) (w : World)
    (url : locator) (s : Tools.poll_state) :
  Timed.poll_step (exact_clock (Tools.polling_interval valves)) valves
    emitter w url (Timed.of_exact s)
  = match Tools.poll_step valves emitter w url s with
    | Tools.Next s' => Timed.Next (Timed.of_exact s')
    | Tools.Exit x s' => Timed.Exit x (Timed.of_exact s')
    end.
Proof.
  unfold Timed.poll_step, Tools.poll_step, Timed.of_exact, exact_clock.
  cbn [Timed.status Timed.result Timed.elapsed Timed.last_status_update
       Timed.polls Timed.log zero tick pause reached due seconds].
  destruct (is_terminal (Tools.status s)); [reflexivity|].
  destruct (Qle_bool _ (Tools.elapsed s)); [reflexivity|].
  destruct (poll_reply w (Tools.polls s)) as [|code text json];
    [reflexivity|].
  destruct (code =? 200); [|reflexivity].
  destruct json as [[| | | | |d]|]; try reflexivity.
  destruct (emitter && Qle_bool 5 _); reflexivity.
Qed.

Lemma exact_clock_loop (valves : Tools.Valves) (emitter : bool) (w : World)
    (url : locator) (fuel : nat) :
  forall s : Tools.poll_state,
    Timed.poll_loop (exact_clock (Tools.polling_interval valves)) fuel valves
      emitter w url (Timed.of_exact s)
    = match Tools.poll_loop fuel valves emitter w url s with
      | Some (x, s') => Some (x, Timed.of_exact s')
      | None => None
      end.
Proof.
  induction fuel as [|fuel IH]; intros s; [reflexivity|].
  rewrite timed_loop_S, poll_loop_S, exact_clock_step.
  destruct (Tools.poll_step valves emitter w url s) as [s'|x s'];
    [apply IH | reflexivity].
Qed.

(** What follows the loop does not read the clock. *)
Lemma handle_result_finished (valves : Tools.Valves) (emitter : bool)
    (w : World) (prompt : string) (s : Tools.poll_state) :
  Tools.handle_result valves emitter w prompt
    (Timed.finished (Timed.of_exact s))
  = Tools.handle_result valves emitter w prompt s.
Proof. reflexivity. Qed.

(** [Tools.edit_image] is the function on the exact clock: what is proved
    of it above is proved of a loop that adds its intervals without
    rounding. *)
Lemma tools_run_on_the_exact_clock (fuel : nat) (valves : Tools.Valves)
    (prompt : string) (aspect_ratio : option string)
    (high_fidelity : option bool) (emitter : bool)
    (messages : option (list dict)) (w : World) :
  Timed.edit_image (exact_clock (Tools.polling_interval valves)) fuel valves
    prompt aspect_ratio high_fidelity emitter messages w
  = Tools.edit_image fuel valves prompt aspect_ratio high_fidelity emitter
      messages w.
Proof.
  assert (Hpoll : forall h log0,
            Timed.poll_for_completion
              (exact_clock (Tools.polling_interval valves)) fuel valves
              emitter w prompt h log0
            = Tools.poll_for_completion fuel valves emitter w prompt h log0).
  { intros h log0. unfold Timed.poll_for_completion, Tools.poll_for_completion.
    change (Timed.start (exact_clock (Tools.polling_interval valves)) h log0)
      with (Timed.of_exact (Tools.start h log0)).
    rewrite exact_clock_loop.
    destruct (Tools.poll_loop fuel valves emitter w (Tools.prediction_url h)
                (Tools.start h log0)) as [[[| |e] s]|]; reflexivity. }
  unfold Timed.edit_image, Tools.edit_image.
  replace (Timed.edit_image_try (exact_clock (Tools.polling_interval valves))
             fuel valves prompt aspect_ratio high_fidelity emitter messages w)
    with (Tools.edit_image_try fuel valves prompt aspect_ratio high_fidelity
            emitter messages w); [reflexivity|].
  unfold Timed.edit_image_try, Tools.edit_image_try.
  destruct (negb _); [reflexivity|].
  destruct messages as [[|m msgs]|]; try reflexivity.
  destruct (extract_images_from_messages (m :: msgs) 3) as [|img images];
    [reflexivity|].
  destruct (Tools.build_input _ _ _ _ _) as [e|replicate_input];
    [reflexivity|].
  destruct (Tools.submit_prediction valves w replicate_input)
    as [posted [e|[early|h]]]; try reflexivity.
  symmetry. apply Hpoll.
Qed.

(** The two clocks part: with an interval of a tenth and a deadline of 1
    the exact clock reaches the deadline after 10 status checks, the clock
    of the machine after 11. *)
Example machine_clock_is_late :
  (exists s,
     Tools.poll_loop 100 (Sample.valves 1 (1 # 10)) true Sample.never_done
       (PredictionUrl (PStr "p1")) (Tools.start Sample.handle_p1 [])
     = Some (Tools.TimedOut, s)
     /\ Tools.polls s = 10%nat)
  /\ (exists s : Timed.poll_state float,
        Timed.poll_loop (binary64_clock tenth) 100
          (Sample.valves 1 (1 # 10)) true Sample.never_done
          (PredictionUrl (PStr "p1"))
          (Timed.start (binary64_clock tenth) Sample.handle_p1 [])
        = Some (Tools.TimedOut, s)
        /\ Timed.polls s = 11%nat).
Proof.
  split; eexists; (split; [vm_compute; reflexivity | reflexivity]).
Qed.
